(** * build_kernel.py: a shallow embedding of the kernel build orchestrator

    The script drives an external toolchain: it validates its arguments,
    checks its dependencies, prepares the environment, composes and runs two
    [make] command lines, extracts the kernel release string and packages the
    boot image into a flashable archive.

    Everything the script does is an effect on the outside world, so the
    embedding is a state-and-exception monad over an explicit [World]: the
    file system, the working directory, the environment variables and a
    chronological log of the effects performed.  External processes, the
    [re] library and the archive format are parameters of the model.

    The model follows the failures the script itself can meet: a process
    that cannot be started or exits with a code other than 0, a pattern
    without a match, a file that is missing, an environment variable that is
    unset.  The output of a process is taken as text, as it is after
    decoding; permissions, full disks and symbolic links are outside the
    model.  A write creates its file: where a theorem is about a write to a
    path of the caller's choosing, it assumes that the path can be created
    ([creatable]), and paths of the caller's choosing are taken as the script
    writes its own ([simple]). *)

From Stdlib Require Import Ascii ZArith.
From stdpp Require Import base option list strings gmap pretty.

(** ** Strings *)

(** The double quote character, written by its code. *)
Definition dquote : ascii := "034"%char.

(** [str.split(sep)] for a one-character separator. *)
Fixpoint split (sep : ascii) (s : string) : list string :=
  match s with
  | EmptyString => [EmptyString]
  | String c s' =>
      if Ascii.eqb c sep then EmptyString :: split sep s'
      else match split sep s' with
           | w :: ws => String c w :: ws
           | [] => [String c EmptyString]
           end
  end.

(** [sep.join(parts)]. *)
Fixpoint join (sep : string) (parts : list string) : string :=
  match parts with
  | [] => EmptyString
  | [p] => p
  | p :: ps => p +:+ sep +:+ join sep ps
  end.

Definition startswith (c : ascii) (s : string) : bool :=
  match s with
  | String c' _ => Ascii.eqb c' c
  | EmptyString => false
  end.

Fixpoint endswith (c : ascii) (s : string) : bool :=
  match s with
  | EmptyString => false
  | String c' EmptyString => Ascii.eqb c' c
  | String _ s' => endswith c s'
  end.

(** [x in xs] on a list of strings. *)
Definition str_in (x : string) (xs : list string) : bool :=
  bool_decide (x ∈ xs).

(** [str(x)] of an optional integer such as [os.cpu_count()]. *)
Definition str_opt_nat (x : option nat) : string :=
  match x with
  | Some n => pretty n
  | None => "None"
  end.

Definition str_opt (x : option string) : string :=
  match x with
  | Some s => s
  | None => "None"
  end.

Definition str_bool (b : bool) : string :=
  if b then "True" else "False".

(** ** Paths *)

(** [os.pathsep] on the platform the script targets. *)
Definition pathsep : ascii := ":"%char.

(** One step of [posixpath.join]. *)
Definition path_join2 (a b : string) : string :=
  if startswith "/" b then b
  else if (String.eqb a EmptyString || endswith "/" a)%bool then a +:+ b
  else a +:+ "/" +:+ b.

(** [os.path.join(a, *p)]. *)
Definition path_join (a : string) (p : list string) : string :=
  foldl path_join2 a p.

(** A file is named in the model by the components of its absolute path,
    with [.], [..] and empty components resolved.  Symbolic links are not
    modelled. *)
Abbreviation path := (list string).

Definition normalize_step (acc : list string) (comp : string) : list string :=
  if String.eqb comp EmptyString then acc
  else if String.eqb comp "." then acc
  else if String.eqb comp ".." then removelast acc
  else acc ++ [comp].

Definition normalize (comps : list string) : path :=
  foldl normalize_step [] comps.

(** The file a path string names when the working directory is [cwd]. *)
Definition resolve (cwd p : string) : path :=
  normalize (split "/" (path_join2 cwd p)).

(** The absolute path string of a resolved path. *)
Definition render (p : path) : string :=
  "/" +:+ join "/" p.

(** ** The world *)

(** What a path holds: a regular file with its content, or a directory.
    The map is flat: a directory is also present when something lies
    beneath it.  Only the absence of a file is modelled as a file system
    failure; permissions, full disks and the like are outside the model, and
    a write replaces whatever the path held. *)
Inductive node :=
| File (content : string)
| Dir.

(** A member of an archive: the file name given to [ZipFile.write], and the
    content read there. *)
Abbreviation member := (string * string)%type.

Abbreviation filesystem := (gmap path node).

Inductive exn :=
| CommandError (command : list string) (returncode : Z)
| AssertionError (message : string)
| NameError (name : string)
| IndexError (message : string)
| KeyError (key : string)
| FileNotFoundError (filename : string).

(** The effects of the script, in the order it performs them.  A process
    is logged when it is spawned, with the file system it starts in, and
    when it has ended, with its exit code and captured output. *)
Inductive event :=
| EvPrint (line : string)
| EvSpawn (command : list string) (seen : filesystem)
| EvExit (command : list string) (returncode : Z) (stdout stderr : string)
| EvWrite (file : path) (text : string)
| EvSetenv (name value : string)
| EvRmtree (dir : path)
| EvCopy (src dst : path)
| EvChdir (dir : path)
| EvZipOpen (archive : path)
| EvZipClose (archive : path) (members : list member)
| EvRemove (file : path)
| EvMove (src dst : path).

Record World := mkWorld {
  fs : filesystem;
  cwd : string;
  environ : gmap string string;
  cpu_count : option nat;
  today : string;
  elapsed : string;
  log : list event
}.

Definition set_fs (f : filesystem) (w : World) : World :=
  mkWorld f (cwd w) (environ w) (cpu_count w) (today w) (elapsed w) (log w).
Definition set_cwd (d : string) (w : World) : World :=
  mkWorld (fs w) d (environ w) (cpu_count w) (today w) (elapsed w) (log w).
Definition set_environ (e : gmap string string) (w : World) : World :=
  mkWorld (fs w) (cwd w) e (cpu_count w) (today w) (elapsed w) (log w).
Definition emit (e : event) (w : World) : World :=
  mkWorld (fs w) (cwd w) (environ w) (cpu_count w) (today w) (elapsed w)
          (log w ++ [e]).

(** ** The monad: state over [World], with Python exceptions *)

Inductive result (A : Type) :=
| Ok (a : A)
| Raise (e : exn).
Arguments Ok {A} a.
Arguments Raise {A} e.

Definition M (A : Type) : Type := World → result A * World.

Definition ret {A} (a : A) : M A := λ w, (Ok a, w).
Definition raise {A} (e : exn) : M A := λ w, (Raise e, w).
Definition bind {A B} (m : M A) (k : A → M B) : M B :=
  λ w, match m w with
       | (Ok a, w') => k a w'
       | (Raise e, w') => (Raise e, w')
       end.

Notation "x <- m ;; k" := (bind m (λ x, k))
  (at level 100, m at next level, right associativity,
   format "'[v' x  <-  m  ;;  '/' k ']'").
Notation "m ;; k" := (bind m (λ _, k))
  (at level 100, right associativity,
   format "'[v' m  ;;  '/' k ']'").

Definition get {A} (f : World → A) : M A := λ w, (Ok (f w), w).
Definition modify (f : World → World) : M unit := λ w, (Ok tt, f w).

(** [try: m  except <handled>: h]: the handler sees the exception, and the
    world as the failed body left it. *)
Definition try_except {A} (m : M A) (handled : exn → bool) (h : exn → M A) : M A :=
  λ w, match m w with
       | (Raise e, w') => if handled e then h e w' else (Raise e, w')
       | r => r
       end.

(** ** File system primitives *)

(** [os.path.exists]: a file, a directory, or a directory implied by what
    lies beneath it. *)
Definition fs_exists (f : filesystem) (p : path) : bool :=
  bool_decide (map_Exists (λ k _, p `prefix_of` k) f).

(** [shutil.rmtree]: everything at or beneath the directory goes. *)
Definition fs_rmtree (f : filesystem) (d : path) : filesystem :=
  filter (λ kv, ¬ d `prefix_of` kv.1) f.

Definition print (line : string) : M unit := modify (emit (EvPrint line)).

Definition getcwd : M string := get cwd.

(** [os.path.exists(p)].  The path is resolved by its text alone, which
    is how the system resolves the names the script passes: relative, with
    no [.], [..] or empty component. *)
Definition path_exists (p : string) : M bool :=
  get (λ w, fs_exists (fs w) (resolve (cwd w) p)).

(** [with open(p, "w") as f: f.write(text)], at a path where a file can
    be created: the directory it lies in exists. *)
Definition write_text (p text : string) : M unit :=
  λ w, let k := resolve (cwd w) p in
       (Ok tt, emit (EvWrite k text) (set_fs (<[k := File text]> (fs w)) w)).

(** [with open(p) as f: f.read()]. *)
Definition read_text (p : string) : M string :=
  λ w, match fs w !! resolve (cwd w) p with
       | Some (File s) => (Ok s, w)
       | _ => (Raise (FileNotFoundError p), w)
       end.

(** [shutil.rmtree(p)], of a directory. *)
Definition rmtree (p : string) : M unit :=
  λ w, let k := resolve (cwd w) p in
       if fs_exists (fs w) k
       then (Ok tt, emit (EvRmtree k) (set_fs (fs_rmtree (fs w) k) w))
       else (Raise (FileNotFoundError p), w).

(** [shutil.copyfile(src, dst)], into a directory that exists. *)
Definition copyfile (src dst : string) : M unit :=
  λ w, let ks := resolve (cwd w) src in
       let kd := resolve (cwd w) dst in
       match fs w !! ks with
       | Some (File s) =>
           (Ok tt, emit (EvCopy ks kd) (set_fs (<[kd := File s]> (fs w)) w))
       | _ => (Raise (FileNotFoundError src), w)
       end.

(** [os.chdir(p)]. *)
Definition chdir (p : string) : M unit :=
  λ w, let k := resolve (cwd w) p in
       if fs_exists (fs w) k
       then (Ok tt, emit (EvChdir k) (set_cwd (render k) w))
       else (Raise (FileNotFoundError p), w).

(** [os.remove(p)], of a file. *)
Definition remove (p : string) : M unit :=
  λ w, let k := resolve (cwd w) p in
       match fs w !! k with
       | Some _ => (Ok tt, emit (EvRemove k) (set_fs (delete k (fs w)) w))
       | None => (Raise (FileNotFoundError p), w)
       end.

(** [shutil.move(src, dst)] where [dst] is not an existing directory: a
    rename. *)
Definition move (src dst : string) : M unit :=
  λ w, let ks := resolve (cwd w) src in
       let kd := resolve (cwd w) dst in
       match fs w !! ks with
       | Some n =>
           (Ok tt, emit (EvMove ks kd) (set_fs (<[kd := n]> (delete ks (fs w))) w))
       | None => (Raise (FileNotFoundError src), w)
       end.

(** [os.environ[name]]. *)
Definition getenv (name : string) : M string :=
  λ w, match environ w !! name with
       | Some v => (Ok v, w)
       | None => (Raise (KeyError name), w)
       end.

(** [os.environ[name] = value]. *)
Definition setenv (name value : string) : M unit :=
  modify (λ w, emit (EvSetenv name value)
                 (set_environ (<[name := value]> (environ w)) w)).

(** ** The external collaborators *)

(** What [Popen(...).communicate()] yields: the process could not be
    started, or it ran to its end with an exit code, its two output streams
    (as decoded text) and whatever it did to the file system. *)
Inductive proc :=
| NotSpawned (e : exn)
| Exited (returncode : Z) (stdout stderr : string) (fs' : filesystem).

(** What [re.search] yields on a match: the groups, the whole match at index
    0; a group that took no part in the match is [None]. *)
Abbreviation re_match := (list (option string)).

(** [match.group(n)]; the result is a string or Python's [None]. *)
Definition group (m : re_match) (n : nat) : M (option string) :=
  match m !! n with
  | Some g => ret g
  | None => raise (IndexError "no such group")
  end.

(** The names bound at module level. *)
Definition module_globals : list string :=
  ["argparse"; "subprocess"; "os"; "shutil"; "re"; "datetime"; "zipfile";
   "CommandError"; "run_command"; "file_exists"; "extract_match";
   "display_info"; "create_zip"; "ClangCompiler"; "main"].

(** Reading a name inside a function: its locals first, then the module. *)
Definition lookup_name (locals : list (string * string)) (x : string) : M string :=
  match list_to_map (M := gmap string string) locals !! x with
  | Some v => ret v
  | None =>
      if str_in x module_globals then ret ("<" +:+ x +:+ ">")
      else raise (NameError x)
  end.

(** Python's truth value of an optional path argument. *)
Definition truthy (o : option string) : bool :=
  match o with
  | Some s => negb (String.eqb s EmptyString)
  | None => false
  end.

(** ** The program *)

Record Args := mkArgs {
  target : string;
  allow_dirty : bool;
  oneui : bool;
  aosp : bool;
  no_ksu : bool;
  permissive : bool
}.

(** Where [main] returns. *)
Inductive exit_point :=
| RejectedVariants
| RejectedTarget
| NoToolchain
| Completed.

Section Program.

(** The operating system running a command in a given file system,
    working directory and environment. *)
Variable popen : list string → filesystem → string → gmap string string → proc.

(** [re.search(regex, text)]. *)
Variable re_search : string → string → option re_match.

(** The bytes of a deflate archive with the given members. *)
Variable zip_bytes : list member → string.

Definition spawn (command : list string) : M (Z * string * string) :=
  λ w, let w1 := emit (EvSpawn command (fs w)) w in
       match popen command (fs w) (cwd w) (environ w) with
       | NotSpawned e => (Raise e, w1)
       | Exited rc out err fs' =>
           (Ok (rc, out, err), emit (EvExit command rc out err) (set_fs fs' w1))
       end.

Definition run_command (command : list string)
    (stdout_log_file stderr_log_file : option string) : M (string * string) :=
  p <- spawn command ;;
  let '(returncode, stdout, stderr) := p in
  (if truthy stdout_log_file
   then write_text (str_opt stdout_log_file) stdout else ret tt) ;;
  (if truthy stderr_log_file
   then write_text (str_opt stderr_log_file) stderr else ret tt) ;;
  (if truthy stdout_log_file || truthy stderr_log_file
   then print ("Output log files: " +:+ str_opt stdout_log_file +:+ ", "
                 +:+ str_opt stderr_log_file)
   else ret tt) ;;
  if bool_decide (returncode ≠ 0%Z)
  then raise (CommandError command returncode)
  else ret (stdout, stderr).

Definition file_exists (filepath : string) : M bool :=
  e <- path_exists filepath ;;
  if negb e
  then print ("File not found: " +:+ filepath) ;; ret false
  else ret true.

(** The message of the [AssertionError] is an f-string over [pattern] and
    [regex]; it is evaluated before the exception is built. *)
Definition extract_match (regex text : string) : M (option string) :=
  match re_search regex text with
  | None =>
      let locals := [("regex", regex); ("text", text); ("match", "None")] in
      pattern <- lookup_name locals "pattern" ;;
      regex' <- lookup_name locals "regex" ;;
      raise (AssertionError ("Failed to match pattern: " +:+ pattern
                               +:+ " with regex: " +:+ regex'))
  | Some m => group m 1
  end.

Definition print_items (info_dict : list (string * string)) : M unit :=
  foldr (λ kv k, print (kv.1 +:+ "=" +:+ kv.2) ;; k) (ret tt) info_dict.

Definition display_info (info_dict : list (string * string)) : M unit :=
  print "================================" ;;
  print_items info_dict ;;
  print "================================".

(** [zf.write(file)]: the file must exist; a directory becomes a member
    without data.  The member is named as the file is named, which is the name
    the archive stores for a regular file given by a relative name with no
    [.], [..] or empty component. *)
Definition zf_write (file : string) : M member :=
  λ w, let k := resolve (cwd w) file in
       match fs w !! k with
       | Some (File s) => (Ok (file, s), w)
       | _ => if fs_exists (fs w) k then (Ok (file, EmptyString), w)
              else (Raise (FileNotFoundError file), w)
       end.

(** The loop over [files].  The members written so far are kept in the
    open archive, so they are returned along with the outcome. *)
Fixpoint zf_write_all (files : list string) (written : list member)
    : World → result unit * list member * World :=
  λ w, match files with
       | [] => (Ok tt, written, w)
       | file :: rest =>
           match zf_write file w with
           | (Ok m, w') => zf_write_all rest (written ++ [m]) w'
           | (Raise e, w') => (Raise e, written, w')
           end
       end.

(** [zipfile.ZipFile(zip_filename, 'w', ...)]: the file is created or
    truncated at once, at a path where a file can be created. *)
Definition zip_open (zip_filename : string) : M unit :=
  λ w, let k := resolve (cwd w) zip_filename in
       (Ok tt, emit (EvZipOpen k) (set_fs (<[k := File EmptyString]> (fs w)) w)).

(** Leaving the [with] block closes the archive, on an exception too:
    the members written so far are completed into a valid archive. *)
Definition zip_close (k : path) (members : list member) : M unit :=
  modify (λ w, emit (EvZipClose k members)
                 (set_fs (<[k := File (zip_bytes members)]> (fs w)) w)).

(** The body of the [with] block and its exit. *)
Definition zip_write_and_close (k : path) (files : list string) : M unit :=
  λ w, match zf_write_all files [] w with
       | (r, members, w') =>
           match zip_close k members w' with
           | (_, w'') => (r, w'')
           end
       end.

Definition create_zip (zip_filename : string) (files : list string) : M unit :=
  print ("Creating zip: " +:+ zip_filename +:+ " with "
           +:+ pretty (length files) +:+ " files") ;;
  k <- get (λ w, resolve (cwd w) zip_filename) ;;
  zip_open zip_filename ;;
  zip_write_and_close k files ;;
  print "Zip creation complete".

Definition is_CommandError (e : exn) : bool :=
  match e with CommandError _ _ => true | _ => false end.

Definition is_FileNotFoundError (e : exn) : bool :=
  match e with FileNotFoundError _ => true | _ => false end.

Definition clang_v : list string := ["./toolchain/bin/clang"; "-v"].

Definition verify_executable : M unit :=
  try_except (run_command clang_v None None ;; ret tt)
    is_CommandError
    (λ e, print "Clang execution failed" ;; raise e).

Definition version_regex : string := "(.*?clang version \d+(\.\d+)*)".

Definition get_version : M (option string) :=
  p <- run_command clang_v None None ;;
  extract_match version_regex p.2.

(** *** [main], in the order of its statements *)

Definition valid_targets : list string :=
  ["a51"; "f41"; "m31s"; "m31"; "m21"; "gta4xl"; "gta4xlwifi"].

Definition kernel_version : string := "1.7.0".

Definition common_flags (cpu : option nat) : list string :=
  ["CROSS_COMPILE=aarch64-linux-gnu-"; "CC=clang"; "LD=ld.lld";
   "AS=llvm-as"; "AR=llvm-ar"; "OBJDUMP=llvm-objdump";
   "READELF=llvm-readelf"; "NM=llvm-nm"; "OBJCOPY=llvm-objcopy";
   "ARCH=arm64"; "-j" +:+ str_opt_nat cpu].

Definition make_common (cpu : option nat) : list string :=
  ["make"; "O=out"; "LLVM=1"; "-j" +:+ str_opt_nat cpu] ++ common_flags cpu.

Definition base_fragment (args : Args) : string :=
  "exynos9611-" +:+ target args +:+ "_defconfig".

(** Lines 128 to 134: the base fragment, then the overlays. *)
Definition make_defconfig (args : Args) (cpu : option nat) : list string :=
  (((make_common cpu ++ [base_fragment args])
      ++ (if oneui args then ["oneui.config"] else []))
     ++ (if permissive args then ["permissive.config"] else []))
    ++ ["no-ksu.config"].

Definition build_type (args : Args) : string :=
  if oneui args then "OneUI" else "AOSP".

Definition selinux_state (args : Args) : string :=
  if permissive args then "Permissive" else "Enforcing".

Definition zip_filename (args : Args) (date : string) : string :=
  "SN_" +:+ kernel_version +:+ "_" +:+ target args +:+ "_"
    +:+ build_type args +:+ "_" +:+ date +:+ ".zip".

Definition manifest : list string :=
  ["Image";
   "META-INF/com/google/android/update-binary";
   "META-INF/com/google/android/updater-script";
   "tools/ak3-core.sh";
   "tools/busybox";
   "tools/magiskboot";
   "anykernel.sh";
   "version"].

Definition release_regex : string :=
  String dquote ("([^" +:+ String dquote ("]+)" +:+ String dquote EmptyString)).

(** Line 118, in the working directory [d]. *)
Definition toolchain_path (d : string) : string :=
  path_join d ["toolchain"; "bin"].

(** Lines 118 to 120. *)
Definition prepare_environment : M unit :=
  d <- getcwd ;;
  let toolchain_path := toolchain_path d in
  p <- getenv "PATH" ;;
  if negb (str_in toolchain_path (split pathsep p))
  then p' <- getenv "PATH" ;;
       setenv "PATH" (toolchain_path +:+ ":" +:+ p')
  else ret tt.

(** Lines 122 to 125. *)
Definition clean_output (args : Args) : M unit :=
  e <- path_exists "out" ;;
  if e && negb (allow_dirty args)
  then print "Cleaning build output..." ;; rmtree "out"
  else ret tt.

(** Lines 127 to 141. *)
Definition build (args : Args) : M unit :=
  cpu <- get cpu_count ;;
  print "Running make defconfig..." ;;
  run_command (make_defconfig args cpu)
    (Some "make_defconfig_stdout.log") (Some "make_defconfig_stderr.log") ;;
  print "Building the kernel..." ;;
  run_command (make_common cpu)
    (Some "make_common_stdout.log") (Some "make_common_stderr.log") ;;
  print "Build complete".

(** Lines 144 to 172. *)
Definition package (args : Args) : M unit :=
  text <- read_text (path_join "out" ["include"; "generated"; "utsrelease.h"]) ;;
  kernel_version_info <- extract_match release_regex text ;;
  copyfile "out/arch/arm64/boot/Image" "AnyKernel3/Image" ;;
  date <- get today ;;
  let zip_filename := zip_filename args date in
  chdir "AnyKernel3/" ;;
  create_zip zip_filename manifest ;;
  d <- getcwd ;;
  let final_zip_path := path_join d [".."; zip_filename] in
  try_except (remove final_zip_path) is_FileNotFoundError (λ _, ret tt) ;;
  move zip_filename final_zip_path ;;
  chdir ".." ;;
  seconds <- get elapsed ;;
  display_info
    [("OUT_ZIPNAME", zip_filename);
     ("KERNEL_VERSION", str_opt kernel_version_info);
     ("ELAPSED_TIME", seconds +:+ " seconds")].

Definition git_update : list string :=
  ["git"; "submodule"; "update"; "--init"].

(** Lines 97 to 101; [false] when [main] returns at line 101. *)
Definition acquire_dependencies : M bool :=
  have_ak3 <- file_exists "AnyKernel3/anykernel.sh" ;;
  (if negb have_ak3
   then run_command git_update None None ;; ret tt
   else ret tt) ;;
  have_clang <- file_exists "toolchain/bin/clang" ;;
  if negb have_clang then
    d <- getcwd ;;
    print ("Toolchain must be available at " +:+ d +:+ "/toolchain") ;;
    ret false
  else ret true.

(** Lines 103 to 116; the dictionary is built, the version probed, before
    anything is printed. *)
Definition probe_and_report (args : Args) : M unit :=
  verify_executable ;;
  toolchain_version <- get_version ;;
  display_info
    [("Kernel Name", "Something New");
     ("Kernel Version", kernel_version);
     ("Build Type", build_type args);
     ("SELinux", selinux_state args);
     ("Device", target args);
     ("With KernelSU", str_bool (negb (no_ksu args)));
     ("Using LLVM", str_bool true);
     ("Toolchain Version", str_opt toolchain_version)].

Definition main (args : Args) : M exit_point :=
  if oneui args && aosp args then
    print "Both OneUI and AOSP flags cannot be defined at the same time." ;;
    ret RejectedVariants
  else if negb (str_in (target args) valid_targets) then
    print "Specify a valid target: a51/f41/m31s/m31/m21/gta4xl/gta4xlwifi" ;;
    ret RejectedTarget
  else
    have_toolchain <- acquire_dependencies ;;
    if negb have_toolchain then ret NoToolchain
    else
      probe_and_report args ;;
      prepare_environment ;;
      clean_output args ;;
      build args ;;
      package args ;;
      ret Completed.

End Program.

(** ** A concrete [re.search]

    A backtracking matcher for the fragment of Python's regular expressions
    the script uses, with leftmost-first search, greedy and lazy stars and
    numbered groups.  It serves to run the program on concrete inputs; the
    general theorems hold for any [re_search]. *)

Module Re.

Inductive regex :=
| Any                                   (* [.]: anything but a newline *)
| Lit (c : ascii)
| Digit                                 (* [\d], on ASCII *)
| Not (c : ascii)                       (* [[^c]] *)
| Seq (r1 r2 : regex)
| Star (greedy : bool) (r : regex)
| Grp (n : nat) (r : regex).

Definition is_digit (c : ascii) : bool :=
  let n := nat_of_ascii c in (48 <=? n)%nat && (n <=? 57)%nat.

Definition newline : ascii := "010"%char.

Fixpoint lits (s : string) : regex → regex :=
  match s with
  | EmptyString => λ r, r
  | String c s' => λ r, Seq (Lit c) (lits s' r)
  end.

Definition plus (greedy : bool) (r : regex) : regex := Seq r (Star greedy r).

Abbreviation caps := (gmap nat string).
Abbreviation cont := (string → caps → option (string * caps)).

Definition one (p : ascii → bool) (s : string) (c : caps) (k : cont) :=
  match s with
  | String a s' => if p a then k s' c else None
  | EmptyString => None
  end.

Definition or_else {A} (a b : option A) : option A :=
  match a with Some _ => a | None => b end.

(** What was consumed between [s] and its suffix [s']. *)
Definition consumed (s s' : string) : string :=
  String.substring 0 (String.length s - String.length s') s.

(** [go r s c k]: match [r] at the head of [s], then continue with [k] on
    the rest.  A star iterates only while its body consumes input, so the
    iteration count is bounded by the length of the text. *)
Fixpoint go (r : regex) : string → caps → cont → option (string * caps) :=
  match r with
  | Any => one (λ a, negb (Ascii.eqb a newline))
  | Lit c => one (Ascii.eqb c)
  | Digit => one is_digit
  | Not c => one (λ a, negb (Ascii.eqb a c))
  | Seq r1 r2 => λ s c k, go r1 s c (λ s' c', go r2 s' c' k)
  | Grp n r' => λ s c k, go r' s c (λ s' c', k s' (<[n := consumed s s']> c'))
  | Star greedy r' =>
      let body := go r' in
      λ s c k,
        (fix star (n : nat) (s : string) (c : caps) : option (string * caps) :=
           match n with
           | O => k s c
           | S n' =>
               let more :=
                 body s c (λ s' c',
                   if (String.length s' <? String.length s)%nat
                   then star n' s' c' else None) in
               if greedy then or_else more (k s c) else or_else (k s c) more
           end) (String.length s) s c
  end.

Fixpoint search_from (r : regex) (groups : nat) (s : string) : option re_match :=
  match go r s ∅ (λ s' c, Some (s', c)) with
  | Some (s', c) =>
      Some (Some (consumed s s') :: map (λ n, c !! n) (seq 1 groups))
  | None =>
      match s with
      | String _ s' => search_from r groups s'
      | EmptyString => None
      end
  end.

(** [version_regex]: a lazy run of anything, the literal text, a number
    and its dotted parts; group 1 is the whole, group 2 a dotted part. *)
Definition version_re : regex :=
  Grp 1 (Seq (Star false Any)
           (lits "clang version "
              (Seq (plus true Digit)
                   (Star true (Grp 2 (Seq (Lit ".") (plus true Digit))))))).

(** [release_regex]: a quote, one or more characters that are not a
    quote (group 1), a quote. *)
Definition release_re : regex :=
  Seq (Lit dquote) (Seq (Grp 1 (plus true (Not dquote))) (Lit dquote)).

(** The patterns of the script, compiled by hand. *)
Definition compile (pattern : string) : option (regex * nat) :=
  if String.eqb pattern version_regex then Some (version_re, 2)
  else if String.eqb pattern release_regex then Some (release_re, 1)
  else None.

Definition search (pattern text : string) : option re_match :=
  match compile pattern with
  | Some (r, groups) => search_from r groups text
  | None => None
  end.

End Re.

(** ** A concrete machine

    A build host to run the program on: a checkout with the toolchain, the
    packaging sub-project and a stale output directory, and processes that
    behave as the real ones do in outline.  The exit codes of [git] and of
    the compilation are left open. *)

Module Lab.

(** A transparent stand-in for the bytes of an archive: the member names
    and contents, in order. *)
Definition zip_store (members : list member) : string :=
  foldr (λ m acc, m.1 +:+ "=" +:+ m.2 +:+ ";" +:+ acc) "ZIP" members.

Definition put (d p content : string) (f : filesystem) : filesystem :=
  <[resolve d p := File content]> f.

Definition uts_release : string :=
  "#define UTS_RELEASE " +:+ String dquote ("4.14.113-sn" +:+ String dquote EmptyString).

Definition is_defconfig (command : list string) : bool :=
  bool_decide (last command = Some "no-ksu.config").

Definition popen (git_rc make_rc : Z) (command : list string)
    (f : filesystem) (d : string) (env : gmap string string) : proc :=
  match command with
  | "./toolchain/bin/clang" :: _ =>
      Exited 0 EmptyString "Ubuntu clang version 17.0.6 (9ubuntu1)" f
  | "git" :: _ =>
      if bool_decide (git_rc = 0%Z)
      then Exited 0 "Submodule path 'AnyKernel3': checked out" EmptyString
             (put d "AnyKernel3/anykernel.sh" "# AnyKernel3" f)
      else Exited git_rc EmptyString "fatal: unable to access the remote" f
  | "make" :: _ =>
      if is_defconfig command
      then Exited 0 "# configuration written to .config" EmptyString
             (put d "out/.config" "CONFIG_ARM64=y" f)
      else if bool_decide (make_rc = 0%Z)
      then Exited 0 "  LD      vmlinux" EmptyString
             (put d "out/include/generated/utsrelease.h" uts_release
                (put d "out/arch/arm64/boot/Image" "ARM64 boot image" f))
      else Exited make_rc "  CC      init/main.o" "make: *** [vmlinux] Error 1" f
  | _ => NotSpawned (FileNotFoundError (default EmptyString (head command)))
  end.

Definition home : string := "/home/user/kernel".

Definition checkout : filesystem :=
  put home "toolchain/bin/clang" "ELF"
    (put home "out/.config" "CONFIG_STALE=y"
       (foldr (λ p, put home ("AnyKernel3/" +:+ p) p) ∅
          ("anykernel.sh" :: "version" :: "tools/busybox" :: "tools/magiskboot"
             :: "tools/ak3-core.sh"
             :: "META-INF/com/google/android/update-binary"
             :: "META-INF/com/google/android/updater-script" :: []))).

Definition host (f : filesystem) : World :=
  {| fs := f; cwd := home;
     environ := {[ "PATH" := "/usr/bin:/bin" ]};
     cpu_count := Some 8; today := "2024-05-01"; elapsed := "84.2";
     log := [] |}.

Definition m21 : Args :=
  {| target := "m21"; allow_dirty := false; oneui := false; aosp := false;
     no_ksu := false; permissive := false |}.

Definition a51_oneui_permissive : Args :=
  {| target := "a51"; allow_dirty := false; oneui := true; aosp := false;
     no_ksu := false; permissive := true |}.

Definition run (git_rc make_rc : Z) (args : Args) (w : World) :=
  main (popen git_rc make_rc) Re.search zip_store args w.

(** The [n]-th event of a log is the spawning of [command], in a file system
    with nothing at or beneath [dir]. *)
Definition spawned_without (l : list event) (n : nat)
    (command : list string) (dir : path) : bool :=
  match l !! n with
  | Some (EvSpawn c seen) => bool_decide (c = command) && negb (fs_exists seen dir)
  | _ => false
  end.

End Lab.

(** ** Vocabulary of the statements *)

(** The world after the logging part of [run_command], whatever the exit
    code: the logs requested are written, then named. *)
Definition logged (so se : option string) (out err : string) (w : World) : World :=
  let w1 := if truthy so
            then (write_text (str_opt so) out w).2 else w in
  let w2 := if truthy se
            then (write_text (str_opt se) err w1).2 else w1 in
  if truthy so || truthy se
  then emit (EvPrint ("Output log files: " +:+ str_opt so +:+ ", " +:+ str_opt se)) w2
  else w2.

(** [grows P w w']: the world [w'] comes after [w].  Its log is that of
    [w] with events satisfying [P] appended, the processor count and the
    clock are the same, and so is the working directory unless one of the
    new events is a change of directory. *)
Definition is_chdir (e : event) : Prop :=
  match e with EvChdir _ => True | _ => False end.

Definition grows (P : event → Prop) (w w' : World) : Prop :=
  ∃ evs, log w' = log w ++ evs ∧ Forall P evs
         ∧ cpu_count w' = cpu_count w ∧ today w' = today w
         ∧ elapsed w' = elapsed w
         ∧ (Forall (λ e, ¬ is_chdir e) evs → cwd w' = cwd w).

(** A computation [emits P] when every run of it makes the world grow by
    [P]. *)
Definition emits (P : event → Prop) {A} (m : M A) : Prop :=
  ∀ w, grows P w (m w).2.

(** The kinds of events of the three parts of [main]: before the build
    (lines 97 to 125), the build (lines 127 to 141), and the packaging (lines
    144 to 172). *)
Definition prelude_event (e : event) : Prop :=
  match e with
  | EvPrint _ | EvSetenv _ _ | EvRmtree _ => True
  | EvSpawn c _ | EvExit c _ _ _ => c = git_update ∨ c = clang_v
  | _ => False
  end.

Definition build_event (args : Args) (cpu : option nat) (e : event) : Prop :=
  match e with
  | EvPrint _ | EvWrite _ _ => True
  | EvSpawn c _ | EvExit c _ _ _ => c = make_defconfig args cpu ∨ c = make_common cpu
  | _ => False
  end.

Definition package_event (e : event) : Prop :=
  match e with
  | EvPrint _ | EvCopy _ _ | EvChdir _ | EvZipOpen _ | EvZipClose _ _
  | EvRemove _ | EvMove _ _ => True
  | _ => False
  end.

(** [main] from line 127 on, once the output directory has been cleaned. *)
Definition build_and_package
    (popen : list string → filesystem → string → gmap string string → proc)
    (re_search : string → string → option re_match)
    (zip_bytes : list member → string) (args : Args) : M exit_point :=
  build popen args ;; package re_search zip_bytes args ;; ret Completed.

(** What [build] does once the configuration command has been spawned,
    and what follows the build. *)
Definition compile_and_package
    (popen : list string → filesystem → string → gmap string string → proc)
    (re_search : string → string → option re_match)
    (zip_bytes : list member → string) (args : Args) (cpu : option nat)
    : M exit_point :=
  print "Building the kernel..." ;;
  run_command popen (make_common cpu)
    (Some "make_common_stdout.log") (Some "make_common_stderr.log") ;;
  print "Build complete" ;;
  package re_search zip_bytes args ;;
  ret Completed.

(** An event other than the spawning of the given command. *)
Definition not_spawn (command : list string) (e : event) : Prop :=
  match e with
  | EvSpawn c _ => c ≠ command
  | _ => True
  end.

(** [c in s]. *)
Fixpoint has_char (c : ascii) (s : string) : bool :=
  match s with
  | EmptyString => false
  | String c' s' => Ascii.eqb c' c || has_char c s'
  end.

(** A plain file name: one path component that names an entry. *)
Definition plain_name (p : string) : bool :=
  negb (has_char "/" p) && negb (String.eqb p EmptyString)
  && negb (String.eqb p ".") && negb (String.eqb p "..").

(** The directory a working directory string names. *)
Definition here (d : string) : path := normalize (split "/" d).




(** The world after [run_command] when the process has been spawned and has
    ended, whatever its exit code. *)
Definition ran (command : list string) (so se : option string) (w : World)
    (rc : Z) (out err : string) (fs' : filesystem) : World :=
  logged so se out err
    (emit (EvExit command rc out err)
       (set_fs fs' (emit (EvSpawn command (fs w)) w))).

(** The worlds after the two steps of the build. *)
Definition configured (args : Args) (w : World)
    (rc : Z) (out err : string) (fs' : filesystem) : World :=
  ran (make_defconfig args (cpu_count w))
    (Some "make_defconfig_stdout.log") (Some "make_defconfig_stderr.log")
    (emit (EvPrint "Running make defconfig...") w) rc out err fs'.

Definition compiled (cpu : option nat) (w : World)
    (rc : Z) (out err : string) (fs' : filesystem) : World :=
  ran (make_common cpu)
    (Some "make_common_stdout.log") (Some "make_common_stderr.log")
    (emit (EvPrint "Building the kernel...") w) rc out err fs'.

(** What [run_command] logs after the exit of the process. *)
Definition write_or_print (e : event) : Prop :=
  match e with
  | EvWrite _ _ | EvPrint _ => True
  | _ => False
  end.

(** The events of the dependency check: lines printed, and the fetch of the
    packaging sub-project. *)
Definition deps_event (e : event) : Prop :=
  match e with
  | EvPrint _ => True
  | EvSpawn c _ | EvExit c _ _ _ => c = git_update
  | _ => False
  end.

(** The file system in which the toolchain is looked for: the one [main]
    starts in when the packaging sub-project is there, and otherwise the one
    the fetch leaves, when the fetch succeeds. *)
Definition fetched
    (popen : list string → filesystem → string → gmap string string → proc)
    (w : World) (f : filesystem) : Prop :=
  if fs_exists (fs w) (resolve (cwd w) "AnyKernel3/anykernel.sh")
  then f = fs w
  else ∃ out err, popen git_update (fs w) (cwd w) (environ w) = Exited 0 out err f.

(** A build directory whose own path has a colon in it. *)
Definition colon_host : World :=
  {| fs := ∅; cwd := "/srv/a:b";
     environ := {[ "PATH" := "/usr/bin" ]};
     cpu_count := Some 8; today := "2024-05-01"; elapsed := "84.2";
     log := [] |}.

(** The member [zf.write(file)] adds for a file that exists, in file system
    [f] and working directory [d]. *)
Definition member_of (f : filesystem) (d file : string) : member :=
  match f !! resolve d file with
  | Some (File s) => (file, s)
  | _ => (file, EmptyString)
  end.

(** [after w evs d w']: the world [w'] is [w] with the events [evs]
    logged, the working directory [d], and the same clock. *)
Definition after (w : World) (evs : list event) (d : string) (w' : World) : Prop :=
  log w' = log w ++ evs ∧ cwd w' = d
  ∧ today w' = today w ∧ elapsed w' = elapsed w.

(** The lines of [display_info]. *)
Definition info_lines (info_dict : list (string * string)) : list event :=
  EvPrint "================================"
  :: map (λ kv, EvPrint (kv.1 +:+ "=" +:+ kv.2)) info_dict
  ++ [EvPrint "================================"].

Definition is_remove (e : event) : Prop :=
  match e with EvRemove _ => True | _ => False end.

(** ** Further vocabulary *)

(** A path name as the script writes its own: relative, its components
    plain names joined by slashes (no empty component, no [.], no [..]). *)
Definition simple (p : string) : bool := forallb plain_name (split "/" p).

(** A directory stands at the path: an entry marked as one, or the parent
    of some entry. *)
Definition is_dir (f : filesystem) (k : path) : bool :=
  match f !! k with
  | Some Dir => true
  | _ => bool_decide (map_Exists (λ k' _, k `prefix_of` k' ∧ k' ≠ k) f)
  end.

(** [open(p, "w")] and [ZipFile(p, "w")] can create the file [p] from the
    working directory [d]: the name is simple, the directory it lies in
    exists (the working directory itself does), and no directory stands at
    the path. *)
Definition creatable (f : filesystem) (d p : string) : bool :=
  simple p
  && match removelast (split "/" p) with
     | [] => true
     | dir => is_dir f (here d ++ dir)
     end
  && negb (is_dir f (here d ++ split "/" p)).


(** The events logged since the world [w]. *)
Definition news (w w' : World) : list event := drop (length (log w)) (log w').

(** A machine like [Lab.popen 0 0], but on which the compiler cannot run:
    it exits with the given code and says why on stderr. *)
Definition broken_clang (rc : Z) (command : list string)
    (f : filesystem) (d : string) (env : gmap string string) : proc :=
  match command with
  | "./toolchain/bin/clang" :: _ =>
      Exited rc EmptyString "clang: error while loading shared libraries" f
  | _ => Lab.popen 0 0 command f d env
  end.

(** The arguments with the [--aosp] flag set to [b], and with the
    [--no-ksu] flag set to [b]. *)
Definition with_aosp (b : bool) (args : Args) : Args :=
  {| target := target args; allow_dirty := allow_dirty args;
     oneui := oneui args; aosp := b;
     no_ksu := no_ksu args; permissive := permissive args |}.

Definition with_no_ksu (b : bool) (args : Args) : Args :=
  {| target := target args; allow_dirty := allow_dirty args;
     oneui := oneui args; aosp := aosp args;
     no_ksu := b; permissive := permissive args |}.

(** An event other than the spawning of a command outside the given
    ones. *)
Definition runs_only (commands : list (list string)) (e : event) : Prop :=
  match e with
  | EvSpawn c _ => c ∈ commands
  | _ => True
  end.

(** Two events that are the same, or two [With KernelSU] lines of the
    information block. *)
Definition same_event (e1 e2 : event) : Prop :=
  e1 = e2
  ∨ ∃ a b, e1 = EvPrint ("With KernelSU=" +:+ a)
           ∧ e2 = EvPrint ("With KernelSU=" +:+ b).

(** Two worlds that differ in the log at most, and there in [With
    KernelSU] lines only: the same files, working directory, environment and
    clock, and event by event the same effects. *)
Definition agree (w1 w2 : World) : Prop :=
  (fs w1, cwd w1, environ w1, cpu_count w1, today w1, elapsed w1)
  = (fs w2, cwd w2, environ w2, cpu_count w2, today w2, elapsed w2)
  ∧ Forall2 same_event (log w1) (log w2).

(** Two computations that, from worlds that agree, end alike in worlds that
    agree. *)
Definition alike {A} (m1 m2 : M A) : Prop :=
  ∀ w1 w2, agree w1 w2 → (m1 w1).1 = (m2 w2).1 ∧ agree (m1 w1).2 (m2 w2).2.

(** A resolved path: every component is a plain name. *)
Definition normal (p : path) : Prop := Forall (λ c, plain_name c = true) p.


(** * Properties *)

(** ** The monad *)

Lemma bind_unfold {A B} (m : M A) (k : A → M B) (w : World) :
  bind m k w = match m w with
               | (Ok a, w') => k a w'
               | (Raise e, w') => (Raise e, w')
               end.
Proof. reflexivity. Qed.

Lemma bind_ok {A B} (m : M A) (k : A → M B) w a w' :
  m w = (Ok a, w') → bind m k w = k a w'.
Proof. intros H. unfold bind. by rewrite H. Qed.

Lemma bind_raise {A B} (m : M A) (k : A → M B) w e w' :
  m w = (Raise e, w') → bind m k w = (Raise e, w').
Proof. intros H. unfold bind. by rewrite H. Qed.

Lemma bind_ok_inv {A B} (m : M A) (k : A → M B) w b w' :
  bind m k w = (Ok b, w') → ∃ a w1, m w = (Ok a, w1) ∧ k a w1 = (Ok b, w').
Proof.
  unfold bind. destruct (m w) as [[a|e] w1]; [eauto | discriminate].
Qed.

(** ** C1: [extract_match] *)

Section Extract.

Variable re_search : string → string → option re_match.

Lemma extract_match_found regex text m g w :
  re_search regex text = Some m → m !! 1%nat = Some g →
  extract_match re_search regex text w = (Ok g, w).
Proof.
  intros Hs Hg. unfold extract_match, group. by rewrite Hs, Hg.
Qed.

Lemma pattern_unbound regex text w :
  lookup_name [("regex", regex); ("text", text); ("match", "None")] "pattern" w
  = (Raise (NameError "pattern"), w).
Proof. reflexivity. Qed.

End Extract.

(** C1 (as the code has it).  When the text has no match, [extract_match]
    does not return, and it does not raise the [AssertionError] it spells
    out either: building the message reads the name [pattern], which is
    bound nowhere, so the call ends in [NameError].  (On a match the
    call returns group 1: [extract_match_found].) *)
Theorem extract_match_no_match_NameError
    (re_search : string → string → option re_match) (regex text : string) (w : World) :
  re_search regex text = None →
  extract_match re_search regex text w = (Raise (NameError "pattern"), w)
  ∧ (∀ msg, (extract_match re_search regex text w).1 ≠ Raise (AssertionError msg))
  ∧ (∀ v, (extract_match re_search regex text w).1 ≠ Ok v).
Proof.
  intros Hs.
  assert (extract_match re_search regex text w = (Raise (NameError "pattern"), w)) as ->.
  { unfold extract_match. rewrite Hs. by rewrite (bind_raise _ _ _ _ _ (pattern_unbound regex text w)). }
  repeat split; intros; discriminate.
Qed.

Lemma extract_match_no_match_witness :
  extract_match Re.search release_regex "#define UTS_RELEASE 4.14.113" (Lab.host ∅)
  = (Raise (NameError "pattern"), Lab.host ∅).
Proof.
  apply (extract_match_no_match_NameError Re.search release_regex
           "#define UTS_RELEASE 4.14.113" (Lab.host ∅)).
  vm_compute. reflexivity.
Defined.

(** ** C4: [run_command] *)

Section Runner.

Variable popen : list string → filesystem → string → gmap string string → proc.

Lemma spawn_exited command w rc out err fs' :
  popen command (fs w) (cwd w) (environ w) = Exited rc out err fs' →
  spawn popen command w
  = (Ok (rc, out, err),
     emit (EvExit command rc out err)
       (set_fs fs' (emit (EvSpawn command (fs w)) w))).
Proof. intros H. unfold spawn. by rewrite H. Qed.

Lemma spawn_failed command w e :
  popen command (fs w) (cwd w) (environ w) = NotSpawned e →
  spawn popen command w = (Raise e, emit (EvSpawn command (fs w)) w).
Proof. intros H. unfold spawn. by rewrite H. Qed.

Lemma run_command_exited command so se w rc out err fs' :
  popen command (fs w) (cwd w) (environ w) = Exited rc out err fs' →
  run_command popen command so se w
  = (if bool_decide (rc ≠ 0%Z)
     then Raise (CommandError command rc) else Ok (out, err),
     logged so se out err
       (emit (EvExit command rc out err)
          (set_fs fs' (emit (EvSpawn command (fs w)) w)))).
Proof.
  intros H. unfold run_command.
  rewrite (bind_ok _ _ _ _ _ (spawn_exited _ _ _ _ _ _ H)).
  unfold logged.
  destruct (truthy so), (truthy se), (bool_decide (rc ≠ 0%Z)); reflexivity.
Qed.

Lemma run_command_failed command so se w e :
  popen command (fs w) (cwd w) (environ w) = NotSpawned e →
  run_command popen command so se w
  = (Raise e, emit (EvSpawn command (fs w)) w).
Proof.
  intros H. unfold run_command.
  by rewrite (bind_raise _ _ _ _ _ (spawn_failed _ _ _ H)).
Qed.

End Runner.

Lemma logged_cwd so se out err w : cwd (logged so se out err w) = cwd w.
Proof.
  unfold logged. destruct (truthy so), (truthy se); reflexivity.
Qed.

Lemma logged_stderr so se out err w :
  truthy se →
  fs (logged so se out err w) !! resolve (cwd w) (str_opt se) = Some (File err).
Proof.
  intros Hse. unfold logged. destruct (truthy se); [|done].
  destruct (truthy so); simpl; apply lookup_insert_eq.
Qed.

Lemma logged_stdout so se out err w :
  truthy so →
  ¬ truthy se ∨ resolve (cwd w) (str_opt so) ≠ resolve (cwd w) (str_opt se) →
  fs (logged so se out err w) !! resolve (cwd w) (str_opt so) = Some (File out).
Proof.
  intros Hso Hd. unfold logged. destruct (truthy so); [|done].
  destruct (truthy se); simpl.
  - destruct Hd as [[]|Hd]; [done|].
    rewrite lookup_insert_ne by done. apply lookup_insert_eq.
  - apply lookup_insert_eq.
Qed.

Lemma logged_events so se out err w :
  (truthy so → EvWrite (resolve (cwd w) (str_opt so)) out ∈ log (logged so se out err w))
  ∧ (truthy se → EvWrite (resolve (cwd w) (str_opt se)) err ∈ log (logged so se out err w)).
Proof.
  unfold logged.
  destruct (truthy so), (truthy se); simpl; split; intros []; set_solver.
Qed.

(** C4.  Take a command whose process has ended, and log files that can be
    created where the process left the file system.  When the process exited
    with code 0 the call returns the captured stdout and stderr; when it
    exited with another code the call raises [CommandError] with the command
    and the code.  In both cases every log file asked for has been written by
    then: the stderr log holds the captured stderr, and the stdout log the
    captured stdout (unless both names are the same file, which the stderr
    then has overwritten), whatever the file held before. *)
Theorem run_command_exit_code
    (popen : list string → filesystem → string → gmap string string → proc)
    (command : list string) (so se : option string) (w : World)
    (rc : Z) (out err : string) (fs' : filesystem) :
  popen command (fs w) (cwd w) (environ w) = Exited rc out err fs' →
  (truthy so → creatable fs' (cwd w) (str_opt so)) →
  (truthy se → creatable fs' (cwd w) (str_opt se)) →
  let r := run_command popen command so se w in
  (rc = 0%Z → r.1 = Ok (out, err))
  ∧ (rc ≠ 0%Z → r.1 = Raise (CommandError command rc))
  ∧ (truthy so →
       EvWrite (resolve (cwd w) (str_opt so)) out ∈ log r.2
       ∧ (¬ truthy se ∨ resolve (cwd w) (str_opt so) ≠ resolve (cwd w) (str_opt se) →
          fs r.2 !! resolve (cwd w) (str_opt so) = Some (File out)))
  ∧ (truthy se →
       EvWrite (resolve (cwd w) (str_opt se)) err ∈ log r.2
       ∧ fs r.2 !! resolve (cwd w) (str_opt se) = Some (File err)).
Proof.
  intros H _ _ r. subst r. rewrite (run_command_exited _ _ _ _ _ _ _ _ _ H). simpl.
  set (w1 := emit _ _).
  assert (cwd w1 = cwd w) as Hc by reflexivity.
  destruct (logged_events so se out err w1) as [Eo Ee]. rewrite Hc in Eo, Ee.
  split; [|split; [|split]].
  - intros ->. reflexivity.
  - intros Hrc. by rewrite bool_decide_eq_true_2.
  - intros Hso. split; [auto|]. intros Hd.
    rewrite <- Hc. apply logged_stdout; by rewrite ?Hc.
  - intros Hse. split; [auto|].
    rewrite <- Hc. by apply logged_stderr.
Qed.

Lemma run_command_exit_code_witness :
  (run_command (Lab.popen 0 2) (make_common (Some 8))
     (Some "make_common_stdout.log") (Some "make_common_stderr.log")
     (Lab.host Lab.checkout)).1
  = Raise (CommandError (make_common (Some 8)) 2).
Proof.
  refine (proj1 (proj2 (run_command_exit_code (Lab.popen 0 2) (make_common (Some 8))
           (Some "make_common_stdout.log") (Some "make_common_stderr.log")
           (Lab.host Lab.checkout) 2 "  CC      init/main.o"
           "make: *** [vmlinux] Error 1" Lab.checkout _ _ _)) _).
  - reflexivity.
  - intros _. vm_compute. exact I.
  - intros _. vm_compute. exact I.
  - discriminate.
Defined.

(** ** C3: validation *)

(** C3.  A configuration with both variant flags set, or with a target
    outside the enumerated set, is rejected: [main] prints one diagnostic
    line and returns.  The world it leaves differs from the one it found by
    that line alone, so no process was spawned and nothing else was done. *)
Theorem validation_rejects
    (popen : list string → filesystem → string → gmap string string → proc)
    (re_search : string → string → option re_match)
    (zip_bytes : list member → string) (args : Args) (w : World) :
  (oneui args = true ∧ aosp args = true) ∨ target args ∉ valid_targets →
  ∃ ep line,
    main popen re_search zip_bytes args w = (Ok ep, emit (EvPrint line) w)
    ∧ (ep = RejectedVariants ∨ ep = RejectedTarget).
Proof.
  intros H. unfold main.
  destruct (oneui args && aosp args) eqn:Hv.
  - eexists _, _. split; [reflexivity | by left].
  - destruct H as [[Ho Ha]|Ht].
    + rewrite Ho, Ha in Hv. discriminate.
    + unfold str_in. rewrite bool_decide_eq_false_2 by done.
      eexists _, _. split; [reflexivity | by right].
Qed.

Lemma validation_rejects_witness :
  ∃ ep line,
    Lab.run 0 0 {| target := "s20"; allow_dirty := false; oneui := false;
                   aosp := false; no_ksu := false; permissive := false |}
      (Lab.host Lab.checkout)
    = (Ok ep, emit (EvPrint line) (Lab.host Lab.checkout))
    ∧ (ep = RejectedVariants ∨ ep = RejectedTarget).
Proof.
  apply (validation_rejects (Lab.popen 0 0) Re.search Lab.zip_store
           {| target := "s20"; allow_dirty := false; oneui := false;
              aosp := false; no_ksu := false; permissive := false |}
           (Lab.host Lab.checkout)).
  right. compute_done.
Defined.

(** ** How the world grows *)

Lemma grows_refl P w : grows P w w.
Proof. exists []. rewrite app_nil_r. auto 10. Qed.

Lemma grows_trans P w1 w2 w3 : grows P w1 w2 → grows P w2 w3 → grows P w1 w3.
Proof.
  intros (evs & Hl & HP & Ha & Hb & Hd & Hc) (evs' & Hl' & HP' & Ha' & Hb' & Hd' & Hc').
  exists (evs ++ evs'). rewrite Hl', Hl, app_assoc.
  repeat split; try congruence; [by apply Forall_app|].
  intros [G1 G2]%Forall_app. rewrite Hc', Hc; auto.
Qed.

Lemma grows_weaken (P Q : event → Prop) w w' :
  (∀ e, P e → Q e) → grows P w w' → grows Q w w'.
Proof.
  intros HPQ (evs & Hl & HP & H). exists evs.
  split; [done|]. split; [|done]. eapply Forall_impl; eauto.
Qed.

Lemma grows_emit P w w' e : grows P w w' → P e → grows P w (emit e w').
Proof.
  intros (evs & Hl & HP & Ha & Hb & Hd & Hc) He.
  exists (evs ++ [e]). simpl. rewrite Hl, app_assoc.
  repeat split; try done; [apply Forall_app; auto|].
  intros [G1 _]%Forall_app. auto.
Qed.

Lemma grows_set_fs P w w' f : grows P w w' → grows P w (set_fs f w').
Proof. intros (evs & H). by exists evs. Qed.

Lemma grows_set_environ P w w' env : grows P w w' → grows P w (set_environ env w').
Proof. intros (evs & H). by exists evs. Qed.

Lemma grows_chdir P w w' k d :
  grows P w w' → P (EvChdir k) → grows P w (emit (EvChdir k) (set_cwd d w')).
Proof.
  intros (evs & Hl & HP & Ha & Hb & Hd & Hc) He.
  exists (evs ++ [EvChdir k]). simpl. rewrite Hl, app_assoc.
  split_and!; try done.
  - apply Forall_app; auto.
  - intros [_ G2]%Forall_app. rewrite Forall_singleton in G2.
    exfalso. apply G2. exact I.
Qed.

(** What follows from growth. *)
Lemma grows_log P w w' : grows P w w' → log w = [] → Forall P (log w').
Proof. intros (evs & Hl & HP & _) Hw. by rewrite Hl, Hw. Qed.

Lemma grows_same_cwd P w w' :
  (∀ e, P e → ¬ is_chdir e) → grows P w w' → cwd w' = cwd w.
Proof.
  intros HP (evs & _ & Hevs & _ & _ & _ & Hc). apply Hc.
  eapply Forall_impl; eauto.
Qed.

Lemma grows_cpu_count P w w' : grows P w w' → cpu_count w' = cpu_count w.
Proof. by intros (evs & _ & _ & ? & _). Qed.

Lemma grows_today P w w' : grows P w w' → today w' = today w.
Proof. by intros (evs & _ & _ & _ & ? & _). Qed.

Ltac grows_now :=
  simpl;
  repeat first
    [ apply grows_refl
    | apply grows_set_fs | apply grows_set_environ
    | apply grows_chdir; [|by auto]
    | apply grows_emit; [|by auto] ].

Lemma emits_weaken (P Q : event → Prop) {A} (m : M A) :
  (∀ e, P e → Q e) → emits P m → emits Q m.
Proof. intros HPQ Hm w. eapply grows_weaken; eauto. Qed.

Lemma emits_pure (P : event → Prop) {A} (m : M A) :
  (∀ w, (m w).2 = w) → emits P m.
Proof. intros H w. rewrite H. apply grows_refl. Qed.

Lemma emits_ret P {A} (a : A) : emits P (ret a).
Proof. by apply emits_pure. Qed.

Lemma emits_raise P {A} (e : exn) : emits P (raise (A:=A) e).
Proof. by apply emits_pure. Qed.

Lemma emits_get P {A} (f : World → A) : emits P (get f).
Proof. by apply emits_pure. Qed.

Lemma emits_bind P {A B} (m : M A) (k : A → M B) :
  emits P m → (∀ a, emits P (k a)) → emits P (bind m k).
Proof.
  intros Hm Hk w. specialize (Hm w).
  unfold bind. destruct (m w) as [[a|e] w1]; simpl in *; [|done].
  eapply grows_trans; [done | apply Hk].
Qed.

Lemma emits_try_except P {A} (m : M A) handled h :
  emits P m → (∀ e, emits P (h e)) → emits P (try_except m handled h).
Proof.
  intros Hm Hh w. specialize (Hm w).
  unfold try_except. destruct (m w) as [[a|e] w1]; simpl in *; [done|].
  destruct (handled e); simpl; [|done].
  eapply grows_trans; [done | apply Hh].
Qed.

Lemma emits_print P line : P (EvPrint line) → emits P (print line).
Proof. intros H w. unfold print, modify. grows_now. Qed.

Lemma emits_path_exists P p : emits P (path_exists p).
Proof. by apply emits_pure. Qed.

Lemma emits_read_text P p : emits P (read_text p).
Proof.
  apply emits_pure. intros w. unfold read_text.
  by destruct (fs w !! resolve (cwd w) p) as [[]|].
Qed.

Lemma emits_getenv P x : emits P (getenv x).
Proof.
  apply emits_pure. intros w. unfold getenv. by destruct (environ w !! x).
Qed.

Lemma emits_setenv P x v : P (EvSetenv x v) → emits P (setenv x v).
Proof. intros H w. unfold setenv, modify. grows_now. Qed.

Lemma emits_write_text P p text :
  (∀ k, P (EvWrite k text)) → emits P (write_text p text).
Proof. intros H w. unfold write_text. grows_now. Qed.

Lemma emits_rmtree P p : (∀ k, P (EvRmtree k)) → emits P (rmtree p).
Proof. intros H w. unfold rmtree. destruct (fs_exists _ _); grows_now. Qed.

Lemma emits_copyfile P src dst : (∀ k k', P (EvCopy k k')) → emits P (copyfile src dst).
Proof.
  intros H w. unfold copyfile.
  destruct (fs w !! resolve (cwd w) src) as [[]|]; grows_now.
Qed.

Lemma emits_chdir P p : (∀ k, P (EvChdir k)) → emits P (chdir p).
Proof. intros H w. unfold chdir. destruct (fs_exists _ _); grows_now. Qed.

Lemma emits_remove P p : (∀ k, P (EvRemove k)) → emits P (remove p).
Proof.
  intros H w. unfold remove. destruct (fs w !! resolve (cwd w) p); grows_now.
Qed.

Lemma emits_move P src dst : (∀ k k', P (EvMove k k')) → emits P (move src dst).
Proof.
  intros H w. unfold move. destruct (fs w !! resolve (cwd w) src); grows_now.
Qed.

Lemma emits_group P (m : re_match) n : emits P (group m n).
Proof. unfold group. destruct (m !! n); [apply emits_ret | apply emits_raise]. Qed.

Lemma emits_lookup_name P locals x : emits P (lookup_name locals x).
Proof.
  unfold lookup_name. destruct (_ !! x); [apply emits_ret|].
  destruct (str_in _ _); [apply emits_ret | apply emits_raise].
Qed.

Section ProgramLog.

Variable popen : list string → filesystem → string → gmap string string → proc.
Variable re_search : string → string → option re_match.
Variable zip_bytes : list member → string.
Variable P : event → Prop.

Lemma emits_spawn command :
  (∀ seen, P (EvSpawn command seen)) →
  (∀ rc out err, P (EvExit command rc out err)) →
  emits P (spawn popen command).
Proof.
  intros Hs He w. unfold spawn. destruct (popen _ _ _ _); grows_now.
Qed.

Hypothesis P_print : ∀ line, P (EvPrint line).

Lemma emits_run_command command so se :
  (∀ seen, P (EvSpawn command seen)) →
  (∀ rc out err, P (EvExit command rc out err)) →
  (truthy so || truthy se → ∀ k text, P (EvWrite k text)) →
  emits P (run_command popen command so se).
Proof.
  intros Hs He Hw. unfold run_command.
  apply emits_bind; [by apply emits_spawn|]. intros [[rc out] err].
  destruct (truthy so), (truthy se); simpl;
    repeat (apply emits_bind; [|intros ?]);
    try (apply emits_write_text; intros; by apply Hw);
    try apply emits_ret; try by apply emits_print.
  all: destruct (bool_decide _); [apply emits_raise | apply emits_ret].
Qed.

Lemma emits_file_exists p : emits P (file_exists p).
Proof.
  unfold file_exists. apply emits_bind; [apply emits_path_exists|].
  intros []; simpl; [apply emits_ret|].
  apply emits_bind; [by apply emits_print | intros; apply emits_ret].
Qed.

Lemma emits_extract_match regex text : emits P (extract_match re_search regex text).
Proof.
  unfold extract_match. destruct (re_search regex text); [apply emits_group|].
  repeat (apply emits_bind; [apply emits_lookup_name | intros ?]).
  apply emits_raise.
Qed.

Lemma emits_display_info info : emits P (display_info info).
Proof.
  unfold display_info.
  apply emits_bind; [by apply emits_print | intros _].
  apply emits_bind; [|intros _; by apply emits_print].
  induction info as [|kv info IH]; simpl; [apply emits_ret|].
  apply emits_bind; [by apply emits_print | by intros _].
Qed.

Section Prelude.

Hypothesis P_git :
  (∀ seen, P (EvSpawn git_update seen))
  ∧ (∀ rc out err, P (EvExit git_update rc out err)).
Hypothesis P_clang :
  (∀ seen, P (EvSpawn clang_v seen))
  ∧ (∀ rc out err, P (EvExit clang_v rc out err)).
Hypothesis P_setenv : ∀ x v, P (EvSetenv x v).
Hypothesis P_rmtree : ∀ k, P (EvRmtree k).

Lemma emits_acquire_dependencies : emits P (acquire_dependencies popen).
Proof.
  unfold acquire_dependencies.
  apply emits_bind; [apply emits_file_exists | intros have_ak3].
  apply emits_bind.
  { destruct have_ak3; simpl; [apply emits_ret|].
    apply emits_bind; [|intros; apply emits_ret].
    apply emits_run_command; [apply P_git..|]. by intros []. }
  intros _. apply emits_bind; [apply emits_file_exists | intros []]; simpl.
  - apply emits_ret.
  - apply emits_bind; [apply emits_get | intros d].
    apply emits_bind; [by apply emits_print | intros; apply emits_ret].
Qed.

Lemma emits_clang_v : emits P (run_command popen clang_v None None).
Proof. apply emits_run_command; [apply P_clang..|]. by intros []. Qed.

Lemma emits_probe_and_report args : emits P (probe_and_report popen re_search args).
Proof.
  unfold probe_and_report, verify_executable, get_version.
  apply emits_bind.
  { apply emits_try_except.
    - apply emits_bind; [apply emits_clang_v | intros; apply emits_ret].
    - intros e. apply emits_bind; [by apply emits_print | intros; apply emits_raise]. }
  intros _. apply emits_bind.
  { apply emits_bind; [apply emits_clang_v | intros; apply emits_extract_match]. }
  intros v. apply emits_display_info.
Qed.

Lemma emits_prepare_environment : emits P prepare_environment.
Proof.
  unfold prepare_environment.
  apply emits_bind; [apply emits_get | intros d].
  apply emits_bind; [apply emits_getenv | intros p].
  destruct (negb _); [|apply emits_ret].
  apply emits_bind; [apply emits_getenv | intros p'].
  by apply emits_setenv.
Qed.

Lemma emits_clean_output args : emits P (clean_output args).
Proof.
  unfold clean_output.
  apply emits_bind; [apply emits_path_exists | intros e].
  destruct (e && _); [|apply emits_ret].
  apply emits_bind; [by apply emits_print | intros _].
  by apply emits_rmtree.
Qed.

End Prelude.

End ProgramLog.

Lemma prelude_event_not_chdir e : prelude_event e → ¬ is_chdir e.
Proof. destruct e; cbn; tauto. Qed.

Lemma build_event_not_chdir args cpu e : build_event args cpu e → ¬ is_chdir e.
Proof. destruct e; cbn; tauto. Qed.

(** Removing a directory tree leaves nothing at or beneath it. *)
Lemma fs_rmtree_gone (f : filesystem) (d : path) :
  fs_exists (fs_rmtree f d) d = false.
Proof.
  unfold fs_exists, fs_rmtree. apply bool_decide_eq_false_2.
  intros (k & x & Hk & Hpre).
  apply map_lookup_filter_Some in Hk as [_ Hn]. by apply Hn.
Qed.

Lemma clean_output_cleans args w w' :
  clean_output args w = (Ok tt, w') → allow_dirty args = false →
  fs_exists (fs w') (resolve (cwd w') "out") = false.
Proof.
  unfold clean_output. intros H Hd. rewrite bind_unfold in H. simpl in H.
  rewrite Hd in H. simpl in H.
  destruct (fs_exists (fs w) (resolve (cwd w) "out")) eqn:He; simpl in H.
  - rewrite bind_unfold in H. simpl in H. unfold rmtree in H. simpl in H.
    rewrite He in H. injection H as <-. simpl. apply fs_rmtree_gone.
  - injection H as <-. done.
Qed.

Section PipelineLog.

Variable popen : list string → filesystem → string → gmap string string → proc.
Variable re_search : string → string → option re_match.
Variable zip_bytes : list member → string.

Lemma zf_write_world file w : (zf_write file w).2 = w.
Proof.
  unfold zf_write. destruct (fs w !! _) as [[]|]; try done;
    by destruct (fs_exists _ _).
Qed.

Lemma zf_write_all_world files written w : (zf_write_all files written w).2 = w.
Proof.
  revert written w. induction files as [|file rest IH]; intros written w; [done|].
  simpl. pose proof (zf_write_world file w) as Hw.
  destruct (zf_write file w) as [[m|e] w']; simpl in *; subst; [apply IH | done].
Qed.

Lemma emits_create_zip name files :
  emits package_event (create_zip zip_bytes name files).
Proof.
  unfold create_zip.
  apply emits_bind; [by apply emits_print | intros _].
  apply emits_bind; [apply emits_get | intros k].
  apply emits_bind; [intros w; unfold zip_open; grows_now | intros _].
  apply emits_bind; [|intros _; by apply emits_print].
  intros w. unfold zip_write_and_close.
  pose proof (zf_write_all_world files [] w) as Hw.
  destruct (zf_write_all files [] w) as [[r members] w']. simpl in Hw. subst w'.
  unfold zip_close, modify. grows_now.
Qed.

Lemma emits_package args :
  emits package_event (package re_search zip_bytes args).
Proof.
  unfold package.
  apply emits_bind; [apply emits_read_text | intros text].
  apply emits_bind; [by apply emits_extract_match | intros info].
  apply emits_bind; [by apply emits_copyfile | intros _].
  apply emits_bind; [apply emits_get | intros date].
  apply emits_bind; [by apply emits_chdir | intros _].
  apply emits_bind; [apply emits_create_zip | intros _].
  apply emits_bind; [apply emits_get | intros d].
  apply emits_bind.
  { apply emits_try_except; [by apply emits_remove | intros; apply emits_ret]. }
  intros _.
  apply emits_bind; [by apply emits_move | intros _].
  apply emits_bind; [by apply emits_chdir | intros _].
  apply emits_bind; [apply emits_get | intros seconds].
  by apply emits_display_info.
Qed.

(** [main] either ends before the build, having done nothing but what
    comes before it, or it enters the build in a world that has grown by
    such events and in which the output directory is clean. *)
Lemma main_prelude args w :
  (grows prelude_event w (main popen re_search zip_bytes args w).2
   ∧ (main popen re_search zip_bytes args w).1 ≠ Ok Completed)
  ∨ (∃ w1, grows prelude_event w w1
           ∧ oneui args && aosp args = false
           ∧ target args ∈ valid_targets
           ∧ (allow_dirty args = false →
              fs_exists (fs w1) (resolve (cwd w1) "out") = false)
           ∧ main popen re_search zip_bytes args w
             = build_and_package popen re_search zip_bytes args w1).
Proof.
  assert (∀ line, prelude_event (EvPrint line)) as Pp by done.
  assert ((∀ seen, prelude_event (EvSpawn git_update seen))
          ∧ (∀ rc out err, prelude_event (EvExit git_update rc out err))) as Pg
    by (split; intros; by left).
  assert ((∀ seen, prelude_event (EvSpawn clang_v seen))
          ∧ (∀ rc out err, prelude_event (EvExit clang_v rc out err))) as Pc
    by (split; intros; by right).
  unfold main.
  destruct (oneui args && aosp args) eqn:Hv.
  { left. split; [|done]. simpl. grows_now. }
  unfold str_in. case_bool_decide as Ht; simpl.
  2:{ left. split; [|done]. simpl. grows_now. }
  rewrite bind_unfold.
  pose proof (emits_acquire_dependencies popen prelude_event Pp Pg w) as G0.
  destruct (acquire_dependencies popen w) as [[[]|e] w0]; simpl in *;
    [|left; by split..].
  rewrite bind_unfold.
  pose proof (emits_probe_and_report popen re_search prelude_event Pp Pc args w0) as G1.
  destruct (probe_and_report popen re_search args w0) as [[[]|e] w1]; simpl in *;
    [|left; split; [by eapply grows_trans | done]].
  rewrite bind_unfold.
  pose proof (emits_prepare_environment prelude_event
                ltac:(done) w1) as G2.
  destruct (prepare_environment w1) as [[[]|e] w2]; simpl in *;
    [|left; split; [eauto using grows_trans | done]].
  rewrite bind_unfold.
  pose proof (emits_clean_output prelude_event Pp ltac:(done) args w2) as G3.
  destruct (clean_output args w2) as [[[]|e] w3] eqn:Hc; simpl in *;
    [|left; split; [eauto using grows_trans | done]].
  right. exists w3. split_and!; try done.
  - eauto using grows_trans.
  - intros Hd. by eapply clean_output_cleans.
Qed.

End PipelineLog.

(** ** C5, C6: the configuration command *)

Lemma make_defconfig_head args cpu : head (make_defconfig args cpu) = Some "make".
Proof. reflexivity. Qed.

Lemma make_defconfig_not_common args cpu : make_common cpu ≠ make_defconfig args cpu.
Proof.
  intros H. apply (f_equal length) in H. unfold make_defconfig in H.
  rewrite !length_app in H. simpl in H. lia.
Qed.

Lemma make_defconfig_not_prelude args cpu :
  make_defconfig args cpu ≠ git_update ∧ make_defconfig args cpu ≠ clang_v.
Proof.
  split; intros H; apply (f_equal head) in H;
    by rewrite make_defconfig_head in H.
Qed.

Lemma make_common_not_prelude cpu :
  make_common cpu ≠ git_update ∧ make_common cpu ≠ clang_v.
Proof. split; intros H; apply (f_equal head) in H; discriminate. Qed.

Lemma logged_grows P so se out err w :
  (∀ k text, P (EvWrite k text)) → (∀ line, P (EvPrint line)) →
  grows P w (logged so se out err w).
Proof.
  intros Hw Hp. unfold logged, write_text.
  destruct (truthy so), (truthy se); grows_now.
Qed.

Section Build.

Variable popen : list string → filesystem → string → gmap string string → proc.
Variable re_search : string → string → option re_match.
Variable zip_bytes : list member → string.

Lemma build_and_package_unfold args w :
  build_and_package popen re_search zip_bytes args w
  = (run_command popen (make_defconfig args (cpu_count w))
       (Some "make_defconfig_stdout.log") (Some "make_defconfig_stderr.log") ;;
     compile_and_package popen re_search zip_bytes args (cpu_count w))
      (emit (EvPrint "Running make defconfig...") w).
Proof.
  unfold build_and_package, compile_and_package, build, bind, get, print, modify.
  destruct (run_command popen (make_defconfig _ _) _ _ _) as [[p|e] w1]; [|done].
  destruct (run_command popen (make_common _) _ _ _) as [[p'|e] w2]; done.
Qed.

(** Once a command has been spawned, the rest of [run_command] and what
    follows it make the world grow from there. *)
Lemma run_command_then_grows P {B} command so se (k : string * string → M B) w :
  (∀ rc out err, P (EvExit command rc out err)) →
  (∀ k text, P (EvWrite k text)) → (∀ line, P (EvPrint line)) →
  (∀ a, emits P (k a)) →
  grows P (emit (EvSpawn command (fs w)) w)
    (bind (run_command popen command so se) k w).2.
Proof.
  intros He Hw Hp Hk. rewrite bind_unfold.
  destruct (popen command (fs w) (cwd w) (environ w)) as [e|rc out err fs'] eqn:Hpo.
  - rewrite (run_command_failed _ _ _ _ _ _ Hpo). apply grows_refl.
  - rewrite (run_command_exited _ _ _ _ _ _ _ _ _ Hpo).
    set (w1 := emit (EvExit _ _ _ _) _).
    assert (grows P (emit (EvSpawn command (fs w)) w) (logged so se out err w1)) as G.
    { eapply grows_trans; [|by apply logged_grows]. subst w1. grows_now. }
    destruct (bool_decide _); simpl; [done|].
    eapply grows_trans; [done | apply Hk].
Qed.

Lemma emits_compile_and_package args cpu :
  emits (not_spawn (make_defconfig args cpu))
    (compile_and_package popen re_search zip_bytes args cpu).
Proof.
  unfold compile_and_package.
  apply emits_bind; [by apply emits_print | intros _].
  apply emits_bind.
  { apply emits_run_command; simpl; auto using make_defconfig_not_common. }
  intros _. apply emits_bind; [by apply emits_print | intros _].
  apply emits_bind; [|intros; apply emits_ret].
  eapply emits_weaken; [|apply emits_package]. by intros [].
Qed.

(** The log of [main] from the build on: the announcement, the spawning of
    the configuration command in the file system of that moment, and then
    no second spawning of it. *)
Lemma build_and_package_log args w :
  ∃ rest,
    log (build_and_package popen re_search zip_bytes args w).2
    = log w ++ EvPrint "Running make defconfig..."
            :: EvSpawn (make_defconfig args (cpu_count w)) (fs w) :: rest
    ∧ Forall (not_spawn (make_defconfig args (cpu_count w))) rest.
Proof.
  rewrite build_and_package_unfold.
  destruct (run_command_then_grows (not_spawn (make_defconfig args (cpu_count w)))
              (make_defconfig args (cpu_count w))
              (Some "make_defconfig_stdout.log") (Some "make_defconfig_stderr.log")
              (λ _, compile_and_package popen re_search zip_bytes args (cpu_count w))
              (emit (EvPrint "Running make defconfig...") w))
    as (rest & Hl & Hrest & _); simpl; auto.
  { intros _. apply emits_compile_and_package. }
  exists rest. split; [|done]. simpl in Hl. rewrite Hl.
  by rewrite <- !app_assoc.
Qed.

End Build.

Lemma build_issues_defconfig
    (popen : list string → filesystem → string → gmap string string → proc)
    (args : Args) (w : World) :
  ∃ rest,
    log (build popen args w).2
    = log w ++ EvPrint "Running make defconfig..."
            :: EvSpawn (make_defconfig args (cpu_count w)) (fs w) :: rest.
Proof.
  destruct (run_command_then_grows popen (λ _, True)
              (make_defconfig args (cpu_count w))
              (Some "make_defconfig_stdout.log") (Some "make_defconfig_stderr.log")
              (λ _, print "Building the kernel..." ;;
                    run_command popen (make_common (cpu_count w))
                      (Some "make_common_stdout.log")
                      (Some "make_common_stderr.log") ;;
                    print "Build complete")
              (emit (EvPrint "Running make defconfig...") w))
    as (rest & Hl & _); auto.
  { intros _. apply emits_bind; [by apply emits_print | intros _].
    apply emits_bind; [by apply emits_run_command | intros _].
    by apply emits_print. }
  exists rest. simpl in Hl. rewrite <- !app_assoc in Hl. exact Hl.
Qed.

(** C5.  With target a51, the OneUI variant and SELinux permissive
    requested, the configuration command is the common [make] prefix followed
    by the base fragment and then the overlays in this order: [oneui.config],
    [permissive.config], [no-ksu.config].  It is the command the build
    spawns first.  (Which setting wins among overlays is decided by the
    kernel's build system, outside the script.) *)
Theorem config_command_a51_oneui_permissive
    (popen : list string → filesystem → string → gmap string string → proc)
    (args : Args) (w : World) :
  target args = "a51" → oneui args = true → permissive args = true →
  make_defconfig args (cpu_count w)
  = make_common (cpu_count w)
      ++ ["exynos9611-a51_defconfig"; "oneui.config"; "permissive.config";
          "no-ksu.config"]
  ∧ ∃ rest,
      log (build popen args w).2
      = log w ++ EvPrint "Running make defconfig..."
              :: EvSpawn (make_common (cpu_count w)
                            ++ ["exynos9611-a51_defconfig"; "oneui.config";
                                "permissive.config"; "no-ksu.config"]) (fs w)
              :: rest.
Proof.
  intros Ht Ho Hp.
  assert (make_defconfig args (cpu_count w)
          = make_common (cpu_count w)
              ++ ["exynos9611-a51_defconfig"; "oneui.config"; "permissive.config";
                  "no-ksu.config"]) as E.
  { unfold make_defconfig, base_fragment. rewrite Ht, Ho, Hp.
    by rewrite <- !app_assoc. }
  split; [done|]. rewrite <- E. apply build_issues_defconfig.
Qed.

Lemma config_command_a51_oneui_permissive_witness :
  make_defconfig Lab.a51_oneui_permissive (Some 8)
  = ["make"; "O=out"; "LLVM=1"; "-j8";
     "CROSS_COMPILE=aarch64-linux-gnu-"; "CC=clang"; "LD=ld.lld";
     "AS=llvm-as"; "AR=llvm-ar"; "OBJDUMP=llvm-objdump";
     "READELF=llvm-readelf"; "NM=llvm-nm"; "OBJCOPY=llvm-objcopy";
     "ARCH=arm64"; "-j8";
     "exynos9611-a51_defconfig"; "oneui.config"; "permissive.config";
     "no-ksu.config"].
Proof.
  exact (proj1 (config_command_a51_oneui_permissive (Lab.popen 0 0)
                  Lab.a51_oneui_permissive (Lab.host Lab.checkout)
                  eq_refl eq_refl eq_refl)).
Defined.

Lemma prelude_never_configures args cpu seen :
  ¬ prelude_event (EvSpawn (make_defconfig args cpu) seen).
Proof.
  destruct (make_defconfig_not_prelude args cpu). by intros [|].
Qed.

(** C6.  With target m21, no flag set (no variant, no SELinux permissive,
    no dirty build), the configuration command is the
    common [make] prefix followed by the base fragment
    [exynos9611-m21_defconfig] and [no-ksu.config]; neither [oneui.config]
    nor [permissive.config] is in it.  Whenever a run of [main] spawns that
    command, the file system the command starts in holds no output
    directory: what was there has been removed, with all beneath it. *)
Theorem config_command_m21_default
    (popen : list string → filesystem → string → gmap string string → proc)
    (re_search : string → string → option re_match)
    (zip_bytes : list member → string) (args : Args) (w : World) :
  target args = "m21" → oneui args = false → aosp args = false →
  permissive args = false → allow_dirty args = false → log w = [] →
  let command := make_defconfig args (cpu_count w) in
  command = make_common (cpu_count w) ++ ["exynos9611-m21_defconfig"; "no-ksu.config"]
  ∧ ("oneui.config" ∉ command)
  ∧ ("permissive.config" ∉ command)
  ∧ ∀ seen,
      EvSpawn command seen ∈ log (main popen re_search zip_bytes args w).2 →
      fs_exists seen (resolve (cwd w) "out") = false.
Proof.
  intros Ht Ho Ha Hp Hd Hl command.
  assert (command = make_common (cpu_count w)
                      ++ ["exynos9611-m21_defconfig"; "no-ksu.config"]) as E.
  { subst command. unfold make_defconfig, base_fragment. rewrite Ht, Ho, Hp.
    by rewrite <- !app_assoc. }
  split; [done|]. split_and!.
  - rewrite E. unfold make_common, common_flags. simpl. intros H.
    repeat (apply elem_of_cons in H as [H|H]; [discriminate H|]).
    by apply elem_of_nil in H.
  - rewrite E. unfold make_common, common_flags. simpl. intros H.
    repeat (apply elem_of_cons in H as [H|H]; [discriminate H|]).
    by apply elem_of_nil in H.
  - intros seen Hin.
    destruct (main_prelude popen re_search zip_bytes args w)
      as [[G _]|(w1 & G & _ & _ & Hclean & Hmain)].
    + apply grows_log in G; [|done].
      rewrite Forall_forall in G. apply G in Hin.
      by apply prelude_never_configures in Hin.
    + rewrite Hmain in Hin.
      destruct (build_and_package_log popen re_search zip_bytes args w1)
        as (rest & Hlog & Hrest).
      pose proof (grows_same_cwd _ _ _ prelude_event_not_chdir G) as Hcwd.
      pose proof (grows_cpu_count _ _ _ G) as Hcpu.
      rewrite Hcpu in Hlog, Hrest. fold command in Hlog, Hrest.
      rewrite Hlog in Hin.
      apply elem_of_app in Hin as [Hin|Hin].
      { apply grows_log in G; [|done].
        rewrite Forall_forall in G. apply G in Hin.
        by apply prelude_never_configures in Hin. }
      apply elem_of_cons in Hin as [Hin|Hin]; [discriminate|].
      apply elem_of_cons in Hin as [Hin|Hin].
      { injection Hin as ->. rewrite <- Hcwd. by apply Hclean. }
      rewrite Forall_forall in Hrest. apply Hrest in Hin. by destruct Hin.
Qed.

Lemma config_command_m21_default_witness :
  fs_exists Lab.checkout (resolve Lab.home "out") = true
  ∧ ∃ seen,
      EvSpawn (make_defconfig Lab.m21 (Some 8)) seen
        ∈ log (Lab.run 0 0 Lab.m21 (Lab.host Lab.checkout)).2
      ∧ fs_exists seen (resolve Lab.home "out") = false.
Proof.
  split; [vm_compute; reflexivity|].
  assert (Lab.spawned_without (log (Lab.run 0 0 Lab.m21 (Lab.host Lab.checkout)).2)
            18 (make_defconfig Lab.m21 (Some 8)) (resolve Lab.home "out") = true)
    as Hb by (vm_compute; reflexivity).
  unfold Lab.spawned_without in Hb.
  destruct (log (Lab.run 0 0 Lab.m21 (Lab.host Lab.checkout)).2 !! 18%nat)
    as [[|c seen| | | | | | | | | |]|] eqn:E; try discriminate Hb.
  apply andb_prop in Hb as [Hc _]. apply bool_decide_eq_true_1 in Hc. subst c.
  assert (EvSpawn (make_defconfig Lab.m21 (Some 8)) seen
          ∈ log (Lab.run 0 0 Lab.m21 (Lab.host Lab.checkout)).2) as Hin.
  { apply list_elem_of_lookup. by exists 18%nat. }
  exists seen. split; [exact Hin|].
  exact (proj2 (proj2 (proj2
           (config_command_m21_default (Lab.popen 0 0) Re.search Lab.zip_store
              Lab.m21 (Lab.host Lab.checkout)
              eq_refl eq_refl eq_refl eq_refl eq_refl eq_refl))) _ Hin).
Defined.

(** ** Splitting strings, resolving names *)

Lemma str_app_nil (b : string) : EmptyString +:+ b = b.
Proof. reflexivity. Qed.

Lemma str_app_cons x (a b : string) : String x a +:+ b = String x (a +:+ b).
Proof. reflexivity. Qed.

Lemma str_app_assoc (a b c : string) : (a +:+ b) +:+ c = a +:+ (b +:+ c).
Proof.
  induction a as [|x a IH]; [done|]. by rewrite !str_app_cons, IH.
Qed.

Lemma split_nonempty sep s : split sep s ≠ [].
Proof.
  destruct s as [|c s]; simpl; [done|].
  destruct (Ascii.eqb c sep); [done|]. by destruct (split sep s).
Qed.

Lemma split_no_sep sep s : has_char sep s = false → split sep s = [s].
Proof.
  induction s as [|c s IH]; simpl; [done|].
  intros [Hc Hs]%orb_false_elim. rewrite Hc, (IH Hs). done.
Qed.

Lemma split_app_sep sep a b :
  split sep (a +:+ String sep b) = split sep a ++ split sep b.
Proof.
  induction a as [|c a IH]; [rewrite str_app_nil | rewrite str_app_cons]; simpl.
  - by rewrite Ascii.eqb_refl.
  - destruct (Ascii.eqb c sep); [by rewrite IH|].
    rewrite IH. pose proof (split_nonempty sep a).
    by destruct (split sep a).
Qed.

Lemma endswith_app c s : endswith c s = true → ∃ s', s = s' +:+ String c EmptyString.
Proof.
  induction s as [|c' s IH]; [done|]. simpl.
  destruct s as [|c'' s].
  - intros ->%Ascii.eqb_eq. by exists EmptyString.
  - intros [s' Hs']%IH. exists (String c' s'). by rewrite str_app_cons, Hs'.
Qed.

Lemma normalize_snoc comps c : normalize (comps ++ [c]) = normalize_step (normalize comps) c.
Proof. unfold normalize. by rewrite foldl_app. Qed.

Lemma normalize_step_plain acc p : plain_name p = true → normalize_step acc p = acc ++ [p].
Proof.
  unfold plain_name, normalize_step.
  intros [[[_ H1]%andb_prop H2]%andb_prop H3]%andb_prop.
  apply negb_true_iff in H1, H2, H3. by rewrite H1, H2, H3.
Qed.

Lemma plain_name_no_slash p : plain_name p = true → has_char "/" p = false.
Proof.
  unfold plain_name.
  intros [[[H0 _]%andb_prop _]%andb_prop _]%andb_prop.
  by apply negb_true_iff in H0.
Qed.

Lemma plain_name_not_absolute p : plain_name p = true → startswith "/" p = false.
Proof.
  intros H%plain_name_no_slash. destruct p as [|c p]; [done|].
  simpl in *. by apply orb_false_elim in H as [-> _].
Qed.

(** A plain name resolves to an entry of the working directory. *)
Lemma resolve_plain d p : plain_name p = true → resolve d p = here d ++ [p].
Proof.
  intros Hp. unfold resolve, here, path_join2.
  rewrite (plain_name_not_absolute p Hp).
  pose proof (plain_name_no_slash p Hp) as Hs.
  destruct (String.eqb d EmptyString) eqn:Hd; simpl.
  - apply String.eqb_eq in Hd as ->. rewrite str_app_nil. simpl.
    rewrite (split_no_sep _ _ Hs). apply (normalize_step_plain [] p Hp).
  - destruct (endswith "/" d) eqn:He.
    + apply endswith_app in He as [d' ->].
      rewrite str_app_assoc, str_app_cons, str_app_nil.
      rewrite !split_app_sep, (split_no_sep _ _ Hs). simpl.
      by rewrite !normalize_snoc, (normalize_step_plain _ p Hp).
    + rewrite str_app_cons, str_app_nil.
      rewrite split_app_sep, (split_no_sep _ _ Hs).
      by rewrite normalize_snoc, (normalize_step_plain _ p Hp).
Qed.

Lemma resolve_plain_ne d p q :
  plain_name p = true → plain_name q = true → p ≠ q → resolve d p ≠ resolve d q.
Proof.
  intros Hp Hq Hne. rewrite (resolve_plain d p Hp), (resolve_plain d q Hq).
  intros H. apply app_inv_head in H. congruence.
Qed.

(** ** C7: a failing compilation *)


Lemma grows_logged P w w' so se out err :
  grows P w w' → (∀ k text, P (EvWrite k text)) → (∀ line, P (EvPrint line)) →
  grows P w (logged so se out err w').
Proof. intros G Hw Hp. eapply grows_trans; [done | by apply logged_grows]. Qed.







Lemma ran_grows P command so se w rc out err fs' :
  P (EvSpawn command (fs w)) → P (EvExit command rc out err) →
  (∀ k text, P (EvWrite k text)) → (∀ line, P (EvPrint line)) →
  grows P w (ran command so se w rc out err fs').
Proof.
  intros Hs He Hw Hp. unfold ran. apply grows_logged; [|done..]. grows_now.
Qed.

Lemma ran_cwd command so se w rc out err fs' :
  cwd (ran command so se w rc out err fs') = cwd w.
Proof. unfold ran. by rewrite logged_cwd. Qed.

Section Steps.

Variable popen : list string → filesystem → string → gmap string string → proc.
Variable re_search : string → string → option re_match.
Variable zip_bytes : list member → string.

Local Abbreviation bap := (build_and_package popen re_search zip_bytes).
Local Abbreviation cap := (compile_and_package popen re_search zip_bytes).

(** The three ways the configuration step can go. *)
Lemma config_not_spawned args w e :
  popen (make_defconfig args (cpu_count w)) (fs w) (cwd w) (environ w) = NotSpawned e →
  bap args w
  = (Raise e,
     emit (EvSpawn (make_defconfig args (cpu_count w)) (fs w))
       (emit (EvPrint "Running make defconfig...") w)).
Proof.
  intros H. rewrite build_and_package_unfold.
  by rewrite (bind_raise _ _ _ _ _
                (run_command_failed popen _ _ _
                   (emit (EvPrint "Running make defconfig...") w) _ H)).
Qed.

Lemma config_exited args w rc out err fs' :
  popen (make_defconfig args (cpu_count w)) (fs w) (cwd w) (environ w)
  = Exited rc out err fs' →
  bap args w
  = if bool_decide (rc ≠ 0%Z)
    then (Raise (CommandError (make_defconfig args (cpu_count w)) rc),
          configured args w rc out err fs')
    else cap args (cpu_count w) (configured args w rc out err fs').
Proof.
  intros H. rewrite build_and_package_unfold, bind_unfold.
  rewrite (run_command_exited popen _ _ _
             (emit (EvPrint "Running make defconfig...") w) _ _ _ _ H).
  by destruct (bool_decide _).
Qed.

(** The three ways the compilation step can go. *)
Lemma compile_not_spawned args cpu w e :
  popen (make_common cpu) (fs w) (cwd w) (environ w) = NotSpawned e →
  cap args cpu w
  = (Raise e,
     emit (EvSpawn (make_common cpu) (fs w))
       (emit (EvPrint "Building the kernel...") w)).
Proof.
  intros H. unfold compile_and_package. rewrite bind_unfold. simpl.
  by rewrite (bind_raise _ _ _ _ _
                (run_command_failed popen _ _ _
                   (emit (EvPrint "Building the kernel...") w) _ H)).
Qed.

Lemma compile_exited args cpu w rc out err fs' :
  popen (make_common cpu) (fs w) (cwd w) (environ w) = Exited rc out err fs' →
  cap args cpu w
  = if bool_decide (rc ≠ 0%Z)
    then (Raise (CommandError (make_common cpu) rc), compiled cpu w rc out err fs')
    else (package re_search zip_bytes args ;; ret Completed)
           (emit (EvPrint "Build complete") (compiled cpu w rc out err fs')).
Proof.
  intros H. unfold compile_and_package. rewrite bind_unfold. simpl.
  rewrite bind_unfold.
  rewrite (run_command_exited popen _ _ _
             (emit (EvPrint "Building the kernel...") w) _ _ _ _ H).
  unfold compiled, ran.
  destruct (bool_decide (rc ≠ 0%Z)); [reflexivity|].
  by rewrite (bind_ok (print "Build complete") _ _ tt _ eq_refl).
Qed.

End Steps.



Lemma ran_log command so se w rc out err fs' :
  ∃ post,
    log (ran command so se w rc out err fs')
    = (log w ++ [EvSpawn command (fs w)]) ++ EvExit command rc out err :: post
    ∧ Forall write_or_print post.
Proof.
  unfold ran.
  destruct (logged_grows write_or_print so se out err
              (emit (EvExit command rc out err)
                 (set_fs fs' (emit (EvSpawn command (fs w)) w))))
    as (post & Hl & Hpost & _); [done..|].
  exists post. split; [|done]. rewrite Hl. simpl. by rewrite <- !app_assoc.
Qed.



Lemma configured_cwd args w rc out err fs' :
  cwd (configured args w rc out err fs') = cwd w.
Proof.
  exact (ran_cwd _ _ _ (emit (EvPrint "Running make defconfig...") w) _ _ _ _).
Qed.



Section CompileFailure.

Variable popen : list string → filesystem → string → gmap string string → proc.
Variable re_search : string → string → option re_match.
Variable zip_bytes : list member → string.

Local Abbreviation bap := (build_and_package popen re_search zip_bytes).


Local Abbreviation cap := (compile_and_package popen re_search zip_bytes).




End CompileFailure.

Lemma plain_name_truthy p : plain_name p = true → truthy (Some p).
Proof.
  unfold plain_name, truthy.
  intros [[[_ H]%andb_prop _]%andb_prop _]%andb_prop. by apply Is_true_true.
Qed.

Section Ran.

Variables (command : list string) (so se : string) (w : World).
Variables (rc : Z) (out err : string) (fs' : filesystem).
Hypothesis so_plain : plain_name so = true.
Hypothesis se_plain : plain_name se = true.
Hypothesis so_se : so ≠ se.

Local Abbreviation w' := (ran command (Some so) (Some se) w rc out err fs').

Lemma ran_stdout : fs w' !! resolve (cwd w) so = Some (File out).
Proof.
  unfold ran.
  apply (logged_stdout (Some so) (Some se) out err
           (emit (EvExit command rc out err)
              (set_fs fs' (emit (EvSpawn command (fs w)) w)))).
  - by apply plain_name_truthy.
  - right. by apply resolve_plain_ne.
Qed.

Lemma ran_stderr : fs w' !! resolve (cwd w) se = Some (File err).
Proof.
  unfold ran.
  apply (logged_stderr (Some so) (Some se) out err
           (emit (EvExit command rc out err)
              (set_fs fs' (emit (EvSpawn command (fs w)) w)))).
  by apply plain_name_truthy.
Qed.



End Ran.


Lemma configured_grows_build args w rc out err fs' :
  grows (build_event args (cpu_count w)) w (configured args w rc out err fs').
Proof.
  unfold configured.
  apply (grows_trans _ _ (emit (EvPrint "Running make defconfig...") w));
    [grows_now|].
  apply ran_grows; simpl; auto.
Qed.

Lemma compiled_grows_build args cpu w rc out err fs' :
  grows (build_event args cpu) w (compiled cpu w rc out err fs').
Proof.
  unfold compiled.
  apply (grows_trans _ _ (emit (EvPrint "Building the kernel...") w));
    [grows_now|].
  apply ran_grows; simpl; auto.
Qed.




(** ** C8: the toolchain is absent *)

Lemma file_exists_true p w :
  fs_exists (fs w) (resolve (cwd w) p) = true → file_exists p w = (Ok true, w).
Proof.
  intros H. unfold file_exists, path_exists, bind, get. by rewrite H.
Qed.

Lemma file_exists_false p w :
  fs_exists (fs w) (resolve (cwd w) p) = false →
  file_exists p w = (Ok false, emit (EvPrint ("File not found: " +:+ p)) w).
Proof.
  intros H. unfold file_exists, path_exists, bind, get. by rewrite H.
Qed.

Section Dependencies.

Variable popen : list string → filesystem → string → gmap string string → proc.

(** When the toolchain is absent from the file system it is looked for in,
    the dependency check prints its diagnostic and answers [false]. *)
Lemma acquire_dependencies_no_toolchain w f :
  fetched popen w f →
  fs_exists f (resolve (cwd w) "toolchain/bin/clang") = false →
  ∃ w',
    acquire_dependencies popen w = (Ok false, w')
    ∧ fs w' = f
    ∧ grows deps_event w w'
    ∧ last (log w')
      = Some (EvPrint ("Toolchain must be available at " +:+ cwd w +:+ "/toolchain")).
Proof.
  unfold fetched. intros Hf Hc. unfold acquire_dependencies.
  destruct (fs_exists (fs w) (resolve (cwd w) "AnyKernel3/anykernel.sh")) eqn:Ha.
  - subst f. rewrite (bind_ok _ _ _ _ _ (file_exists_true _ _ Ha)). simpl.
    rewrite (bind_ok (ret tt) _ w tt w eq_refl).
    rewrite (bind_ok _ _ _ _ _ (file_exists_false _ _ Hc)). simpl.
    eexists. split; [reflexivity|]. split_and!; [done | grows_now |].
    simpl. by rewrite last_snoc.
  - destruct Hf as (out & err & Hp).
    rewrite (bind_ok _ _ _ _ _ (file_exists_false _ _ Ha)). simpl.
    set (w1 := emit _ w).
    rewrite (bind_ok _ _ w1 tt (ran git_update None None w1 0 out err f)).
    2:{ rewrite (bind_ok _ _ _ _ _ (run_command_exited popen _ None None w1 _ _ _ _ Hp)).
        reflexivity. }
    set (w2 := ran _ _ _ _ _ _ _ _).
    assert (fs_exists (fs w2) (resolve (cwd w2) "toolchain/bin/clang") = false) as Hc2
      by exact Hc.
    rewrite (bind_ok _ _ _ _ _ (file_exists_false _ _ Hc2)). simpl.
    eexists. split; [reflexivity|]. split_and!; [done | grows_now |].
    simpl. by rewrite last_snoc.
Qed.

End Dependencies.

(** C8 (as stated, it fails).  The toolchain is absent, and so is the
    packaging sub-project; fetching it fails.  The run ends with the
    [CommandError] of the fetch: not a soft exit, and no diagnostic about the
    toolchain. *)
Lemma toolchain_absent_counterexample :
  fs_exists ∅ (resolve Lab.home "toolchain/bin/clang") = false
  ∧ Lab.run 128 0 Lab.m21 (Lab.host ∅)
    = (Raise (CommandError git_update 128),
       emit (EvExit git_update 128 EmptyString "fatal: unable to access the remote")
         (emit (EvSpawn git_update ∅)
            (emit (EvPrint "File not found: AnyKernel3/anykernel.sh")
               (Lab.host ∅)))).
Proof. split; vm_compute; reflexivity. Qed.

(** C8 (amended).  Take a run with a valid configuration in which the
    packaging sub-project is present, or absent and fetched with exit code
    0, and in which the toolchain is then absent.  [main] returns at the
    dependency check, it does not raise; the last line it prints names the
    toolchain directory under the working directory; and all it has done is
    to print lines and, at most, to run the fetch: no configuration or
    compilation command was spawned. *)
Theorem toolchain_absent
    (popen : list string → filesystem → string → gmap string string → proc)
    (re_search : string → string → option re_match)
    (zip_bytes : list member → string) (args : Args) (w : World) (f : filesystem) :
  oneui args && aosp args = false →
  target args ∈ valid_targets →
  fetched popen w f →
  fs_exists f (resolve (cwd w) "toolchain/bin/clang") = false →
  ∃ w',
    main popen re_search zip_bytes args w = (Ok NoToolchain, w')
    ∧ last (log w')
      = Some (EvPrint ("Toolchain must be available at " +:+ cwd w +:+ "/toolchain"))
    ∧ grows deps_event w w'
    ∧ ∀ seen,
        (EvSpawn (make_defconfig args (cpu_count w)) seen
           ∉ drop (length (log w)) (log w'))
        ∧ (EvSpawn (make_common (cpu_count w)) seen
             ∉ drop (length (log w)) (log w')).
Proof.
  intros Hv Ht Hf Hc.
  destruct (acquire_dependencies_no_toolchain popen w f Hf Hc)
    as (w' & Hacq & _ & G & Hlast).
  exists w'. unfold main. rewrite Hv.
  unfold str_in. rewrite bool_decide_eq_true_2 by done. simpl.
  rewrite (bind_ok _ _ _ _ _ Hacq). simpl.
  split_and!; try done.
  destruct G as (evs & -> & Hevs & _). rewrite drop_app_length.
  rewrite Forall_forall in Hevs.
  intros seen. split; intros Hin%Hevs; simpl in Hin.
  - by destruct (make_defconfig_not_prelude args (cpu_count w)).
  - by destruct (make_common_not_prelude (cpu_count w)).
Qed.

Lemma toolchain_absent_witness :
  ∃ w',
    Lab.run 0 0 Lab.m21 (Lab.host ∅) = (Ok NoToolchain, w')
    ∧ last (log w')
      = Some (EvPrint "Toolchain must be available at /home/user/kernel/toolchain").
Proof.
  destruct (toolchain_absent (Lab.popen 0 0) Re.search Lab.zip_store Lab.m21
              (Lab.host ∅)
              (Lab.put Lab.home "AnyKernel3/anykernel.sh" "# AnyKernel3" ∅))
    as (w' & Hmain & Hlast & _).
  - reflexivity.
  - compute_done.
  - exists "Submodule path 'AnyKernel3': checked out", EmptyString. reflexivity.
  - vm_compute. reflexivity.
  - exists w'. split; [exact Hmain | exact Hlast].
Defined.

(** ** C9: the search path *)

Lemma has_char_app c a b : has_char c (a +:+ b) = has_char c a || has_char c b.
Proof.
  induction a as [|x a IH]; [done|].
  rewrite str_app_cons. simpl. by rewrite IH, orb_assoc.
Qed.

Lemma path_join2_no_sep c a b :
  has_char c a = false → has_char c b = false → c ≠ "/"%char →
  has_char c (path_join2 a b) = false.
Proof.
  intros Ha Hb Hc. unfold path_join2.
  destruct (startswith "/" b); [done|].
  destruct (_ || _); rewrite !has_char_app, Ha, Hb; [done|].
  change (has_char c "/") with (Ascii.eqb "/" c || false).
  rewrite (proj2 (Ascii.eqb_neq "/" c)); [done | congruence].
Qed.

Lemma toolchain_path_no_sep d :
  has_char pathsep d = false → has_char pathsep (toolchain_path d) = false.
Proof.
  intros Hd. unfold toolchain_path, path_join. simpl.
  repeat apply path_join2_no_sep; done.
Qed.

Lemma split_prepend sep a b :
  has_char sep a = false → split sep (a +:+ String sep b) = a :: split sep b.
Proof. intros Ha. by rewrite split_app_sep, (split_no_sep _ _ Ha). Qed.

Lemma prepare_environment_present w p :
  environ w !! "PATH" = Some p →
  toolchain_path (cwd w) ∈ split pathsep p →
  prepare_environment w = (Ok tt, w).
Proof.
  intros Hp Hin. unfold prepare_environment, bind, getcwd, get, getenv.
  rewrite Hp. fold (toolchain_path (cwd w)). unfold str_in.
  by rewrite bool_decide_eq_true_2.
Qed.

Lemma prepare_environment_absent w p :
  environ w !! "PATH" = Some p →
  toolchain_path (cwd w) ∉ split pathsep p →
  prepare_environment w
  = (Ok tt,
     emit (EvSetenv "PATH" (toolchain_path (cwd w) +:+ ":" +:+ p))
       (set_environ (<["PATH" := toolchain_path (cwd w) +:+ ":" +:+ p]> (environ w)) w)).
Proof.
  intros Hp Hin. unfold prepare_environment, bind, getcwd, get, getenv.
  rewrite Hp. fold (toolchain_path (cwd w)). unfold str_in.
  rewrite bool_decide_eq_false_2 by done. simpl. by rewrite Hp.
Qed.

(** C9 (as stated, it fails).  In a working directory with a colon in its
    path the directory put on the search path is never one of the entries
    the path splits into, so a second run of the step prepends it again. *)
Lemma prepare_environment_counterexample :
  environ (prepare_environment colon_host).2 !! "PATH"
  = Some "/srv/a:b/toolchain/bin:/usr/bin"
  ∧ environ (prepare_environment (prepare_environment colon_host).2).2 !! "PATH"
    = Some "/srv/a:b/toolchain/bin:/srv/a:b/toolchain/bin:/usr/bin".
Proof. split; vm_compute; reflexivity. Qed.

(** C9 (amended).  With the search path set, the step leaves the world as it
    is when the toolchain's executable directory is already one of the
    entries of the path, and otherwise puts the directory, followed by a
    colon, in front of the path.  When the path of the working directory
    holds no colon, the step is idempotent: run on the world it has left, it
    changes nothing. *)
Theorem prepare_environment_idempotent (w : World) (p : string) :
  environ w !! "PATH" = Some p →
  (toolchain_path (cwd w) ∈ split pathsep p → prepare_environment w = (Ok tt, w))
  ∧ (toolchain_path (cwd w) ∉ split pathsep p →
     (prepare_environment w).1 = Ok tt
     ∧ environ (prepare_environment w).2 !! "PATH"
       = Some (toolchain_path (cwd w) +:+ ":" +:+ p))
  ∧ (has_char pathsep (cwd w) = false →
     prepare_environment (prepare_environment w).2
     = (Ok tt, (prepare_environment w).2)).
Proof.
  intros Hp. split_and!.
  - by apply prepare_environment_present.
  - intros Hin. rewrite (prepare_environment_absent w p Hp Hin). simpl.
    split; [done|]. apply lookup_insert_eq.
  - intros Hd.
    destruct (decide (toolchain_path (cwd w) ∈ split pathsep p)) as [Hin|Hin].
    + rewrite (prepare_environment_present w p Hp Hin). simpl.
      by apply (prepare_environment_present w p).
    + rewrite (prepare_environment_absent w p Hp Hin). simpl.
      eapply prepare_environment_present; simpl.
      * apply lookup_insert_eq.
      * rewrite str_app_cons, str_app_nil.
        rewrite (split_prepend _ _ _ (toolchain_path_no_sep _ Hd)). by left.
Qed.

Lemma prepare_environment_idempotent_witness :
  prepare_environment (prepare_environment (Lab.host ∅)).2
  = (Ok tt, (prepare_environment (Lab.host ∅)).2).
Proof.
  exact (proj2 (proj2 (prepare_environment_idempotent (Lab.host ∅) "/usr/bin:/bin"
                         eq_refl)) eq_refl).
Defined.

(** ** Resolving and rendering paths *)

Lemma split_parts_no_sep sep s :
  Forall (λ c, has_char sep c = false) (split sep s).
Proof.
  induction s as [|c s IH]; simpl; [by repeat constructor|].
  destruct (Ascii.eqb c sep) eqn:Hc; [by constructor|].
  destruct (split sep s) as [|x xs].
  - repeat constructor. simpl. by rewrite Hc.
  - inversion IH; subst. constructor; [|done]. simpl. by rewrite Hc.
Qed.

Lemma Forall_removelast {A} (P : A → Prop) (l : list A) :
  Forall P l → Forall P (removelast l).
Proof.
  induction 1 as [|x l Hx Hl IH]; [done|]. simpl.
  destruct l; [constructor | by constructor].
Qed.

Lemma normalize_step_normal acc c :
  normal acc → has_char "/" c = false → normal (normalize_step acc c).
Proof.
  intros Ha Hc. unfold normalize_step.
  destruct (String.eqb c EmptyString) eqn:H1; [done|].
  destruct (String.eqb c ".") eqn:H2; [done|].
  destruct (String.eqb c "..") eqn:H3; [by apply Forall_removelast|].
  apply Forall_app. split; [done|]. constructor; [|done].
  unfold plain_name. by rewrite Hc, H1, H2, H3.
Qed.

Lemma foldl_normalize_step_normal comps acc :
  normal acc → Forall (λ c, has_char "/" c = false) comps →
  normal (foldl normalize_step acc comps).
Proof.
  revert acc. induction comps as [|c comps IH]; intros acc Ha Hc; simpl; [done|].
  inversion Hc; subst. apply IH; [by apply normalize_step_normal | done].
Qed.

Lemma here_normal d : normal (here d).
Proof.
  apply foldl_normalize_step_normal; [constructor | apply split_parts_no_sep].
Qed.

Lemma foldl_normalize_step_plain comps acc :
  normal comps → foldl normalize_step acc comps = acc ++ comps.
Proof.
  revert acc. induction comps as [|c comps IH]; intros acc H; simpl.
  { by rewrite app_nil_r. }
  inversion H; subst. rewrite normalize_step_plain by done.
  rewrite IH by done. by rewrite <- app_assoc.
Qed.

Lemma normal_no_slash p : normal p → Forall (λ c, has_char "/" c = false) p.
Proof. intros H. eapply Forall_impl; [exact H|]. intros c. apply plain_name_no_slash. Qed.

(** Splitting undoes joining. *)
Lemma split_join parts :
  parts ≠ [] → Forall (λ c, has_char "/" c = false) parts →
  split "/" (join "/" parts) = parts.
Proof.
  induction parts as [|p ps IH]; [done|]. intros _ H.
  inversion H as [|? ? Hp Hps]; subst.
  destruct ps as [|q ps].
  - by apply split_no_sep.
  - change (join "/" (p :: q :: ps)) with (p +:+ "/" +:+ join "/" (q :: ps)).
    rewrite str_app_cons, str_app_nil.
    rewrite split_app_sep, (split_no_sep _ _ Hp).
    rewrite IH by done. done.
Qed.

(** A resolved path is the one its rendering names. *)
Lemma here_render p : normal p → here (render p) = p.
Proof.
  intros H. unfold here, render. rewrite str_app_cons, str_app_nil.
  change (split "/" (String "/" (join "/" p)))
    with (EmptyString :: split "/" (join "/" p)).
  destruct p as [|c p]; [reflexivity|].
  rewrite split_join; [|done | by apply normal_no_slash].
  change (normalize (EmptyString :: c :: p))
    with (foldl normalize_step [] (c :: p)).
  by rewrite foldl_normalize_step_plain.
Qed.

(** A relative name is resolved from the working directory on, component
    by component. *)
Lemma resolve_relative d p :
  startswith "/" p = false →
  resolve d p = foldl normalize_step (here d) (split "/" p).
Proof.
  intros Hp. unfold resolve, here, path_join2. rewrite Hp.
  destruct (String.eqb d EmptyString) eqn:Hd; simpl.
  - apply String.eqb_eq in Hd as ->. by rewrite str_app_nil.
  - destruct (endswith "/" d) eqn:He.
    + apply endswith_app in He as [d' ->].
      rewrite str_app_assoc, str_app_cons, str_app_nil.
      rewrite !split_app_sep. unfold normalize. rewrite !foldl_app. done.
    + rewrite str_app_cons, str_app_nil.
      rewrite split_app_sep. unfold normalize. by rewrite foldl_app.
Qed.

Lemma resolve_absolute d p :
  startswith "/" p = true → resolve d p = here p.
Proof. intros Hp. unfold resolve, here, path_join2. by rewrite Hp. Qed.

Lemma startswith_path_join2 a b :
  startswith "/" a = true → startswith "/" (path_join2 a b) = true.
Proof.
  intros Ha. unfold path_join2.
  destruct (startswith "/" b) eqn:Hb; [done|].
  destruct a as [|c a]; [done|]. simpl in Ha.
  destruct (_ || _); rewrite str_app_cons; done.
Qed.

(** The parent of a directory, and an entry of the parent, named from
    inside the directory. *)
Lemma resolve_parent P x :
  normal (P ++ [x]) → resolve (render (P ++ [x])) ".." = P.
Proof.
  intros H. rewrite resolve_relative by done.
  rewrite (here_render _ H).
  change (foldl normalize_step (P ++ [x]) (split "/" ".."))
    with (removelast (P ++ [x])).
  apply removelast_last.
Qed.

Lemma resolve_sibling P x name :
  normal (P ++ [x]) → plain_name name = true →
  resolve (render (P ++ [x])) (path_join (render (P ++ [x])) [".."; name])
  = P ++ [name].
Proof.
  intros H Hn.
  rewrite resolve_absolute.
  2:{ unfold path_join. simpl. do 2 apply startswith_path_join2. reflexivity. }
  change (here (path_join (render (P ++ [x])) [".."; name]))
    with (resolve (path_join2 (render (P ++ [x])) "..") name).
  rewrite (resolve_plain _ _ Hn). f_equal.
  change (here (path_join2 (render (P ++ [x])) ".."))
    with (resolve (render (P ++ [x])) "..").
  by apply resolve_parent.
Qed.

Lemma simple_normal p : simple p = true → normal (split "/" p).
Proof.
  unfold simple, normal. rewrite forallb_forall, Forall_forall.
  intros H x Hx. apply H. by apply list_elem_of_In.
Qed.

Lemma simple_relative p : simple p = true → startswith "/" p = false.
Proof.
  destruct p as [|c p]; [done|]. unfold simple. simpl.
  destruct (Ascii.eqb c "/"); [|done]. simpl. discriminate.
Qed.

(** A simple name is resolved to its components, from the working
    directory on. *)
Lemma resolve_simple d p : simple p = true → resolve d p = here d ++ split "/" p.
Proof.
  intros H. rewrite (resolve_relative d p (simple_relative p H)).
  apply foldl_normalize_step_plain. by apply simple_normal.
Qed.

(** ** C2: [create_zip] *)

Lemma fs_exists_lookup (f : filesystem) (k : path) (n : node) :
  f !! k = Some n → fs_exists f k = true.
Proof.
  intros H. unfold fs_exists. apply bool_decide_eq_true_2.
  by exists k, n.
Qed.

Lemma zf_write_present file w :
  fs_exists (fs w) (resolve (cwd w) file) = true →
  zf_write file w = (Ok (member_of (fs w) (cwd w) file), w).
Proof.
  intros H. unfold zf_write, member_of.
  destruct (fs w !! resolve (cwd w) file) as [[s|]|]; by rewrite ?H.
Qed.







(** The members of regular files other than the archive, in a file system
    with and without the archive. *)
Lemma members_of_files (f : filesystem) (d : string) (k : path) (n : node)
    (files : list string) :
  Forall (λ x, simple x = true ∧ resolve d x ≠ k
               ∧ ∃ content, f !! resolve d x = Some (File content)) files →
  Forall (λ x, fs_exists (<[k := n]> f) (resolve d x) = true) files
  ∧ map (member_of (<[k := n]> f) d) files = map (member_of f d) files.
Proof.
  induction 1 as [|x files (_ & Hx & s & Hl) _ [IH1 IH2]]; [done|]. split.
  - constructor; [|done]. apply (fs_exists_lookup _ _ (File s)).
    by rewrite lookup_insert_ne.
  - simpl. rewrite IH2. f_equal. unfold member_of.
    by rewrite lookup_insert_ne.
Qed.




(** ** The log of the packaging *)

Lemma after_refl w : after w [] (cwd w) w.
Proof. unfold after. by rewrite app_nil_r. Qed.

Lemma read_text_ok p w s w1 : read_text p w = (Ok s, w1) → w1 = w.
Proof.
  unfold read_text. destruct (fs w !! resolve (cwd w) p) as [[]|]; congruence.
Qed.

Lemma read_text_content p w s w1 :
  read_text p w = (Ok s, w1) → fs w !! resolve (cwd w) p = Some (File s).
Proof.
  unfold read_text. destruct (fs w !! resolve (cwd w) p) as [[]|]; congruence.
Qed.

Lemma extract_match_ok re_search regex text w v w1 :
  extract_match re_search regex text w = (Ok v, w1) →
  w1 = w ∧ ∃ m, re_search regex text = Some m ∧ m !! 1%nat = Some v.
Proof.
  unfold extract_match. destruct (re_search regex text) as [m|].
  - unfold group. destruct (m !! 1%nat) as [g|] eqn:Hg; [|discriminate].
    intros [= <- <-]. eauto.
  - by rewrite (bind_raise _ _ _ _ _ (pattern_unbound regex text w)).
Qed.

Lemma copyfile_ok src dst w u w1 :
  copyfile src dst w = (Ok u, w1) →
  after w [EvCopy (resolve (cwd w) src) (resolve (cwd w) dst)] (cwd w) w1.
Proof.
  unfold copyfile. destruct (fs w !! resolve (cwd w) src) as [[]|]; try discriminate.
  by intros [= _ <-].
Qed.

Lemma chdir_ok p w u w1 :
  chdir p w = (Ok u, w1) →
  after w [EvChdir (resolve (cwd w) p)] (render (resolve (cwd w) p)) w1.
Proof.
  unfold chdir. destruct (fs_exists _ _); [|discriminate]. by intros [= _ <-].
Qed.

Lemma move_ok src dst w u w1 :
  move src dst w = (Ok u, w1) →
  after w [EvMove (resolve (cwd w) src) (resolve (cwd w) dst)] (cwd w) w1.
Proof.
  unfold move. destruct (fs w !! resolve (cwd w) src); [|discriminate].
  by intros [= _ <-].
Qed.

Lemma remove_or_not p w u w1 :
  try_except (remove p) is_FileNotFoundError (λ _, ret tt) w = (Ok u, w1) →
  ∃ evs, after w evs (cwd w) w1 ∧ Forall is_remove evs.
Proof.
  unfold try_except, remove. destruct (fs w !! resolve (cwd w) p); simpl.
  - intros [= _ <-]. eexists [_]. split; [by unfold after | by repeat constructor].
  - intros [= _ <-]. exists []. split; [apply after_refl | done].
Qed.

Lemma print_items_log info w :
  print_items info w
  = (Ok tt,
     mkWorld (fs w) (cwd w) (environ w) (cpu_count w) (today w) (elapsed w)
       (log w ++ map (λ kv, EvPrint (kv.1 +:+ "=" +:+ kv.2)) info)).
Proof.
  revert w. induction info as [|kv info IH]; intros w; simpl.
  - rewrite app_nil_r. by destruct w.
  - rewrite (bind_ok (print _) _ w tt _ eq_refl). rewrite IH. simpl.
    by rewrite <- app_assoc.
Qed.

Lemma display_info_ok info w :
  (display_info info w).1 = Ok tt
  ∧ after w (info_lines info) (cwd w) (display_info info w).2.
Proof.
  unfold display_info.
  rewrite (bind_ok (print _) _ w tt _ eq_refl).
  rewrite (bind_ok _ _ _ _ _ (print_items_log info _)).
  split; [done|]. unfold after, info_lines. simpl.
  by rewrite <- !app_assoc.
Qed.

Lemma create_zip_ok zip_bytes name files w u w1 :
  create_zip zip_bytes name files w = (Ok u, w1) →
  ∃ members,
    after w
      [EvPrint ("Creating zip: " +:+ name +:+ " with "
                  +:+ pretty (length files) +:+ " files");
       EvZipOpen (resolve (cwd w) name);
       EvZipClose (resolve (cwd w) name) members;
       EvPrint "Zip creation complete"]
      (cwd w) w1.
Proof.
  unfold create_zip.
  rewrite (bind_ok (print _) _ w tt _ eq_refl).
  set (w0 := emit _ w).
  rewrite (bind_ok (get _) _ w0 (resolve (cwd w) name) w0 eq_refl).
  rewrite (bind_ok (zip_open name) _ w0 tt _ eq_refl).
  set (w2 := emit (EvZipOpen _) _).
  rewrite bind_unfold. unfold zip_write_and_close.
  pose proof (zf_write_all_world files [] w2) as Hw.
  destruct (zf_write_all files [] w2) as [[[[]|e] members] w3]; simpl in Hw;
    subst w3; [|discriminate].
  intros [= _ <-]. exists members. unfold after. simpl.
  by rewrite <- !app_assoc.
Qed.

Lemma get_ok {A} (f : World → A) w a w1 : get f w = (Ok a, w1) → a = f w ∧ w1 = w.
Proof. by intros [= <- <-]. Qed.

Section Package.

Variable re_search : string → string → option re_match.
Variable zip_bytes : list member → string.

(** What a packaging that ends well has done. *)
Lemma package_ok args w u w' :
  package re_search zip_bytes args w = (Ok u, w') →
  let name := zip_filename args (today w) in
  let ak3 := render (resolve (cwd w) "AnyKernel3/") in
  ∃ text release members removed,
    fs w !! resolve (cwd w) "out/include/generated/utsrelease.h"
    = Some (File text)
    ∧ (∃ m, re_search release_regex text = Some m ∧ m !! 1%nat = Some release)
    ∧ Forall is_remove removed
    ∧ log w'
      = log w
          ++ [EvCopy (resolve (cwd w) "out/arch/arm64/boot/Image")
                (resolve (cwd w) "AnyKernel3/Image");
              EvChdir (resolve (cwd w) "AnyKernel3/");
              EvPrint ("Creating zip: " +:+ name +:+ " with "
                         +:+ pretty (length manifest) +:+ " files");
              EvZipOpen (resolve ak3 name);
              EvZipClose (resolve ak3 name) members;
              EvPrint "Zip creation complete"]
          ++ removed
          ++ [EvMove (resolve ak3 name) (resolve ak3 (path_join ak3 [".."; name]));
              EvChdir (resolve ak3 "..")]
          ++ info_lines [("OUT_ZIPNAME", name);
                         ("KERNEL_VERSION", str_opt release);
                         ("ELAPSED_TIME", elapsed w +:+ " seconds")].
Proof.
  intros H name ak3. unfold package in H.
  apply bind_ok_inv in H as (text & w1 & H1 & H).
  pose proof (read_text_content _ _ _ _ H1) as Htext.
  apply read_text_ok in H1 as ->.
  apply bind_ok_inv in H as (release & w1 & H1 & H).
  apply extract_match_ok in H1 as (-> & Hrel).
  apply bind_ok_inv in H as (u1 & w1 & H1 & H).
  apply copyfile_ok in H1 as (L1 & C1 & T1 & E1).
  apply bind_ok_inv in H as (date & w1' & H2 & H).
  apply get_ok in H2 as (-> & ->). rewrite T1 in H. fold name in H.
  apply bind_ok_inv in H as (u2 & w2 & H2 & H).
  apply chdir_ok in H2 as (L2 & C2 & T2 & E2). rewrite C1 in L2, C2.
  fold ak3 in C2.
  apply bind_ok_inv in H as (u3 & w3 & H3 & H).
  apply create_zip_ok in H3 as (members & L3 & C3 & T3 & E3).
  rewrite C2 in L3, C3.
  apply bind_ok_inv in H as (d & w3' & H4 & H).
  apply get_ok in H4 as (-> & ->). rewrite C3 in H.
  apply bind_ok_inv in H as (u4 & w4 & H4 & H).
  apply remove_or_not in H4 as (removed & (L4 & C4 & T4 & E4) & Hrem).
  rewrite C3 in C4.
  apply bind_ok_inv in H as (u5 & w5 & H5 & H).
  apply move_ok in H5 as (L5 & C5 & T5 & E5). rewrite C4 in L5, C5.
  apply bind_ok_inv in H as (u6 & w6 & H6 & H).
  apply chdir_ok in H6 as (L6 & C6 & T6 & E6). rewrite C5 in L6, C6.
  apply bind_ok_inv in H as (seconds & w6' & H7 & H).
  apply get_ok in H7 as (-> & ->).
  destruct (display_info_ok
              [("OUT_ZIPNAME", name); ("KERNEL_VERSION", str_opt release);
               ("ELAPSED_TIME", elapsed w6 +:+ " seconds")] w6)
    as (_ & L7 & _).
  rewrite H in L7. cbn [snd] in L7.
  exists text, release, members, removed.
  split; [exact Htext|]. split; [done|]. split; [done|].
  rewrite L7, L6, L5, L4, L3, L2, L1.
  rewrite E6, E5, E4, E3, E2, E1.
  by rewrite <- !app_assoc.
Qed.

End Package.

Ltac find_in :=
  lazymatch goal with
  | |- _ ∈ _ ++ _ => apply elem_of_app; ((left; find_in) || (right; find_in))
  | |- _ ∈ _ :: _ => apply elem_of_cons; ((left; reflexivity) || (right; find_in))
  end.

Section Completed.

Variable popen : list string → filesystem → string → gmap string string → proc.
Variable re_search : string → string → option re_match.
Variable zip_bytes : list member → string.

(** A run that completes has gone through both steps of the build, and then
    through the packaging. *)
Lemma build_and_package_completed args w w' :
  build_and_package popen re_search zip_bytes args w = (Ok Completed, w') →
  ∃ wb,
    grows (build_event args (cpu_count w)) w wb
    ∧ (package re_search zip_bytes args ;; ret Completed) wb = (Ok Completed, w').
Proof.
  intros H.
  destruct (popen (make_defconfig args (cpu_count w)) (fs w) (cwd w) (environ w))
    as [e|rc1 o1 e1 fs1] eqn:Hp1.
  { pose proof (config_not_spawned popen re_search zip_bytes _ _ _ Hp1) as E.
    rewrite H in E. discriminate. }
  pose proof (config_exited popen re_search zip_bytes _ _ _ _ _ _ Hp1) as E.
  rewrite H in E. destruct (bool_decide (rc1 ≠ 0%Z)); [discriminate|].
  pose proof (configured_grows_build args w rc1 o1 e1 fs1) as Gc.
  set (wc := configured args w rc1 o1 e1 fs1) in *.
  destruct (popen (make_common (cpu_count w)) (fs wc) (cwd wc) (environ wc))
    as [e|rc2 o2 e2 fs2] eqn:Hp2.
  { pose proof (compile_not_spawned popen re_search zip_bytes args _ _ _ Hp2) as E2.
    rewrite <- E in E2. discriminate. }
  pose proof (compile_exited popen re_search zip_bytes args _ _ _ _ _ _ Hp2) as E2.
  rewrite <- E in E2. destruct (bool_decide (rc2 ≠ 0%Z)); [discriminate|].
  exists (emit (EvPrint "Build complete") (compiled (cpu_count w) wc rc2 o2 e2 fs2)).
  split; [|done].
  apply grows_emit; [|done].
  eapply grows_trans; [exact Gc | apply compiled_grows_build].
Qed.

End Completed.


(** * Further properties of the script *)

(** ** [run_command] *)

(** X1.  When the process cannot be started, [run_command] ends with the
    error of the start: no log file is written, no line is printed, and the
    file system is as it was. *)
Theorem run_command_not_started
    (popen : list string → filesystem → string → gmap string string → proc)
    (command : list string) (so se : option string) (w : World) (e : exn) :
  popen command (fs w) (cwd w) (environ w) = NotSpawned e →
  (run_command popen command so se w).1 = Raise e
  ∧ fs (run_command popen command so se w).2 = fs w
  ∧ log (run_command popen command so se w).2 = log w ++ [EvSpawn command (fs w)].
Proof.
  intros H. by rewrite (run_command_failed popen command so se w e H).
Qed.

Lemma run_command_not_started_witness :
  (run_command (Lab.popen 0 0) ["ninja"; "-C"; "out"]
     (Some "ninja.log") None (Lab.host Lab.checkout)).1
  = Raise (FileNotFoundError "ninja").
Proof.
  exact (proj1 (run_command_not_started (Lab.popen 0 0) ["ninja"; "-C"; "out"]
                  (Some "ninja.log") None (Lab.host Lab.checkout)
                  (FileNotFoundError "ninja") eq_refl)).
Defined.

(** X2.  Of the file system the process left, [run_command] changes the log
    files it was asked for and nothing else; asked for none ([None] or the
    empty string), it writes nothing and prints nothing. *)
Theorem run_command_writes_only_logs
    (popen : list string → filesystem → string → gmap string string → proc)
    (command : list string) (so se : option string) (w : World)
    (rc : Z) (out err : string) (fs' : filesystem) :
  popen command (fs w) (cwd w) (environ w) = Exited rc out err fs' →
  (∀ k, (truthy so = true → k ≠ resolve (cwd w) (str_opt so)) →
        (truthy se = true → k ≠ resolve (cwd w) (str_opt se)) →
        fs (run_command popen command so se w).2 !! k = fs' !! k)
  ∧ (truthy so = false → truthy se = false →
     (run_command popen command so se w).2
     = emit (EvExit command rc out err)
         (set_fs fs' (emit (EvSpawn command (fs w)) w))).
Proof.
  intros H. rewrite (run_command_exited popen command so se w rc out err fs' H).
  cbn [snd]. unfold logged. split.
  - intros k Ho He.
    destruct (truthy so), (truthy se); simpl;
      rewrite ?lookup_insert_ne; auto; apply not_eq_sym; auto.
  - by intros -> ->.
Qed.

Lemma run_command_writes_only_logs_witness :
  (run_command (Lab.popen 0 0) clang_v (Some EmptyString) None (Lab.host ∅)).2
  = emit (EvExit clang_v 0 EmptyString "Ubuntu clang version 17.0.6 (9ubuntu1)")
      (set_fs ∅ (emit (EvSpawn clang_v ∅) (Lab.host ∅))).
Proof.
  refine (proj2 (run_command_writes_only_logs (Lab.popen 0 0) clang_v
                   (Some EmptyString) None (Lab.host ∅)
                   0 EmptyString "Ubuntu clang version 17.0.6 (9ubuntu1)"
                   ∅ _) _ _); reflexivity.
Defined.

(** ** [file_exists] *)

(** X3.  Take a simple path name: it names the working directory's path
    followed by the components of the name.  [file_exists] answers [True],
    and prints nothing, when some entry of the file system lies at that path
    or beneath it, so a directory counts as present.  It answers [False], and
    prints its one line, when no entry does.  It never raises and it leaves
    the file system alone. *)
Theorem file_exists_answer (filepath : string) (w : World) :
  simple filepath = true →
  let target := here (cwd w) ++ split "/" filepath in
  fs (file_exists filepath w).2 = fs w
  ∧ ((∃ k n, fs w !! k = Some n ∧ target `prefix_of` k) →
     file_exists filepath w = (Ok true, w))
  ∧ ((∀ k n, fs w !! k = Some n → ¬ target `prefix_of` k) →
     file_exists filepath w
     = (Ok false, emit (EvPrint ("File not found: " +:+ filepath)) w)).
Proof.
  intros Hs target. subst target.
  rewrite <- (resolve_simple (cwd w) filepath Hs).
  split_and!.
  - destruct (fs_exists (fs w) (resolve (cwd w) filepath)) eqn:H.
    + by rewrite (file_exists_true _ _ H).
    + by rewrite (file_exists_false _ _ H).
  - intros (k & n & Hk & Hp). apply file_exists_true.
    unfold fs_exists. apply bool_decide_eq_true_2. by exists k, n.
  - intros Hno. apply file_exists_false.
    unfold fs_exists. apply bool_decide_eq_false_2.
    intros (k & n & Hk & Hp). by apply (Hno k n).
Qed.

Lemma file_exists_answer_witness :
  file_exists "toolchain/bin" (Lab.host Lab.checkout)
  = (Ok true, Lab.host Lab.checkout).
Proof.
  apply (proj1 (proj2 (file_exists_answer "toolchain/bin"
                         (Lab.host Lab.checkout) eq_refl))).
  exists (resolve Lab.home "toolchain/bin/clang"), (File "ELF").
  split; vm_compute; [reflexivity|].
  by exists ["clang"].
Defined.

(** A directory that holds something exists, though the map has no entry
    for the directory itself. *)
Lemma fs_exists_beneath (f : filesystem) (d k : path) (n : node) :
  f !! k = Some n → d `prefix_of` k → fs_exists f d = true.
Proof.
  intros Hk Hd. unfold fs_exists. apply bool_decide_eq_true_2. by exists k, n.
Qed.

(** ** The compiler probe *)

(** X4.  [verify_executable] prints its line, and raises the same
    [CommandError] again, exactly when the compiler ran and exited with a code
    other than 0.  A compiler that cannot be started at all ends the probe
    with the error of the start and without the line. *)
Theorem verify_executable_outcome
    (popen : list string → filesystem → string → gmap string string → proc)
    (w : World) :
  (∀ e, popen clang_v (fs w) (cwd w) (environ w) = NotSpawned e →
        is_CommandError e = false →
        verify_executable popen w = (Raise e, emit (EvSpawn clang_v (fs w)) w))
  ∧ (∀ rc out err fs',
        popen clang_v (fs w) (cwd w) (environ w) = Exited rc out err fs' →
        verify_executable popen w
        = if bool_decide (rc ≠ 0%Z)
          then (Raise (CommandError clang_v rc),
                emit (EvPrint "Clang execution failed")
                  (emit (EvExit clang_v rc out err)
                     (set_fs fs' (emit (EvSpawn clang_v (fs w)) w))))
          else (Ok tt,
                emit (EvExit clang_v rc out err)
                  (set_fs fs' (emit (EvSpawn clang_v (fs w)) w)))).
Proof.
  split.
  - intros e H He. unfold verify_executable, try_except.
    rewrite (bind_raise _ _ _ _ _ (run_command_failed popen clang_v None None w e H)).
    by rewrite He.
  - intros rc out err fs' H. unfold verify_executable, try_except.
    rewrite bind_unfold.
    rewrite (run_command_exited popen clang_v None None w rc out err fs' H).
    by destruct (bool_decide (rc ≠ 0%Z)).
Qed.

Lemma verify_executable_outcome_witness :
  (verify_executable (broken_clang 127) (Lab.host ∅)).1
  = Raise (CommandError clang_v 127).
Proof.
  exact (f_equal fst
           (proj2 (verify_executable_outcome (broken_clang 127) (Lab.host ∅))
              127%Z EmptyString "clang: error while loading shared libraries" ∅
              eq_refl)).
Defined.

(** X5.  [get_version] takes the version from what the compiler wrote on
    stderr and never looks at its stdout.  It yields the first group of the
    match; when stderr has no version banner, the outcome is the [NameError]
    of [extract_match]. *)
Theorem get_version_reads_stderr
    (popen : list string → filesystem → string → gmap string string → proc)
    (re_search : string → string → option re_match)
    (w : World) (rc : Z) (out err : string) (fs' : filesystem) :
  popen clang_v (fs w) (cwd w) (environ w) = Exited rc out err fs' →
  (get_version popen re_search w).1
  = if bool_decide (rc ≠ 0%Z) then Raise (CommandError clang_v rc)
    else match re_search version_regex err with
         | Some m => match m !! 1%nat with
                     | Some g => Ok g
                     | None => Raise (IndexError "no such group")
                     end
         | None => Raise (NameError "pattern")
         end.
Proof.
  intros H. unfold get_version. rewrite bind_unfold.
  rewrite (run_command_exited popen clang_v None None w rc out err fs' H).
  destruct (bool_decide (rc ≠ 0%Z)); [done|]. cbn [snd].
  unfold extract_match.
  destruct (re_search version_regex err) as [m|].
  - unfold group. by destruct (m !! 1%nat).
  - by rewrite (bind_raise _ _ _ _ _ (pattern_unbound _ _ _)).
Qed.

Lemma get_version_reads_stderr_witness :
  (get_version (Lab.popen 0 0) Re.search (Lab.host ∅)).1
  = Ok (Some "Ubuntu clang version 17.0.6").
Proof.
  refine (eq_trans
            (get_version_reads_stderr (Lab.popen 0 0) Re.search (Lab.host ∅)
               0 EmptyString "Ubuntu clang version 17.0.6 (9ubuntu1)" ∅ _) _).
  - reflexivity.
  - vm_compute. reflexivity.
Defined.

(** ** [extract_match] *)

(** X6.  [extract_match] never raises the [AssertionError] it was written
    to raise, whatever the pattern and the text, and it leaves the world as
    it is. *)
Theorem extract_match_never_AssertionError
    (re_search : string → string → option re_match)
    (regex text : string) (w : World) :
  (extract_match re_search regex text w).2 = w
  ∧ ∀ message,
      (extract_match re_search regex text w).1 ≠ Raise (AssertionError message).
Proof.
  unfold extract_match. destruct (re_search regex text) as [m|].
  - unfold group. by destruct (m !! 1%nat).
  - by rewrite (bind_raise _ _ _ _ _ (pattern_unbound _ _ _)).
Qed.

(** ** Cleaning the output directory *)

(** X7.  Take an output directory that is not a regular file.  With
    [--allow-dirty], or with no output directory at all, [clean_output] leaves
    the world as it is.  Otherwise it announces the cleaning and removes
    whatever lies at or beneath the output directory, and nothing else.  In
    both cases it does not fail. *)
Theorem clean_output_effect (args : Args) (w : World) :
  (∀ content, fs w !! resolve (cwd w) "out" ≠ Some (File content)) →
  (clean_output args w).1 = Ok tt
  ∧ if fs_exists (fs w) (resolve (cwd w) "out") && negb (allow_dirty args)
    then log (clean_output args w).2
         = log w ++ [EvPrint "Cleaning build output...";
                     EvRmtree (resolve (cwd w) "out")]
         ∧ ∀ k, fs (clean_output args w).2 !! k
                = if bool_decide (resolve (cwd w) "out" `prefix_of` k)
                  then None else fs w !! k
    else clean_output args w = (Ok tt, w).
Proof.
  intros _.
  unfold clean_output. rewrite bind_unfold. cbn [path_exists get].
  destruct (fs_exists (fs w) (resolve (cwd w) "out")) eqn:He; [|done].
  destruct (allow_dirty args); [done|]. cbn [andb negb].
  rewrite (bind_ok (print _) _ w tt _ eq_refl).
  unfold rmtree. cbn [cwd fs emit]. rewrite He. cbn [fst snd].
  split; [done|]. split.
  - cbn. by rewrite <- app_assoc.
  - intros k. cbn [fs emit set_fs]. unfold fs_rmtree.
    case_bool_decide as Hk.
    + apply map_lookup_filter_None. right. intros x _ Hn. by apply Hn.
    + destruct (fs w !! k) as [n|] eqn:E.
      * by apply map_lookup_filter_Some.
      * apply map_lookup_filter_None. by left.
Qed.

Lemma clean_output_effect_witness :
  (clean_output Lab.m21 (Lab.host Lab.checkout)).1 = Ok tt.
Proof.
  refine (proj1 (clean_output_effect Lab.m21 (Lab.host Lab.checkout) _)).
  intros content.
  assert (fs (Lab.host Lab.checkout) !! resolve (cwd (Lab.host Lab.checkout)) "out"
          = None) as -> by (vm_compute; reflexivity).
  discriminate.
Defined.

(** ** The search path *)

(** X8.  With no [PATH] in the environment the step raises [KeyError] and
    changes nothing.  In every case it leaves the file system, the working
    directory and every other variable alone, and what [PATH] held before is
    still the end of what it holds after. *)
Theorem prepare_environment_only_PATH (w : World) :
  (environ w !! "PATH" = None →
   prepare_environment w = (Raise (KeyError "PATH"), w))
  ∧ fs (prepare_environment w).2 = fs w
  ∧ cwd (prepare_environment w).2 = cwd w
  ∧ (∀ x, x ≠ "PATH" →
          environ (prepare_environment w).2 !! x = environ w !! x)
  ∧ (∀ p, environ w !! "PATH" = Some p →
          (prepare_environment w).1 = Ok tt
          ∧ ∃ front, environ (prepare_environment w).2 !! "PATH"
                     = Some (front +:+ p)).
Proof.
  destruct (environ w !! "PATH") as [p|] eqn:Hp.
  - destruct (decide (toolchain_path (cwd w) ∈ split pathsep p)) as [Hin|Hin].
    + rewrite (prepare_environment_present w p Hp Hin). split_and!; try done.
      intros p' [= <-]. split; [done|]. exists EmptyString.
      by rewrite str_app_nil.
    + rewrite (prepare_environment_absent w p Hp Hin). split_and!; try done.
      * intros x Hx. cbn. by rewrite lookup_insert_ne.
      * intros p' [= <-]. split; [done|].
        exists (toolchain_path (cwd w) +:+ ":"). cbn.
        rewrite lookup_insert_eq. by rewrite str_app_assoc.
  - assert (prepare_environment w = (Raise (KeyError "PATH"), w)) as ->.
    { unfold prepare_environment, bind, getcwd, get, getenv. by rewrite Hp. }
    by split_and!.
Qed.

Lemma prepare_environment_only_PATH_witness :
  prepare_environment
    (set_environ {[ "HOME" := "/home/user" ]} (Lab.host ∅))
  = (Raise (KeyError "PATH"),
     set_environ {[ "HOME" := "/home/user" ]} (Lab.host ∅)).
Proof.
  apply (proj1 (prepare_environment_only_PATH
                  (set_environ {[ "HOME" := "/home/user" ]} (Lab.host ∅)))).
  vm_compute. reflexivity.
Defined.

(** ** [create_zip], when nothing is missing *)

Lemma zf_write_all_present files written w :
  Forall (λ x, fs_exists (fs w) (resolve (cwd w) x) = true) files →
  zf_write_all files written w
  = (Ok tt, written ++ map (member_of (fs w) (cwd w)) files, w).
Proof.
  intros H. revert written.
  induction H as [|x files Hx H IH]; intros written; simpl.
  - by rewrite app_nil_r.
  - rewrite (zf_write_present _ _ Hx). rewrite IH. by rewrite <- app_assoc.
Qed.

Lemma member_of_name f d file : (member_of f d file).1 = file.
Proof. unfold member_of. by destruct (f !! resolve d file) as [[]|]. Qed.

Lemma member_of_names f d files : map fst (map (member_of f d) files) = files.
Proof.
  induction files as [|x files IH]; [done|].
  simpl. by rewrite member_of_name, IH.
Qed.

(** X9.  Take an archive that can be created, and files listed under
    simple names, each a regular file and none the archive itself.
    [create_zip] then succeeds.  The archive holds one member per listed
    file, under the name given and in the order given, with that file's
    content.  Two lines are printed, before and after. *)
Theorem create_zip_complete
    (zip_bytes : list member → string) (zip_filename : string)
    (files : list string) (w : World) :
  let k := resolve (cwd w) zip_filename in
  creatable (fs w) (cwd w) zip_filename →
  Forall (λ x, simple x = true ∧ resolve (cwd w) x ≠ k
               ∧ ∃ content, fs w !! resolve (cwd w) x = Some (File content))
    files →
  let r := create_zip zip_bytes zip_filename files w in
  let members := map (member_of (fs w) (cwd w)) files in
  r.1 = Ok tt
  ∧ fs r.2 = <[k := File (zip_bytes members)]> (fs w)
  ∧ news w r.2
    = [EvPrint ("Creating zip: " +:+ zip_filename +:+ " with "
                  +:+ pretty (length files) +:+ " files");
       EvZipOpen k; EvZipClose k members; EvPrint "Zip creation complete"]
  ∧ map fst members = files
  ∧ ∀ file content, file ∈ files →
                    fs w !! resolve (cwd w) file = Some (File content) →
                    (file, content) ∈ members.
Proof.
  intros k _ Hfiles r members. subst r.
  set (f := <[k := File EmptyString]> (fs w)).
  destruct (members_of_files (fs w) (cwd w) k (File EmptyString) files Hfiles)
    as [Hall Hmem].
  fold f in Hall, Hmem. fold members in Hmem.
  unfold create_zip.
  rewrite (bind_ok (print _) _ w tt _ eq_refl).
  set (w1 := emit _ w).
  rewrite (bind_ok (get _) _ w1 k w1 eq_refl).
  rewrite (bind_ok (zip_open zip_filename) _ w1 tt
             (emit (EvZipOpen k) (set_fs f w1)) eq_refl).
  set (w2 := emit (EvZipOpen k) (set_fs f w1)).
  assert (zip_write_and_close zip_bytes k files w2
          = (Ok tt,
             emit (EvZipClose k members)
               (set_fs (<[k := File (zip_bytes members)]> f) w2))) as Hz.
  { unfold zip_write_and_close.
    rewrite (zf_write_all_present files [] w2 Hall).
    change (fs w2) with f. change (cwd w2) with (cwd w).
    cbn [app]. by rewrite Hmem. }
  rewrite (bind_ok _ _ _ _ _ Hz). cbn [fst snd]. split_and!.
  - done.
  - simpl. subst f. apply insert_insert_eq.
  - unfold news. simpl. rewrite <- !app_assoc. by rewrite drop_app_length.
  - apply member_of_names.
  - intros file content Hin Hl. subst members.
    apply list_elem_of_fmap. exists file. split; [|done].
    unfold member_of. by rewrite Hl.
Qed.

Lemma create_zip_complete_witness :
  (create_zip Lab.zip_store "SN.zip" ["Image"]
     (Lab.host (Lab.put Lab.home "Image" "ARM64 boot image" ∅))).1
  = Ok tt.
Proof.
  refine (proj1 (create_zip_complete Lab.zip_store "SN.zip" ["Image"]
                   (Lab.host (Lab.put Lab.home "Image" "ARM64 boot image" ∅))
                   _ _)).
  - vm_compute. exact I.
  - constructor; [|constructor]. split_and!.
    + reflexivity.
    + vm_compute. discriminate.
    + exists "ARM64 boot image". vm_compute. reflexivity.
Defined.





(** ** [display_info] *)

(** X11.  [display_info] does not fail and changes nothing; it prints one
    line per entry, in the order of the entries, between two rules. *)
Theorem display_info_lines (info_dict : list (string * string)) (w : World) :
  (display_info info_dict w).1 = Ok tt
  ∧ fs (display_info info_dict w).2 = fs w
  ∧ news w (display_info info_dict w).2
    = [EvPrint "================================"]
        ++ map (λ kv, EvPrint (kv.1 +:+ "=" +:+ kv.2)) info_dict
        ++ [EvPrint "================================"]
  ∧ length (news w (display_info info_dict w).2) = length info_dict + 2.
Proof.
  unfold display_info.
  rewrite (bind_ok (print _) _ w tt _ eq_refl).
  rewrite (bind_ok _ _ _ _ _ (print_items_log info_dict _)).
  assert (news w
            (print "================================"
               (mkWorld (fs (emit (EvPrint "================================") w))
                  (cwd (emit (EvPrint "================================") w))
                  (environ (emit (EvPrint "================================") w))
                  (cpu_count (emit (EvPrint "================================") w))
                  (today (emit (EvPrint "================================") w))
                  (elapsed (emit (EvPrint "================================") w))
                  (log (emit (EvPrint "================================") w) ++
                   map (λ kv, EvPrint (kv.1 +:+ "=" +:+ kv.2)) info_dict))).2
          = [EvPrint "================================"]
              ++ map (λ kv, EvPrint (kv.1 +:+ "=" +:+ kv.2)) info_dict
              ++ [EvPrint "================================"]) as Hn.
  { unfold news. simpl. rewrite <- !app_assoc. by rewrite drop_app_length. }
  split_and!; try done.
  rewrite Hn. rewrite !length_app, length_map. simpl. lia.
Qed.

(** ** Where a run of [main] ends early *)

Section Early.

Variable popen : list string → filesystem → string → gmap string string → proc.
Variable re_search : string → string → option re_match.
Variable zip_bytes : list member → string.

(** Past the validation, [main] is the dependency check and what follows
    it. *)
Lemma main_validated args w :
  oneui args && aosp args = false →
  target args ∈ valid_targets →
  main popen re_search zip_bytes args w
  = bind (acquire_dependencies popen)
      (λ have_toolchain,
         if negb have_toolchain then ret NoToolchain
         else probe_and_report popen re_search args ;;
              prepare_environment ;;
              clean_output args ;;
              build popen args ;;
              package re_search zip_bytes args ;;
              ret Completed) w.
Proof.
  intros Hv Ht. unfold main. rewrite Hv.
  unfold str_in. by rewrite bool_decide_eq_true_2.
Qed.

(** With both the packaging sub-project and the compiler in place, the
    dependency check does nothing. *)
Lemma acquire_dependencies_ready w :
  fs_exists (fs w) (resolve (cwd w) "AnyKernel3/anykernel.sh") = true →
  fs_exists (fs w) (resolve (cwd w) "toolchain/bin/clang") = true →
  acquire_dependencies popen w = (Ok true, w).
Proof.
  intros Ha Hc. unfold acquire_dependencies.
  rewrite (bind_ok _ _ _ _ _ (file_exists_true _ _ Ha)). simpl.
  rewrite (bind_ok (ret tt) _ w tt w eq_refl).
  by rewrite (bind_ok _ _ _ _ _ (file_exists_true _ _ Hc)).
Qed.

End Early.

(** X12.  When the packaging sub-project is absent and fetching it exits
    with a code other than 0, a run with valid arguments ends there with the
    [CommandError] of the fetch.  It has printed that the file was not found
    and run the fetch, and nothing else: the toolchain is not looked for. *)
Theorem fetch_failure
    (popen : list string → filesystem → string → gmap string string → proc)
    (re_search : string → string → option re_match)
    (zip_bytes : list member → string) (args : Args) (w : World)
    (rc : Z) (out err : string) (fs' : filesystem) :
  oneui args && aosp args = false →
  target args ∈ valid_targets →
  fs_exists (fs w) (resolve (cwd w) "AnyKernel3/anykernel.sh") = false →
  popen git_update (fs w) (cwd w) (environ w) = Exited rc out err fs' →
  rc ≠ 0%Z →
  main popen re_search zip_bytes args w
  = (Raise (CommandError git_update rc),
     emit (EvExit git_update rc out err)
       (set_fs fs'
          (emit (EvSpawn git_update (fs w))
             (emit (EvPrint "File not found: AnyKernel3/anykernel.sh") w)))).
Proof.
  intros Hv Ht Ha Hp Hrc.
  rewrite (main_validated popen re_search zip_bytes args w Hv Ht).
  apply bind_raise. unfold acquire_dependencies.
  rewrite (bind_ok _ _ _ _ _ (file_exists_false _ _ Ha)). simpl.
  set (w1 := emit _ w).
  apply bind_raise. apply bind_raise.
  rewrite (run_command_exited popen _ None None w1 _ _ _ _ Hp).
  by rewrite bool_decide_eq_true_2.
Qed.

Lemma fetch_failure_witness :
  (Lab.run 128 0 Lab.m21 (Lab.host ∅)).1 = Raise (CommandError git_update 128).
Proof.
  refine (f_equal fst
            (fetch_failure (Lab.popen 128 0) Re.search Lab.zip_store Lab.m21
               (Lab.host ∅) 128 EmptyString "fatal: unable to access the remote" ∅
               eq_refl _ _ _ _)).
  - compute_done.
  - vm_compute. reflexivity.
  - reflexivity.
  - discriminate.
Defined.

(** X13.  When the compiler is in place but exits with a code other than 0
    on [-v], a run with valid arguments ends with that [CommandError], having
    printed [Clang execution failed].  No information block is printed, the
    environment is not touched, nothing is cleaned and nothing is built. *)
Theorem clang_failure
    (popen : list string → filesystem → string → gmap string string → proc)
    (re_search : string → string → option re_match)
    (zip_bytes : list member → string) (args : Args) (w : World)
    (rc : Z) (out err : string) (fs' : filesystem) :
  oneui args && aosp args = false →
  target args ∈ valid_targets →
  fs_exists (fs w) (resolve (cwd w) "AnyKernel3/anykernel.sh") = true →
  fs_exists (fs w) (resolve (cwd w) "toolchain/bin/clang") = true →
  popen clang_v (fs w) (cwd w) (environ w) = Exited rc out err fs' →
  rc ≠ 0%Z →
  main popen re_search zip_bytes args w
  = (Raise (CommandError clang_v rc),
     emit (EvPrint "Clang execution failed")
       (emit (EvExit clang_v rc out err)
          (set_fs fs' (emit (EvSpawn clang_v (fs w)) w)))).
Proof.
  intros Hv Ht Ha Hc Hp Hrc.
  rewrite (main_validated popen re_search zip_bytes args w Hv Ht).
  rewrite (bind_ok _ _ _ _ _ (acquire_dependencies_ready popen w Ha Hc)).
  cbn [negb]. apply bind_raise. unfold probe_and_report. apply bind_raise.
  unfold verify_executable, try_except. rewrite bind_unfold.
  rewrite (run_command_exited popen clang_v None None w rc out err fs' Hp).
  by rewrite bool_decide_eq_true_2.
Qed.

Lemma clang_failure_witness :
  (main (broken_clang 127) Re.search Lab.zip_store Lab.m21
     (Lab.host Lab.checkout)).1
  = Raise (CommandError clang_v 127).
Proof.
  refine (f_equal fst
            (clang_failure (broken_clang 127) Re.search Lab.zip_store Lab.m21
               (Lab.host Lab.checkout) 127 EmptyString
               "clang: error while loading shared libraries" Lab.checkout
               eq_refl _ _ _ _ _)).
  - compute_done.
  - vm_compute. reflexivity.
  - vm_compute. reflexivity.
  - reflexivity.
  - discriminate.
Defined.



(** ** Flags that change nothing *)

(** X15.  Without [--oneui], the [--aosp] flag has no effect at all: the
    run is the same with it and without it. *)
Theorem aosp_flag_alone
    (popen : list string → filesystem → string → gmap string string → proc)
    (re_search : string → string → option re_match)
    (zip_bytes : list member → string) (args : Args) (b : bool) (w : World) :
  oneui args = false →
  main popen re_search zip_bytes (with_aosp b args) w
  = main popen re_search zip_bytes args w.
Proof.
  intros Ho. destruct args as [t d o a n p]. simpl in Ho. subst o.
  unfold with_aosp, main. cbn [oneui aosp target andb]. reflexivity.
Qed.

Lemma aosp_flag_alone_witness :
  Lab.run 0 0 (with_aosp true Lab.m21) (Lab.host Lab.checkout)
  = Lab.run 0 0 Lab.m21 (Lab.host Lab.checkout).
Proof.
  exact (aosp_flag_alone (Lab.popen 0 0) Re.search Lab.zip_store Lab.m21 true
           (Lab.host Lab.checkout) eq_refl).
Defined.

(** ** The processes of a run *)

Lemma news_app w w' evs : log w' = log w ++ evs → news w w' = evs.
Proof. intros H. unfold news. by rewrite H, drop_app_length. Qed.

Lemma news_grows P w w' :
  grows P w w' → log w' = log w ++ news w w' ∧ Forall P (news w w').
Proof. intros (evs & H & HP & _). by rewrite (news_app _ _ _ H). Qed.

Section Whole.

Variable popen : list string → filesystem → string → gmap string string → proc.
Variable re_search : string → string → option re_match.
Variable zip_bytes : list member → string.
Variable P : event → Prop.
Variable args : Args.
Variable cpu : option nat.

Hypothesis P_print : ∀ line, P (EvPrint line).
Hypothesis P_write : ∀ k text, P (EvWrite k text).
Hypothesis P_clang :
  (∀ seen, P (EvSpawn clang_v seen))
  ∧ (∀ rc out err, P (EvExit clang_v rc out err)).
Hypothesis P_setenv : ∀ x v, P (EvSetenv x v).
Hypothesis P_rmtree : ∀ k, P (EvRmtree k).
Hypothesis P_config :
  (∀ seen, P (EvSpawn (make_defconfig args cpu) seen))
  ∧ (∀ rc out err, P (EvExit (make_defconfig args cpu) rc out err)).
Hypothesis P_compile :
  (∀ seen, P (EvSpawn (make_common cpu) seen))
  ∧ (∀ rc out err, P (EvExit (make_common cpu) rc out err)).
Hypothesis P_package : ∀ e, package_event e → P e.

Lemma grows_build_and_package w :
  cpu_count w = cpu →
  grows P w (build_and_package popen re_search zip_bytes args w).2.
Proof.
  intros Hcpu. rewrite build_and_package_unfold. rewrite Hcpu.
  apply (grows_trans _ _ (emit (EvPrint "Running make defconfig...") w));
    [grows_now|].
  destruct P_config as [Hs He]. destruct P_compile as [Hs' He'].
  apply emits_bind; [by apply emits_run_command | intros _].
  unfold compile_and_package.
  apply emits_bind; [by apply emits_print | intros _].
  apply emits_bind; [by apply emits_run_command | intros _].
  apply emits_bind; [by apply emits_print | intros _].
  apply emits_bind; [|intros; apply emits_ret].
  eapply emits_weaken; [exact P_package | apply emits_package].
Qed.

(** The whole of [main] makes the world grow by [P] when the dependency
    check does. *)
Lemma grows_main w :
  cpu_count w = cpu →
  grows P w (acquire_dependencies popen w).2 →
  grows P w (main popen re_search zip_bytes args w).2.
Proof.
  intros Hcpu G0. unfold main.
  destruct (oneui args && aosp args); [simpl; grows_now|].
  destruct (negb (str_in (target args) valid_targets)); [simpl; grows_now|].
  rewrite bind_unfold.
  destruct (acquire_dependencies popen w) as [[[]|e] w0]; simpl in *;
    [|done..].
  rewrite bind_unfold.
  pose proof (emits_probe_and_report popen re_search P P_print P_clang args w0) as G1.
  destruct (probe_and_report popen re_search args w0) as [[[]|e] w1]; simpl in *;
    [|by eapply grows_trans].
  rewrite bind_unfold.
  pose proof (emits_prepare_environment P P_setenv w1) as G2.
  destruct (prepare_environment w1) as [[[]|e] w2]; simpl in *;
    [|eauto using grows_trans].
  rewrite bind_unfold.
  pose proof (emits_clean_output P P_print P_rmtree args w2) as G3.
  destruct (clean_output args w2) as [[[]|e] w3]; simpl in *;
    [|eauto using grows_trans].
  assert (grows P w w3) as G by eauto using grows_trans.
  eapply grows_trans; [exact G|].
  apply grows_build_and_package.
  by rewrite (grows_cpu_count _ _ _ G).
Qed.

End Whole.

(** X16.  Whatever the arguments and the outcome, a run starts no process
    other than the fetch of the sub-project, the compiler probe, the
    configuration command and the compilation command. *)
Theorem main_runs_only
    (popen : list string → filesystem → string → gmap string string → proc)
    (re_search : string → string → option re_match)
    (zip_bytes : list member → string) (args : Args) (w : World) :
  Forall (runs_only [git_update; clang_v;
                     make_defconfig args (cpu_count w);
                     make_common (cpu_count w)])
    (news w (main popen re_search zip_bytes args w).2).
Proof.
  apply (news_grows _ w).
  apply (grows_main popen re_search zip_bytes _ args (cpu_count w));
    try done; try (split; intros; simpl; set_solver).
  - by intros [].
  - apply emits_acquire_dependencies; [done|]. split; intros; simpl; set_solver.
Qed.

(** X17.  With the packaging sub-project in place, no run fetches it:
    [git] is never started. *)
Theorem no_fetch_when_present
    (popen : list string → filesystem → string → gmap string string → proc)
    (re_search : string → string → option re_match)
    (zip_bytes : list member → string) (args : Args) (w : World) :
  fs_exists (fs w) (resolve (cwd w) "AnyKernel3/anykernel.sh") = true →
  ∀ seen, EvSpawn git_update seen
            ∉ news w (main popen re_search zip_bytes args w).2.
Proof.
  intros Ha seen Hin.
  assert (grows (not_spawn git_update) w
            (main popen re_search zip_bytes args w).2) as G.
  { apply (grows_main popen re_search zip_bytes _ args (cpu_count w));
      try done.
    - by intros [].
    - unfold acquire_dependencies.
      rewrite (bind_ok _ _ _ _ _ (file_exists_true _ _ Ha)). simpl.
      rewrite (bind_ok (ret tt) _ w tt w eq_refl).
      apply emits_bind; [by apply emits_file_exists | intros []]; simpl.
      + apply emits_ret.
      + apply emits_bind; [apply emits_get | intros d].
        apply emits_bind; [by apply emits_print | intros; apply emits_ret]. }
  apply news_grows in G as [_ G]. rewrite Forall_forall in G.
  by apply G in Hin.
Qed.

Lemma no_fetch_when_present_witness :
  EvSpawn git_update Lab.checkout
    ∉ news (Lab.host Lab.checkout)
        (Lab.run 0 0 Lab.m21 (Lab.host Lab.checkout)).2.
Proof.
  apply (no_fetch_when_present (Lab.popen 0 0) Re.search Lab.zip_store Lab.m21
           (Lab.host Lab.checkout)).
  vm_compute. reflexivity.
Defined.

(** X18.  In no run is the compilation started unless the configuration
    command has exited with code 0 before. *)
Theorem compile_needs_config
    (popen : list string → filesystem → string → gmap string string → proc)
    (re_search : string → string → option re_match)
    (zip_bytes : list member → string) (args : Args) (w : World)
    (seen : filesystem) :
  EvSpawn (make_common (cpu_count w)) seen
    ∈ news w (main popen re_search zip_bytes args w).2 →
  ∃ out err l1 l2,
    news w (main popen re_search zip_bytes args w).2
    = l1 ++ EvExit (make_defconfig args (cpu_count w)) 0 out err :: l2
    ∧ EvSpawn (make_common (cpu_count w)) seen ∈ l2.
Proof.
  intros Hin.
  destruct (main_prelude popen re_search zip_bytes args w)
    as [[G _]|(w1 & G & _ & _ & _ & Hmain)].
  { apply news_grows in G as [_ G]. rewrite Forall_forall in G.
    apply G in Hin. simpl in Hin.
    destruct (make_common_not_prelude (cpu_count w)). by destruct Hin. }
  pose proof (grows_cpu_count _ _ _ G) as Hcpu.
  destruct G as (evs1 & Hl1 & Hevs1 & _).
  assert (EvSpawn (make_common (cpu_count w)) seen ∉ evs1) as Hno1.
  { intros Hin1. rewrite Forall_forall in Hevs1. apply Hevs1 in Hin1.
    simpl in Hin1. destruct (make_common_not_prelude (cpu_count w)).
    by destruct Hin1. }
  rewrite Hmain in Hin |- *. clear Hmain.
  destruct (popen (make_defconfig args (cpu_count w1)) (fs w1) (cwd w1) (environ w1))
    as [e|rc out err fs'] eqn:Hp.
  { rewrite (config_not_spawned popen re_search zip_bytes _ _ _ Hp) in Hin.
    rewrite (news_app w _
               (evs1 ++ [EvPrint "Running make defconfig...";
                         EvSpawn (make_defconfig args (cpu_count w1)) (fs w1)]))
      in Hin.
    2:{ simpl. rewrite Hl1. by rewrite <- !app_assoc. }
    apply elem_of_app in Hin as [Hin|Hin]; [done|].
    repeat (apply elem_of_cons in Hin as [Hin|Hin]; [discriminate Hin|]).
    by apply elem_of_nil in Hin. }
  destruct (ran_log (make_defconfig args (cpu_count w1))
              (Some "make_defconfig_stdout.log") (Some "make_defconfig_stderr.log")
              (emit (EvPrint "Running make defconfig...") w1) rc out err fs')
    as (post & Hlog & Hpost).
  fold (configured args w1 rc out err fs') in Hlog.
  cbn [log emit fs] in Hlog. rewrite Hl1, Hcpu in Hlog.
  assert (EvSpawn (make_common (cpu_count w)) seen ∉ post) as Hno2.
  { intros Hin2. rewrite Forall_forall in Hpost. by apply Hpost in Hin2. }
  rewrite (config_exited popen re_search zip_bytes _ _ _ _ _ _ Hp) in Hin |- *.
  rewrite Hcpu in Hin |- *.
  case_bool_decide as Hrc.
  - exfalso. cbn [snd] in Hin.
    rewrite (news_app w _
               (evs1 ++ [EvPrint "Running make defconfig...";
                         EvSpawn (make_defconfig args (cpu_count w)) (fs w1);
                         EvExit (make_defconfig args (cpu_count w)) rc out err]
                     ++ post)) in Hin.
    2:{ rewrite Hlog. by rewrite <- !app_assoc. }
    apply elem_of_app in Hin as [Hin|Hin]; [done|].
    apply elem_of_app in Hin as [Hin|Hin]; [|done].
    repeat (apply elem_of_cons in Hin as [Hin|Hin]; [discriminate Hin|]).
    by apply elem_of_nil in Hin.
  - assert (rc = 0%Z) as -> by lia.
    destruct (emits_compile_and_package popen re_search zip_bytes args
                (cpu_count w) (configured args w1 0 out err fs'))
      as (evs3 & Hl3 & _).
    rewrite (news_app w _
               ((evs1 ++ [EvPrint "Running make defconfig...";
                          EvSpawn (make_defconfig args (cpu_count w)) (fs w1)])
                  ++ EvExit (make_defconfig args (cpu_count w)) 0 out err
                  :: (post ++ evs3))) in Hin |- *.
    2,3: rewrite Hl3, Hlog; by rewrite <- !app_assoc.
    exists out, err. eexists _, _. split; [reflexivity|].
    apply elem_of_app in Hin as [Hin|Hin].
    { apply elem_of_app in Hin as [Hin|Hin]; [done|].
      repeat (apply elem_of_cons in Hin as [Hin|Hin]; [discriminate Hin|]).
      by apply elem_of_nil in Hin. }
    apply elem_of_cons in Hin as [Hin|Hin]; [discriminate Hin | done].
Qed.

Lemma compile_needs_config_witness :
  ∃ out err,
    EvExit (make_defconfig Lab.m21 (Some 8)) 0 out err
      ∈ log (Lab.run 0 0 Lab.m21 (Lab.host Lab.checkout)).2.
Proof.
  assert (Lab.spawned_without (log (Lab.run 0 0 Lab.m21 (Lab.host Lab.checkout)).2)
            24 (make_common (Some 8)) (resolve Lab.home "out/vmlinux") = true)
    as Hb by (vm_compute; reflexivity).
  unfold Lab.spawned_without in Hb.
  destruct (log (Lab.run 0 0 Lab.m21 (Lab.host Lab.checkout)).2 !! 24%nat)
    as [[|c seen| | | | | | | | | |]|] eqn:E; try discriminate Hb.
  apply andb_prop in Hb as [Hc _]. apply bool_decide_eq_true_1 in Hc. subst c.
  assert (EvSpawn (make_common (Some 8)) seen
          ∈ log (Lab.run 0 0 Lab.m21 (Lab.host Lab.checkout)).2) as Hin.
  { apply list_elem_of_lookup. by exists 24%nat. }
  destruct (compile_needs_config (Lab.popen 0 0) Re.search Lab.zip_store
              Lab.m21 (Lab.host Lab.checkout) seen Hin)
    as (out & err & l1 & l2 & Hl & _).
  exists out, err.
  change (log (Lab.run 0 0 Lab.m21 (Lab.host Lab.checkout)).2)
    with (news (Lab.host Lab.checkout)
            (Lab.run 0 0 Lab.m21 (Lab.host Lab.checkout)).2).
  unfold Lab.run. rewrite Hl. apply elem_of_app. right. by left.
Defined.

(** ** The [--no-ksu] flag *)

Lemma same_event_refl e : same_event e e.
Proof. by left. Qed.

Lemma agree_refl w : agree w w.
Proof. split; [done|]. apply Forall2_same_length_lookup_2; [done|]. intros i x y Hx Hy. left. congruence. Qed.

Lemma agree_emit e1 e2 w1 w2 :
  same_event e1 e2 → agree w1 w2 → agree (emit e1 w1) (emit e2 w2).
Proof.
  intros He [Hc Hl]. split; [exact Hc|]. simpl.
  apply Forall2_app; [done | by constructor].
Qed.

Ltac alike_now :=
  intros [f1 c1 e1 n1 t1 el1 l1] [f2 c2 e2 n2 t2 el2 l2] [Hc Hl];
  simpl in Hc, Hl; injection Hc as -> -> -> -> -> ->;
  cbn; repeat case_match; cbn;
  (split; [reflexivity|]); (split; [reflexivity|]); cbn;
  repeat (apply Forall2_app); try assumption; repeat constructor.

Lemma alike_ret {A} (a : A) : alike (ret a) (ret a).
Proof. by intros w1 w2 H. Qed.

Lemma alike_raise {A} (e : exn) : alike (raise (A:=A) e) (raise e).
Proof. by intros w1 w2 H. Qed.

Lemma alike_bind {A B} (m1 m2 : M A) (k1 k2 : A → M B) :
  alike m1 m2 → (∀ a, alike (k1 a) (k2 a)) → alike (bind m1 k1) (bind m2 k2).
Proof.
  intros Hm Hk w1 w2 H. unfold bind.
  destruct (Hm w1 w2 H) as [Hr Hw].
  destruct (m1 w1) as [[a|e] w1'], (m2 w2) as [[a'|e'] w2'];
    simpl in Hr, Hw; try discriminate Hr.
  - injection Hr as <-. by apply Hk.
  - by injection Hr as <-.
Qed.

Lemma alike_try_except {A} (m1 m2 : M A) handled (h1 h2 : exn → M A) :
  alike m1 m2 → (∀ e, alike (h1 e) (h2 e)) →
  alike (try_except m1 handled h1) (try_except m2 handled h2).
Proof.
  intros Hm Hh w1 w2 H. unfold try_except.
  destruct (Hm w1 w2 H) as [Hr Hw].
  destruct (m1 w1) as [[a|e] w1'], (m2 w2) as [[a'|e'] w2'];
    simpl in Hr, Hw; try discriminate Hr.
  - by injection Hr as <-.
  - injection Hr as <-. destruct (handled e); [by apply Hh | done].
Qed.

Lemma alike_get {A} (f : World → A) :
  (∀ w1 w2, agree w1 w2 → f w1 = f w2) → alike (get f) (get f).
Proof. intros Hf w1 w2 H. unfold get. simpl. by rewrite (Hf w1 w2 H). Qed.

Lemma alike_print line : alike (print line) (print line).
Proof. unfold print, modify. alike_now. Qed.

Lemma alike_path_exists p : alike (path_exists p) (path_exists p).
Proof. unfold path_exists, get. alike_now. Qed.

Lemma alike_write_text p text : alike (write_text p text) (write_text p text).
Proof. unfold write_text. alike_now. Qed.

Lemma alike_read_text p : alike (read_text p) (read_text p).
Proof. unfold read_text. alike_now. Qed.

Lemma alike_rmtree p : alike (rmtree p) (rmtree p).
Proof. unfold rmtree. alike_now. Qed.

Lemma alike_copyfile src dst : alike (copyfile src dst) (copyfile src dst).
Proof. unfold copyfile. alike_now. Qed.

Lemma alike_chdir p : alike (chdir p) (chdir p).
Proof. unfold chdir. alike_now. Qed.

Lemma alike_remove p : alike (remove p) (remove p).
Proof. unfold remove. alike_now. Qed.

Lemma alike_move src dst : alike (move src dst) (move src dst).
Proof. unfold move. alike_now. Qed.

Lemma alike_getenv x : alike (getenv x) (getenv x).
Proof. unfold getenv. alike_now. Qed.

Lemma alike_setenv x v : alike (setenv x v) (setenv x v).
Proof. unfold setenv, modify. alike_now. Qed.

Lemma alike_group (m : re_match) n : alike (group m n) (group m n).
Proof. unfold group. destruct (m !! n); [apply alike_ret | apply alike_raise]. Qed.

Lemma alike_lookup_name locals x : alike (lookup_name locals x) (lookup_name locals x).
Proof.
  unfold lookup_name. destruct (_ !! x); [apply alike_ret|].
  destruct (str_in _ _); [apply alike_ret | apply alike_raise].
Qed.

Lemma zf_write_all_agree files written w1 w2 :
  fs w1 = fs w2 → cwd w1 = cwd w2 →
  (zf_write_all files written w1).1 = (zf_write_all files written w2).1.
Proof.
  intros Hf Hc. revert written.
  induction files as [|x files IH]; intros written; simpl; [done|].
  unfold zf_write. rewrite Hf, Hc.
  destruct (fs w2 !! resolve (cwd w2) x) as [[s|]|];
    [| destruct (fs_exists (fs w2) (resolve (cwd w2) x)) ..];
    simpl; try apply IH; done.
Qed.

Section Alike.

Variable popen : list string → filesystem → string → gmap string string → proc.
Variable re_search : string → string → option re_match.
Variable zip_bytes : list member → string.

Lemma alike_spawn command : alike (spawn popen command) (spawn popen command).
Proof. unfold spawn. alike_now. Qed.

Lemma alike_run_command command so se :
  alike (run_command popen command so se) (run_command popen command so se).
Proof.
  unfold run_command.
  apply alike_bind; [apply alike_spawn | intros [[rc out] err]].
  apply alike_bind.
  { destruct (truthy so); [apply alike_write_text | apply alike_ret]. }
  intros _. apply alike_bind.
  { destruct (truthy se); [apply alike_write_text | apply alike_ret]. }
  intros _. apply alike_bind.
  { destruct (_ || _); [apply alike_print | apply alike_ret]. }
  intros _. destruct (bool_decide _); [apply alike_raise | apply alike_ret].
Qed.

Lemma alike_file_exists p : alike (file_exists p) (file_exists p).
Proof.
  unfold file_exists. apply alike_bind; [apply alike_path_exists | intros []]; simpl.
  - apply alike_ret.
  - apply alike_bind; [apply alike_print | intros; apply alike_ret].
Qed.

Lemma alike_extract_match regex text :
  alike (extract_match re_search regex text) (extract_match re_search regex text).
Proof.
  unfold extract_match. destruct (re_search regex text); [apply alike_group|].
  repeat (apply alike_bind; [apply alike_lookup_name | intros ?]).
  apply alike_raise.
Qed.

Lemma display_info_world info w :
  display_info info w
  = (Ok tt,
     mkWorld (fs w) (cwd w) (environ w) (cpu_count w) (today w) (elapsed w)
       (log w ++ info_lines info)).
Proof.
  unfold display_info.
  rewrite (bind_ok (print _) _ w tt _ eq_refl).
  rewrite (bind_ok _ _ _ _ _ (print_items_log info _)).
  unfold info_lines, print, modify, emit. simpl. by rewrite <- !app_assoc.
Qed.

Lemma alike_display_info info1 info2 :
  Forall2 same_event (info_lines info1) (info_lines info2) →
  alike (display_info info1) (display_info info2).
Proof.
  intros Hi w1 w2 [Hc Hl]. rewrite !display_info_world. simpl.
  split; [done|]. split; [done|]. simpl. by apply Forall2_app.
Qed.

Lemma alike_create_zip name files :
  alike (create_zip zip_bytes name files) (create_zip zip_bytes name files).
Proof.
  unfold create_zip.
  apply alike_bind; [apply alike_print | intros _].
  apply alike_bind.
  { apply alike_get. intros w1 w2 [[= _ -> _ _ _ _] _]. done. }
  intros k. apply alike_bind; [unfold zip_open; alike_now | intros _].
  apply alike_bind; [|intros _; apply alike_print].
  intros w1 w2 [Hc Hl]. unfold zip_write_and_close.
  injection Hc as Hf Hd He Hn Ht Hel.
  pose proof (zf_write_all_agree files [] w1 w2 Hf Hd) as Hr.
  pose proof (zf_write_all_world files [] w1) as H1.
  pose proof (zf_write_all_world files [] w2) as H2.
  destruct (zf_write_all files [] w1) as [[r1 m1] w1'].
  destruct (zf_write_all files [] w2) as [[r2 m2] w2'].
  simpl in *. subst w1' w2'. injection Hr as -> ->.
  split; [done|]. split; [simpl; congruence|].
  simpl. apply Forall2_app; [done | repeat constructor; by left].
Qed.

Lemma alike_acquire_dependencies :
  alike (acquire_dependencies popen) (acquire_dependencies popen).
Proof.
  unfold acquire_dependencies.
  apply alike_bind; [apply alike_file_exists | intros have_ak3].
  apply alike_bind.
  { destruct have_ak3; simpl; [apply alike_ret|].
    apply alike_bind; [apply alike_run_command | intros; apply alike_ret]. }
  intros _. apply alike_bind; [apply alike_file_exists | intros []]; simpl.
  - apply alike_ret.
  - apply alike_bind.
    { apply alike_get. intros w1 w2 [[= _ -> _ _ _ _] _]. done. }
    intros d. apply alike_bind; [apply alike_print | intros; apply alike_ret].
Qed.

Lemma alike_probe_and_report args b :
  alike (probe_and_report popen re_search (with_no_ksu b args))
        (probe_and_report popen re_search args).
Proof.
  unfold probe_and_report, verify_executable, get_version.
  apply alike_bind.
  { apply alike_try_except.
    - apply alike_bind; [apply alike_run_command | intros; apply alike_ret].
    - intros e. apply alike_bind; [apply alike_print | intros; apply alike_raise]. }
  intros _. apply alike_bind.
  { apply alike_bind; [apply alike_run_command | intros; apply alike_extract_match]. }
  intros v. apply alike_display_info. unfold info_lines. simpl.
  repeat (constructor; [try apply same_event_refl|]); [|by constructor].
  right. eexists _, _. split; reflexivity.
Qed.

Lemma alike_prepare_environment : alike prepare_environment prepare_environment.
Proof.
  unfold prepare_environment.
  apply alike_bind.
  { apply alike_get. intros w1 w2 [[= _ -> _ _ _ _] _]. done. }
  intros d. apply alike_bind; [apply alike_getenv | intros p].
  destruct (negb _); [|apply alike_ret].
  apply alike_bind; [apply alike_getenv | intros p'].
  apply alike_setenv.
Qed.

Lemma alike_clean_output args : alike (clean_output args) (clean_output args).
Proof.
  unfold clean_output.
  apply alike_bind; [apply alike_path_exists | intros e].
  destruct (e && _); [|apply alike_ret].
  apply alike_bind; [apply alike_print | intros _].
  apply alike_rmtree.
Qed.

Lemma alike_build args : alike (build popen args) (build popen args).
Proof.
  unfold build.
  apply alike_bind.
  { apply alike_get. intros w1 w2 [[= _ _ _ -> _ _] _]. done. }
  intros cpu. apply alike_bind; [apply alike_print | intros _].
  apply alike_bind; [apply alike_run_command | intros _].
  apply alike_bind; [apply alike_print | intros _].
  apply alike_bind; [apply alike_run_command | intros _].
  apply alike_print.
Qed.

Lemma alike_package args :
  alike (package re_search zip_bytes args) (package re_search zip_bytes args).
Proof.
  unfold package.
  apply alike_bind; [apply alike_read_text | intros text].
  apply alike_bind; [apply alike_extract_match | intros info].
  apply alike_bind; [apply alike_copyfile | intros _].
  apply alike_bind.
  { apply alike_get. intros w1 w2 [[= _ _ _ _ -> _] _]. done. }
  intros date. apply alike_bind; [apply alike_chdir | intros _].
  apply alike_bind; [apply alike_create_zip | intros _].
  apply alike_bind.
  { apply alike_get. intros w1 w2 [[= _ -> _ _ _ _] _]. done. }
  intros d. apply alike_bind.
  { apply alike_try_except; [apply alike_remove | intros; apply alike_ret]. }
  intros _. apply alike_bind; [apply alike_move | intros _].
  apply alike_bind; [apply alike_chdir | intros _].
  apply alike_bind.
  { apply alike_get. intros w1 w2 [[= _ _ _ _ _ ->] _]. done. }
  intros seconds. apply alike_display_info.
  apply Forall2_same_length_lookup_2; [done|].
  intros i x y Hx Hy. left. congruence.
Qed.

End Alike.

(** X19.  The [--no-ksu] flag changes one printed line and nothing else.
    With the flag or without it, a run ends in the same way, with the same
    files, working directory and environment, and after the same effects in
    the same order (the same processes started in the same file systems, the
    same files written, the same archive), but for the [With KernelSU] line
    of the information block. *)
Theorem no_ksu_flag_one_line
    (popen : list string → filesystem → string → gmap string string → proc)
    (re_search : string → string → option re_match)
    (zip_bytes : list member → string) (args : Args) (b : bool) (w : World) :
  (main popen re_search zip_bytes (with_no_ksu b args) w).1
  = (main popen re_search zip_bytes args w).1
  ∧ agree (main popen re_search zip_bytes (with_no_ksu b args) w).2
          (main popen re_search zip_bytes args w).2.
Proof.
  revert w.
  assert (alike (main popen re_search zip_bytes (with_no_ksu b args))
                (main popen re_search zip_bytes args)) as H.
  2:{ intros w. apply H, agree_refl. }
  unfold main. cbn [with_no_ksu oneui aosp target].
  destruct (oneui args && aosp args).
  { apply alike_bind; [apply alike_print | intros; apply alike_ret]. }
  destruct (negb (str_in (target args) valid_targets)).
  { apply alike_bind; [apply alike_print | intros; apply alike_ret]. }
  apply alike_bind; [apply alike_acquire_dependencies | intros []]; simpl;
    [|apply alike_ret].
  apply alike_bind; [apply alike_probe_and_report | intros _].
  apply alike_bind; [apply alike_prepare_environment | intros _].
  apply alike_bind; [apply (alike_clean_output args) | intros _].
  apply alike_bind; [apply (alike_build popen args) | intros _].
  apply alike_bind; [apply (alike_package re_search zip_bytes args) | intros _].
  apply alike_ret.
Qed.

(** ** What the packaging leaves *)

Lemma copyfile_ok_world src dst w u w1 :
  copyfile src dst w = (Ok u, w1) →
  ∃ s, fs w !! resolve (cwd w) src = Some (File s)
       ∧ w1 = emit (EvCopy (resolve (cwd w) src) (resolve (cwd w) dst))
                (set_fs (<[resolve (cwd w) dst := File s]> (fs w)) w).
Proof.
  unfold copyfile.
  destruct (fs w !! resolve (cwd w) src) as [[s|]|]; try discriminate.
  intros [= _ <-]. by exists s.
Qed.

Lemma chdir_ok_world p w u w1 :
  chdir p w = (Ok u, w1) →
  w1 = emit (EvChdir (resolve (cwd w) p)) (set_cwd (render (resolve (cwd w) p)) w).
Proof.
  unfold chdir. destruct (fs_exists _ _); [|discriminate]. by intros [= _ <-].
Qed.

Lemma remove_or_not_world p w u w1 :
  try_except (remove p) is_FileNotFoundError (λ _, ret tt) w = (Ok u, w1) →
  fs w1 = delete (resolve (cwd w) p) (fs w) ∧ cwd w1 = cwd w.
Proof.
  unfold try_except, remove.
  destruct (fs w !! resolve (cwd w) p) eqn:E; simpl; intros [= _ <-].
  - done.
  - by rewrite (delete_id _ _ E).
Qed.

Lemma move_ok_world src dst w u w1 :
  move src dst w = (Ok u, w1) →
  ∃ n, fs w !! resolve (cwd w) src = Some n
       ∧ fs w1 = <[resolve (cwd w) dst := n]> (delete (resolve (cwd w) src) (fs w))
       ∧ cwd w1 = cwd w.
Proof.
  unfold move. destruct (fs w !! resolve (cwd w) src) as [n|]; [|discriminate].
  intros [= _ <-]. by exists n.
Qed.

Lemma zf_write_ok file w m w' :
  zf_write file w = (Ok m, w') → m = member_of (fs w) (cwd w) file ∧ w' = w.
Proof.
  unfold zf_write, member_of.
  destruct (fs w !! resolve (cwd w) file) as [[s|]|];
    [| destruct (fs_exists (fs w) (resolve (cwd w) file)) ..];
    by intros [= <- <-].
Qed.

Lemma zf_write_all_ok files written w ms w1 :
  zf_write_all files written w = (Ok tt, ms, w1) →
  ms = written ++ map (member_of (fs w) (cwd w)) files.
Proof.
  revert written. induction files as [|x files IH]; intros written; simpl.
  { intros [= <- _]. by rewrite app_nil_r. }
  destruct (zf_write x w) as [[m|e] w'] eqn:Hz; [|discriminate].
  apply zf_write_ok in Hz as [-> ->]. intros H%IH.
  by rewrite <- app_assoc in H.
Qed.

(** An archive that was created without error holds all the files
    listed. *)
Lemma create_zip_ok_world zip_bytes name files w u w1 :
  create_zip zip_bytes name files w = (Ok u, w1) →
  fs w1
  = <[resolve (cwd w) name :=
        File (zip_bytes
                (map (member_of (<[resolve (cwd w) name := File EmptyString]> (fs w))
                        (cwd w)) files))]> (fs w)
  ∧ cwd w1 = cwd w.
Proof.
  unfold create_zip.
  rewrite (bind_ok (print _) _ w tt _ eq_refl).
  set (w0 := emit _ w).
  rewrite (bind_ok (get _) _ w0 (resolve (cwd w) name) w0 eq_refl).
  rewrite (bind_ok (zip_open name) _ w0 tt _ eq_refl).
  set (w2 := emit (EvZipOpen _) _).
  rewrite bind_unfold. unfold zip_write_and_close.
  pose proof (zf_write_all_world files [] w2) as Hw.
  destruct (zf_write_all files [] w2) as [[[[]|e] members] w3] eqn:Hz;
    simpl in Hw; subst w3; [|discriminate].
  apply zf_write_all_ok in Hz. simpl in Hz. subst members.
  intros [= _ <-]. simpl. split; [|done]. apply insert_insert_eq.
Qed.

Lemma zip_filename_plain args date :
  has_char "/" (target args) = false → has_char "/" date = false →
  plain_name (zip_filename args date) = true.
Proof.
  intros Ht Hd. unfold plain_name.
  assert (has_char "/" (zip_filename args date) = false) as ->.
  { unfold zip_filename. rewrite !has_char_app, Ht, Hd.
    unfold build_type. by destruct (oneui args). }
  reflexivity.
Qed.

Lemma resolve_names d comps :
  normal comps →
  resolve d (join "/" comps) = here d ++ comps.
Proof.
  intros H. destruct comps as [|c comps].
  { simpl. rewrite resolve_relative by done. simpl. by rewrite app_nil_r. }
  rewrite resolve_relative.
  - rewrite split_join; [|done | by apply normal_no_slash].
    by apply foldl_normalize_step_plain.
  - inversion H as [|? ? Hc _]; subst.
    pose proof (plain_name_not_absolute c Hc) as Hc'.
    destruct comps; [done|].
    change (join "/" (c :: s :: comps)) with (c +:+ "/" +:+ join "/" (s :: comps)).
    destruct c; [discriminate Hc|]. by rewrite str_app_cons.
Qed.

(** The world a packaging that ends well leaves: the image copied into the
    sub-project, the archive created there, then moved to the directory of
    the start in place of whatever had its name. *)
Lemma package_world
    (re_search : string → string → option re_match)
    (zip_bytes : list member → string) (args : Args) (w w' : World) (u : unit) :
  package re_search zip_bytes args w = (Ok u, w') →
  has_char "/" (target args) = false →
  has_char "/" (today w) = false →
  let name := zip_filename args (today w) in
  let root := here (cwd w) in
  let ak3 := render (root ++ ["AnyKernel3"]) in
  ∃ image,
    fs w !! (root ++ ["out"; "arch"; "arm64"; "boot"; "Image"]) = Some (File image)
    ∧ resolve ak3 "Image" = root ++ ["AnyKernel3"; "Image"]
    ∧ cwd w' = render root
    ∧ let copied := <[root ++ ["AnyKernel3"; "Image"] := File image]> (fs w) in
      let members :=
        map (member_of (<[root ++ ["AnyKernel3"; name] := File EmptyString]> copied)
               ak3) manifest in
      fs w'
      = <[root ++ [name] := File (zip_bytes members)]>
          (delete (root ++ ["AnyKernel3"; name])
             (delete (root ++ [name])
                (<[root ++ ["AnyKernel3"; name] := File (zip_bytes members)]>
                   copied))).
Proof.
  intros H Ht Hd name root ak3.
  pose proof (zip_filename_plain args (today w) Ht Hd) as Hname.
  fold name in Hname.
  assert (normal (root ++ ["AnyKernel3"])) as HA.
  { apply Forall_app. split; [apply here_normal | by repeat constructor]. }
  assert (resolve (cwd w) "out/arch/arm64/boot/Image"
          = root ++ ["out"; "arch"; "arm64"; "boot"; "Image"]) as Rsrc.
  { apply (resolve_names (cwd w) ["out"; "arch"; "arm64"; "boot"; "Image"]).
    by repeat constructor. }
  assert (resolve (cwd w) "AnyKernel3/Image" = root ++ ["AnyKernel3"; "Image"])
    as Rdst.
  { apply (resolve_names (cwd w) ["AnyKernel3"; "Image"]). by repeat constructor. }
  assert (resolve (cwd w) "AnyKernel3/" = root ++ ["AnyKernel3"]) as Rak3.
  { rewrite resolve_relative by done.
    change (split "/" "AnyKernel3/") with ["AnyKernel3"; EmptyString].
    change (foldl normalize_step (here (cwd w)) ["AnyKernel3"; EmptyString])
      with (normalize_step (here (cwd w)) "AnyKernel3").
    by apply normalize_step_plain. }
  assert (resolve ak3 name = root ++ ["AnyKernel3"; name]) as Rzip.
  { rewrite (resolve_plain _ _ Hname). unfold ak3.
    rewrite (here_render _ HA). by rewrite <- app_assoc. }
  assert (resolve ak3 "Image" = root ++ ["AnyKernel3"; "Image"]) as Rimg.
  { rewrite resolve_plain by done. unfold ak3.
    rewrite (here_render _ HA). by rewrite <- app_assoc. }
  assert (resolve ak3 (path_join ak3 [".."; name]) = root ++ [name]) as Rfinal
    by exact (resolve_sibling root "AnyKernel3" name HA Hname).
  assert (resolve ak3 ".." = root) as Rup
    by exact (resolve_parent root "AnyKernel3" HA).
  assert (root ++ ["AnyKernel3"; name] ≠ root ++ [name]) as N1.
  { intros [=]%app_inv_head. }
  unfold package in H.
  apply bind_ok_inv in H as (text & w1 & H1 & H).
  apply read_text_ok in H1 as ->.
  apply bind_ok_inv in H as (release & w1 & H1 & H).
  apply extract_match_ok in H1 as (-> & _).
  apply bind_ok_inv in H as (u1 & w1 & H1 & H).
  apply copyfile_ok_world in H1 as (image & Himg & ->).
  rewrite Rsrc in Himg. rewrite Rsrc, Rdst in H.
  apply bind_ok_inv in H as (date & w1' & H2 & H).
  apply get_ok in H2 as (-> & ->). cbn [today emit set_fs] in H. fold name in H.
  apply bind_ok_inv in H as (u2 & w2 & H2 & H).
  apply chdir_ok_world in H2 as ->. cbn [cwd emit set_fs] in H.
  rewrite Rak3 in H. fold ak3 in H.
  apply bind_ok_inv in H as (u3 & w3 & H3 & H).
  apply create_zip_ok_world in H3 as (F3 & C3).
  cbn [cwd fs emit set_fs set_cwd] in F3, C3. rewrite Rzip in F3.
  apply bind_ok_inv in H as (d & w3' & H4 & H).
  apply get_ok in H4 as (-> & ->). rewrite C3 in H.
  apply bind_ok_inv in H as (u4 & w4 & H4 & H).
  apply remove_or_not_world in H4 as (F4 & C4).
  rewrite C3, Rfinal in F4. rewrite C3 in C4.
  apply bind_ok_inv in H as (u5 & w5 & H5 & H).
  apply move_ok_world in H5 as (n & Hn & F5 & C5).
  rewrite C4, Rzip in Hn. rewrite C4, Rzip, Rfinal in F5. rewrite C4 in C5.
  apply bind_ok_inv in H as (u6 & w6 & H6 & H).
  apply chdir_ok_world in H6 as ->. rewrite C5, Rup in H.
  apply bind_ok_inv in H as (seconds & w6' & H7 & H).
  apply get_ok in H7 as (-> & ->).
  rewrite display_info_world in H. injection H as _ <-.
  cbn [fs cwd emit set_cwd].
  rewrite F4, F3 in Hn.
  rewrite lookup_delete_ne, lookup_insert_eq in Hn by done.
  injection Hn as <-.
  exists image. split_and!; try done.
  by rewrite F5, F4, F3.
Qed.



Lemma valid_target_no_slash t : t ∈ valid_targets → has_char "/" t = false.
Proof.
  unfold valid_targets. intros H.
  repeat (apply elem_of_cons in H as [->|H]; [reflexivity|]).
  by apply elem_of_nil in H.
Qed.





(** The log of a build that went through, event by event up to what the
    two runs of [run_command] log after the exits. *)
Lemma build_log args w out1 err1 fs1 out2 err2 fs2 :
  ∃ post1 seen post2,
    log (compiled (cpu_count w) (configured args w 0 out1 err1 fs1)
           0 out2 err2 fs2)
    = log w
        ++ [EvPrint "Running make defconfig...";
            EvSpawn (make_defconfig args (cpu_count w)) (fs w);
            EvExit (make_defconfig args (cpu_count w)) 0 out1 err1]
        ++ post1
        ++ [EvPrint "Building the kernel...";
            EvSpawn (make_common (cpu_count w)) seen;
            EvExit (make_common (cpu_count w)) 0 out2 err2]
        ++ post2.
Proof.
  destruct (ran_log (make_defconfig args (cpu_count w))
              (Some "make_defconfig_stdout.log") (Some "make_defconfig_stderr.log")
              (emit (EvPrint "Running make defconfig...") w) 0 out1 err1 fs1)
    as (post1 & Hlc & _).
  destruct (ran_log (make_common (cpu_count w))
              (Some "make_common_stdout.log") (Some "make_common_stderr.log")
              (emit (EvPrint "Building the kernel...")
                 (configured args w 0 out1 err1 fs1)) 0 out2 err2 fs2)
    as (post2 & Hld & _).
  exists post1, (fs (emit (EvPrint "Building the kernel...")
                       (configured args w 0 out1 err1 fs1))), post2.
  unfold compiled at 1. rewrite Hld.
  change (log (emit (EvPrint "Building the kernel...")
                 (configured args w 0 out1 err1 fs1)))
    with (log (configured args w 0 out1 err1 fs1)
            ++ [EvPrint "Building the kernel..."]).
  unfold configured at 1. rewrite Hlc.
  change (log (emit (EvPrint "Running make defconfig...") w))
    with (log w ++ [EvPrint "Running make defconfig..."]).
  change (fs (emit (EvPrint "Running make defconfig...") w)) with (fs w).
  by rewrite <- !app_assoc.
Qed.

(** X23.  A run completes only when both the configuration and the
    compilation exited with code 0.  The two compilation logs, in the
    directory the run was started in, then hold what the compilation wrote on
    stdout and on stderr. *)
Theorem completed_build
    (popen : list string → filesystem → string → gmap string string → proc)
    (re_search : string → string → option re_match)
    (zip_bytes : list member → string) (args : Args) (w w' : World) :
  main popen re_search zip_bytes args w = (Ok Completed, w') →
  has_char "/" (today w) = false →
  ∃ out1 err1 out2 err2,
    EvExit (make_defconfig args (cpu_count w)) 0 out1 err1 ∈ news w w'
    ∧ EvExit (make_common (cpu_count w)) 0 out2 err2 ∈ news w w'
    ∧ fs w' !! (here (cwd w) ++ ["make_common_stdout.log"]) = Some (File out2)
    ∧ fs w' !! (here (cwd w) ++ ["make_common_stderr.log"]) = Some (File err2).
Proof.
  intros H Hd.
  destruct (main_prelude popen re_search zip_bytes args w)
    as [[_ Hne]|(w1 & G & _ & Ht & _ & Hmain)].
  { rewrite H in Hne. by destruct Hne. }
  rewrite H in Hmain. symmetry in Hmain. clear H.
  pose proof (grows_cpu_count _ _ _ G) as Hcpu.
  pose proof (grows_same_cwd _ _ _ prelude_event_not_chdir G) as Hcwd.
  pose proof (grows_today _ _ _ G) as Htoday.
  destruct G as (evs1 & Hl1 & _).
  destruct (popen (make_defconfig args (cpu_count w1)) (fs w1) (cwd w1) (environ w1))
    as [e|rc1 o1 e1 fs1] eqn:Hp1.
  { pose proof (config_not_spawned popen re_search zip_bytes _ _ _ Hp1) as E.
    rewrite Hmain in E. discriminate. }
  pose proof (config_exited popen re_search zip_bytes _ _ _ _ _ _ Hp1) as E.
  rewrite Hmain in E. case_bool_decide as Hrc1; [discriminate|].
  assert (rc1 = 0%Z) as -> by lia. clear Hrc1 Hmain Hp1.
  destruct (popen (make_common (cpu_count w1))
              (fs (configured args w1 0 o1 e1 fs1))
              (cwd (configured args w1 0 o1 e1 fs1))
              (environ (configured args w1 0 o1 e1 fs1)))
    as [e|rc2 o2 e2 fs2] eqn:Hp2.
  { pose proof (compile_not_spawned popen re_search zip_bytes args _ _ _ Hp2) as E2.
    rewrite <- E in E2. discriminate. }
  pose proof (compile_exited popen re_search zip_bytes args _ _ _ _ _ _ Hp2) as E2.
  rewrite <- E in E2. case_bool_decide as Hrc2; [discriminate|].
  assert (rc2 = 0%Z) as -> by lia. clear Hrc2 E Hp2.
  symmetry in E2.
  apply bind_ok_inv in E2 as (u & w2 & Hp & Hret). injection Hret as ->.
  destruct (build_log args w1 o1 e1 fs1 o2 e2 fs2) as (post1 & seen & post2 & Hlb).
  revert Hp Hlb.
  pose proof (ran_cwd (make_common (cpu_count w1))
                (Some "make_common_stdout.log") (Some "make_common_stderr.log")
                (emit (EvPrint "Building the kernel...")
                   (configured args w1 0 o1 e1 fs1)) 0 o2 e2 fs2) as Hcd.
  fold (compiled (cpu_count w1) (configured args w1 0 o1 e1 fs1) 0 o2 e2 fs2) in Hcd.
  cbn [cwd emit] in Hcd. rewrite configured_cwd, Hcwd in Hcd.
  pose proof (grows_today _ _ _
                (compiled_grows_build args (cpu_count w1)
                   (configured args w1 0 o1 e1 fs1) 0 o2 e2 fs2)) as Htd.
  rewrite (grows_today _ _ _ (configured_grows_build args w1 0 o1 e1 fs1)) in Htd.
  rewrite Htoday in Htd.
  assert ("make_common_stdout.log" ≠ "make_common_stderr.log") as Hne by done.
  pose proof (ran_stdout (make_common (cpu_count w1))
                "make_common_stdout.log" "make_common_stderr.log"
                (emit (EvPrint "Building the kernel...")
                   (configured args w1 0 o1 e1 fs1)) 0 o2 e2 fs2
                eq_refl eq_refl Hne) as Hso.
  pose proof (ran_stderr (make_common (cpu_count w1))
                "make_common_stdout.log" "make_common_stderr.log"
                (emit (EvPrint "Building the kernel...")
                   (configured args w1 0 o1 e1 fs1)) 0 o2 e2 fs2
                eq_refl) as Hse.
  fold (compiled (cpu_count w1) (configured args w1 0 o1 e1 fs1) 0 o2 e2 fs2)
    in Hso, Hse.
  cbn [cwd emit] in Hso, Hse. rewrite configured_cwd, Hcwd in Hso, Hse.
  rewrite !resolve_plain in Hso, Hse by done.
  revert Hcd Htd Hso Hse.
  generalize (compiled (cpu_count w1) (configured args w1 0 o1 e1 fs1) 0 o2 e2 fs2).
  intros wd Hcd Htd Hso Hse Hp Hlb.
  destruct (emits_package re_search zip_bytes args (emit (EvPrint "Build complete") wd))
    as (evsP & HlP & _).
  rewrite Hp in HlP. cbn [snd log emit] in HlP.
  rewrite Hlb, Hl1, Hcpu in HlP. rewrite <- !app_assoc in HlP.
  exists o1, e1, o2, e2.
  rewrite (news_app _ _ _ HlP).
  split; [find_in|]. split; [find_in|].
  rewrite <- Htd in Hd.
  destruct (package_world re_search zip_bytes args
              (emit (EvPrint "Build complete") wd) w' u Hp
              (valid_target_no_slash _ Ht) Hd)
    as (image & _ & _ & _ & Hfs).
  cbv zeta in Hfs. cbn [cwd emit fs] in Hfs. rewrite Hcd in Hfs.
  rewrite Hfs.
  rewrite !lookup_insert_ne, !lookup_delete_ne, !lookup_insert_ne
    by (intros [=]%app_inv_head).
  by split.
Qed.

Lemma completed_build_witness :
  ∃ out2 err2,
    fs (Lab.run 0 0 Lab.m21 (Lab.host Lab.checkout)).2
      !! (here Lab.home ++ ["make_common_stdout.log"]) = Some (File out2)
    ∧ fs (Lab.run 0 0 Lab.m21 (Lab.host Lab.checkout)).2
        !! (here Lab.home ++ ["make_common_stderr.log"]) = Some (File err2).
Proof.
  assert ((Lab.run 0 0 Lab.m21 (Lab.host Lab.checkout)).1 = Ok Completed) as H1
    by (vm_compute; reflexivity).
  assert (Lab.run 0 0 Lab.m21 (Lab.host Lab.checkout)
          = (Ok Completed, (Lab.run 0 0 Lab.m21 (Lab.host Lab.checkout)).2)) as Hrun.
  { rewrite <- H1. apply surjective_pairing. }
  destruct (completed_build (Lab.popen 0 0) Re.search Lab.zip_store Lab.m21
              (Lab.host Lab.checkout) _ Hrun eq_refl)
    as (o1 & e1 & o2 & e2 & _ & _ & Hso & Hse).
  exists o2, e2. split; [exact Hso | exact Hse].
Defined.

(** X24.  With [PATH] set, and no colon in the path of the working
    directory, the toolchain's executable directory is one of the entries of
    [PATH] once the step has run. *)
Theorem prepare_environment_ensures (w : World) (p : string) :
  environ w !! "PATH" = Some p →
  has_char pathsep (cwd w) = false →
  ∃ p', environ (prepare_environment w).2 !! "PATH" = Some p'
        ∧ toolchain_path (cwd w) ∈ split pathsep p'.
Proof.
  intros Hp Hd.
  destruct (decide (toolchain_path (cwd w) ∈ split pathsep p)) as [Hin|Hin].
  - rewrite (prepare_environment_present w p Hp Hin). by exists p.
  - rewrite (prepare_environment_absent w p Hp Hin). simpl.
    eexists. split; [apply lookup_insert_eq|].
    rewrite str_app_cons, str_app_nil.
    rewrite (split_prepend _ _ _ (toolchain_path_no_sep _ Hd)). by left.
Qed.

Lemma prepare_environment_ensures_witness :
  ∃ p', environ (prepare_environment (Lab.host ∅)).2 !! "PATH" = Some p'
        ∧ toolchain_path Lab.home ∈ split pathsep p'.
Proof.
  exact (prepare_environment_ensures (Lab.host ∅) "/usr/bin:/bin" eq_refl eq_refl).
Defined.

(** ** The information block *)

(** X25.  When the compiler exits with code 0 both times it is asked for
    its version, the probe runs it twice and then prints the information
    block.  The version shown is the first group of the banner found in the
    stderr of the second run; what the first run wrote is not used. *)
Theorem probe_and_report_twice
    (popen : list string → filesystem → string → gmap string string → proc)
    (re_search : string → string → option re_match)
    (args : Args) (w : World)
    (out1 err1 : string) (fs1 : filesystem)
    (out2 err2 : string) (fs2 : filesystem)
    (m : re_match) (version : option string) :
  popen clang_v (fs w) (cwd w) (environ w) = Exited 0 out1 err1 fs1 →
  popen clang_v fs1 (cwd w) (environ w) = Exited 0 out2 err2 fs2 →
  re_search version_regex err2 = Some m →
  m !! 1%nat = Some version →
  (probe_and_report popen re_search args w).1 = Ok tt
  ∧ fs (probe_and_report popen re_search args w).2 = fs2
  ∧ news w (probe_and_report popen re_search args w).2
    = [EvSpawn clang_v (fs w); EvExit clang_v 0 out1 err1;
       EvSpawn clang_v fs1; EvExit clang_v 0 out2 err2;
       EvPrint "================================";
       EvPrint "Kernel Name=Something New";
       EvPrint "Kernel Version=1.7.0";
       EvPrint ("Build Type=" +:+ (if oneui args then "OneUI" else "AOSP"));
       EvPrint ("SELinux=" +:+ (if permissive args then "Permissive" else "Enforcing"));
       EvPrint ("Device=" +:+ target args);
       EvPrint ("With KernelSU=" +:+ (if no_ksu args then "False" else "True"));
       EvPrint "Using LLVM=True";
       EvPrint ("Toolchain Version=" +:+ str_opt version);
       EvPrint "================================"].
Proof.
  intros H1 H2 Hm Hg. unfold probe_and_report.
  assert (verify_executable popen w
          = (Ok tt, emit (EvExit clang_v 0 out1 err1)
                      (set_fs fs1 (emit (EvSpawn clang_v (fs w)) w)))) as Hv.
  { unfold verify_executable, try_except. rewrite bind_unfold.
    by rewrite (run_command_exited popen clang_v None None w 0 out1 err1 fs1 H1). }
  rewrite (bind_ok _ _ _ _ _ Hv).
  set (w1 := emit (EvExit clang_v 0 out1 err1) _).
  assert (get_version popen re_search w1
          = (Ok version, emit (EvExit clang_v 0 out2 err2)
                           (set_fs fs2 (emit (EvSpawn clang_v fs1) w1)))) as Hgv.
  { unfold get_version. rewrite bind_unfold.
    rewrite (run_command_exited popen clang_v None None w1 0 out2 err2 fs2 H2).
    cbn [bool_decide decide_rel]. unfold logged. cbn [truthy orb snd].
    by apply extract_match_found with m. }
  rewrite (bind_ok _ _ _ _ _ Hgv).
  rewrite display_info_world. cbn [fst snd fs emit set_fs].
  split; [done|]. split; [done|].
  apply news_app. subst w1. cbn [log emit set_fs info_lines map fst snd].
  rewrite <- !app_assoc. f_equal. cbn [app]. unfold build_type, selinux_state.
  by destruct (oneui args), (permissive args), (no_ksu args).
Qed.

Lemma probe_and_report_twice_witness :
  (probe_and_report (Lab.popen 0 0) Re.search Lab.m21 (Lab.host ∅)).1 = Ok tt.
Proof.
  refine (proj1 (probe_and_report_twice (Lab.popen 0 0) Re.search Lab.m21
                   (Lab.host ∅)
                   EmptyString "Ubuntu clang version 17.0.6 (9ubuntu1)" ∅
                   EmptyString "Ubuntu clang version 17.0.6 (9ubuntu1)" ∅
                   [Some "Ubuntu clang version 17.0.6";
                    Some "Ubuntu clang version 17.0.6"; Some ".6"]
                   (Some "Ubuntu clang version 17.0.6") _ _ _ _)).
  - reflexivity.
  - reflexivity.
  - vm_compute. reflexivity.
  - reflexivity.
Defined.

(** ** C10: the name of the archive *)

(** C10.  In a run of [main] that completes, the archive is created, moved
    and reported under the name [SN_1.7.0_<target>_<variant>_<date>.zip], the
    variant being [OneUI] with [--oneui] and [AOSP] without, and under that
    name it lies in the directory the run was started in.  The version in the
    name is the constant, whatever release string the generated header holds.
    That string is the first group of the quoted pattern in
    [out/include/generated/utsrelease.h], and the final report prints it on
    its [KERNEL_VERSION] line.  (The date is taken to hold no slash.) *)
Theorem archive_name
    (popen : list string → filesystem → string → gmap string string → proc)
    (re_search : string → string → option re_match)
    (zip_bytes : list member → string) (args : Args) (w w' : World) :
  main popen re_search zip_bytes args w = (Ok Completed, w') →
  has_char "/" (today w) = false →
  let name := "SN_1.7.0_" +:+ target args +:+ "_"
                +:+ (if oneui args then "OneUI" else "AOSP")
                +:+ "_" +:+ today w +:+ ".zip" in
  let ak3 := render (resolve (cwd w) "AnyKernel3/") in
  ∃ text release members,
    fs w' !! resolve (cwd w) "out/include/generated/utsrelease.h"
    = Some (File text)
    ∧ (∃ m, re_search release_regex text = Some m ∧ m !! 1%nat = Some release)
    ∧ EvZipClose (resolve ak3 name) members ∈ log w'
    ∧ EvMove (resolve ak3 name) (resolve ak3 (path_join ak3 [".."; name])) ∈ log w'
    ∧ (∃ archive, fs w' !! (here (cwd w) ++ [name]) = Some (File archive))
    ∧ EvPrint ("OUT_ZIPNAME=" +:+ name) ∈ log w'
    ∧ EvPrint ("KERNEL_VERSION=" +:+ str_opt release) ∈ log w'.
Proof.
  intros H Hd name ak3.
  destruct (main_prelude popen re_search zip_bytes args w)
    as [[_ Hne]|(w1 & G & _ & Ht & _ & Hmain)].
  { rewrite H in Hne. by destruct Hne. }
  rewrite H in Hmain. symmetry in Hmain.
  apply build_and_package_completed in Hmain as (wb & Gb & Hp).
  apply bind_ok_inv in Hp as (u & w2 & Hp & Hret).
  injection Hret as <-.
  assert (cwd wb = cwd w) as Hc.
  { rewrite (grows_same_cwd _ _ _ (build_event_not_chdir args (cpu_count w1)) Gb).
    exact (grows_same_cwd _ _ _ prelude_event_not_chdir G). }
  assert (today wb = today w) as Hto.
  { rewrite (grows_today _ _ _ Gb). exact (grows_today _ _ _ G). }
  pose proof (package_ok re_search zip_bytes args wb u w2 Hp)
    as (text & release & members & removed & Htext & Hrel & _ & Hl).
  rewrite <- Hto in Hd.
  destruct (package_world re_search zip_bytes args wb w2 u Hp
              (valid_target_no_slash _ Ht) Hd)
    as (image & _ & _ & _ & Hfs).
  cbv zeta in Hfs. rewrite Hc, Hto in Hl, Hfs. rewrite Hc in Htext.
  change (zip_filename args (today w)) with name in Hl, Hfs.
  fold ak3 in Hl.
  assert (resolve (cwd w) "out/include/generated/utsrelease.h"
          = here (cwd w) ++ ["out"; "include"; "generated"; "utsrelease.h"]) as Rh.
  { apply (resolve_names (cwd w) ["out"; "include"; "generated"; "utsrelease.h"]).
    by repeat constructor. }
  assert (EvZipClose (resolve ak3 name) members ∈ log w2) as Hclose.
  { rewrite Hl. find_in. }
  exists text, release, members. split_and!.
  - rewrite Hfs, Rh.
    rewrite lookup_insert_ne, !lookup_delete_ne, !lookup_insert_ne
      by (intros [=]%app_inv_head).
    by rewrite <- Rh.
  - exact Hrel.
  - exact Hclose.
  - rewrite Hl. find_in.
  - eexists. rewrite Hfs. apply lookup_insert_eq.
  - rewrite Hl. unfold info_lines. cbn [map fst snd]. find_in.
  - rewrite Hl. unfold info_lines. cbn [map fst snd]. find_in.
Qed.

Lemma archive_name_witness :
  EvPrint "OUT_ZIPNAME=SN_1.7.0_a51_OneUI_2024-05-01.zip"
    ∈ log (Lab.run 0 0 Lab.a51_oneui_permissive (Lab.host Lab.checkout)).2
  ∧ EvPrint "KERNEL_VERSION=4.14.113-sn"
    ∈ log (Lab.run 0 0 Lab.a51_oneui_permissive (Lab.host Lab.checkout)).2.
Proof.
  assert ((Lab.run 0 0 Lab.a51_oneui_permissive (Lab.host Lab.checkout)).1
          = Ok Completed) as H1 by (vm_compute; reflexivity).
  assert (Lab.run 0 0 Lab.a51_oneui_permissive (Lab.host Lab.checkout)
          = (Ok Completed,
             (Lab.run 0 0 Lab.a51_oneui_permissive (Lab.host Lab.checkout)).2))
    as Hrun.
  { rewrite <- H1. apply surjective_pairing. }
  destruct (archive_name (Lab.popen 0 0) Re.search Lab.zip_store
              Lab.a51_oneui_permissive (Lab.host Lab.checkout) _ Hrun eq_refl)
    as (text & release & members & Htext & (m & Hm & Hg) & _ & _ & _ & Hname & Hrel).
  split; [exact Hname|].
  assert (fs (Lab.run 0 0 Lab.a51_oneui_permissive (Lab.host Lab.checkout)).2
            !! resolve (cwd (Lab.host Lab.checkout))
                 "out/include/generated/utsrelease.h"
          = Some (File Lab.uts_release)) as E by (vm_compute; reflexivity).
  rewrite E in Htext. injection Htext as <-.
  assert (∃ whole, Re.search release_regex Lab.uts_release
                   = Some [whole; Some "4.14.113-sn"]) as [whole Es]
    by (eexists; vm_compute; reflexivity).
  rewrite Es in Hm. injection Hm as <-. injection Hg as <-.
  exact Hrel.
Defined.
